(** * Airport management system: the reservation subsystem

    A shallow embedding of the Express/Sequelize routes that book, cancel
    and list reservations, of the routes that create, update and delete
    airports, itineraries, airplanes and flights, and of the tables they
    work on with their foreign keys.  The booking is written twice: once
    as the handler reads (a computation in a state-and-exception monad)
    and once cut at its [await]s into the atomic steps the event loop
    interleaves. *)

From Stdlib Require Import ZArith List String Ascii Bool Lia Floats
  DecimalString.
Import ListNotations.
Local Open Scope string_scope.
Local Open Scope list_scope.
Local Open Scope Z_scope.

Set Warnings "-register-all".

(* ===================================================================== *)
(** ** Strings as the validators see them *)
(* ===================================================================== *)

(** Strings are sequences of ASCII code units.  The validators below are
    those of validator.js restricted to such strings. *)

Module Chars.

Definition code (c : ascii) : N := N_of_ascii c.

Definition is_digit (c : ascii) : bool :=
  ((48 <=? code c) && (code c <=? 57))%N.

Definition is_upper (c : ascii) : bool :=
  ((65 <=? code c) && (code c <=? 90))%N.

Definition is_lower (c : ascii) : bool :=
  ((97 <=? code c) && (code c <=? 122))%N.

(** [\s] on ASCII: tab, line feed, vertical tab, form feed, carriage
    return and space. *)
Definition is_space (c : ascii) : bool :=
  (((9 <=? code c) && (code c <=? 13)) || (code c =? 32))%N.

Definition digit_value (c : ascii) : Z := Z.of_N (code c) - 48.

End Chars.

Module Validator.

(** [/^[0-9A-Z]+$/i] *)
Fixpoint all_alnum (s : string) : bool :=
  match s with
  | EmptyString => true
  | String c s' =>
      (Chars.is_digit c || Chars.is_upper c || Chars.is_lower c)
      && all_alnum s'
  end.

Definition isAlphanumeric (s : string) : bool :=
  match s with
  | EmptyString => false
  | _ => all_alnum s
  end.

Definition isEmpty (s : string) : bool :=
  match s with EmptyString => true | _ => false end.

Definition isLength_min (min : nat) (s : string) : bool :=
  (min <=? String.length s)%nat.

Fixpoint ltrim (s : string) : string :=
  match s with
  | String c s' => if Chars.is_space c then ltrim s' else s
  | EmptyString => EmptyString
  end.

Fixpoint rtrim (s : string) : string :=
  match s with
  | EmptyString => EmptyString
  | String c s' =>
      match rtrim s' with
      | EmptyString => if Chars.is_space c then EmptyString
                       else String c EmptyString
      | t => String c t
      end
  end.

Definition trim (s : string) : string := rtrim (ltrim s).

(** Decimal digits read most significant first. *)
Fixpoint digits (acc : Z) (s : string) : option Z :=
  match s with
  | EmptyString => Some acc
  | String c s' =>
      if Chars.is_digit c then digits (10 * acc + Chars.digit_value c) s'
      else None
  end.

(** One digit or more. *)
Definition unsigned_literal (s : string) : option Z :=
  match s with
  | EmptyString => None
  | _ => digits 0 s
  end.

(** The pattern of [isInt] as the routes call it: an optional sign, then
    one digit or more (leading zeroes are let through unless the caller
    asks otherwise); the result is the integer denoted. *)
Definition int_literal (s : string) : option Z :=
  match s with
  | String c r =>
      if Ascii.eqb c "-" then option_map Z.opp (unsigned_literal r)
      else if Ascii.eqb c "+" then unsigned_literal r
      else unsigned_literal s
  | EmptyString => None
  end.

End Validator.

(* ===================================================================== *)
(** ** JavaScript scalars of a request body *)
(* ===================================================================== *)

(** A field of a JSON body that the validators accept as an integer is a
    number or a string of digits: express-validator turns the value into
    a string before it runs [isInt], and leaves the body's own value as
    it came.  [JNum z] is the number whose value is the integer [z].  A
    number is a binary64: the body holds [z] itself when [z] is a safe
    integer, and the statements about numbers are made of safe integers
    only. *)
Inductive JsVal : Type :=
| JNum (z : Z)
| JStr (s : string).

Module Js.

(** [Number.MAX_SAFE_INTEGER] *)
Definition MAX_SAFE_INTEGER : Z := 2 ^ 53 - 1.

Definition safe (z : Z) : Prop := - MAX_SAFE_INTEGER <= z <= MAX_SAFE_INTEGER.

(** Whether [String(z)] is written with digits only, and a sign: from
    [1e21] on the string of a number has an exponent. *)
Definition plain (z : Z) : bool := Z.abs z <? 10 ^ 21.

(** [ToNumber] on the values [isInt] accepts; [None] is [NaN]. *)
Definition ToNumber (v : JsVal) : option Z :=
  match v with
  | JNum z => Some z
  | JStr s => Validator.int_literal s
  end.

(** [a <= b]: two strings are compared by code units, anything else as
    numbers; a comparison with [NaN] is false. *)
Definition le (a b : JsVal) : bool :=
  match a, b with
  | JStr s, JStr t => String.leb s t
  | _, _ =>
      match ToNumber a, ToNumber b with
      | Some x, Some y => x <=? y
      | _, _ => false
      end
  end.

(** [!!v] *)
Definition truthy (v : JsVal) : bool :=
  match v with
  | JNum z => negb (z =? 0)
  | JStr s => negb (Validator.isEmpty s)
  end.

(** [.notEmpty()] on the stringified value. *)
Definition notEmpty (v : JsVal) : bool :=
  match v with
  | JNum _ => true
  | JStr s => negb (Validator.isEmpty s)
  end.

(** [.isInt({ min })] on the stringified value: the string has to be an
    integer literal, which the string of a number of [1e21] or more is
    not, and the integer it writes has to reach [min]. *)
Definition isInt_min (min : Z) (v : JsVal) : bool :=
  match v with
  | JNum z => plain z && (min <=? z)
  | JStr s =>
      match Validator.int_literal s with
      | Some z => min <=? z
      | None => false
      end
  end.

End Js.

(* ===================================================================== *)
(** ** Tables (database.js) *)
(* ===================================================================== *)

(** One record per model of database.js, with the two timestamp columns
    Sequelize adds.  INTEGER and DATE columns are integers (a date is its
    epoch milliseconds), FLOAT columns are binary64.  A column holds what
    a route wrote to it: none is NULL. *)

Module Airport.
Record t : Type := mk
  { ID : Z; Name : string; Latitude : float; Longitude : float;
    Timezone : string; createdAt : Z; updatedAt : Z }.
End Airport.

Module Itinerary.
Record t : Type := mk
  { ID : Z; Code : string; OriginAirportID : Z; DestinationAirportID : Z;
    DurationMinutes : Z; createdAt : Z; updatedAt : Z }.
End Itinerary.

Module Flights.
Record t : Type := mk
  { ID : Z; ItineraryID : Z; DepartureTime : Z; ArrivalTime : Z;
    AirplaneID : Z; createdAt : Z; updatedAt : Z }.
End Flights.

Module Reservation.
Record t : Type := mk
  { ID : Z; PassengerName : string; FlightID : Z;
    createdAt : Z; updatedAt : Z }.
End Reservation.

Module Airplane.
Record t : Type := mk
  { ID : Z; Name : string; Model : string; Capacity : Z;
    createdAt : Z; updatedAt : Z }.
End Airplane.

(** The database: each table is the list of its rows in rowid order. *)
Record Store : Type := mkStore
  { airports : list Airport.t;
    itineraries : list Itinerary.t;
    airplanes : list Airplane.t;
    flights : list Flights.t;
    reservations : list Reservation.t }.

(** An INTEGER PRIMARY KEY left out of an INSERT gets SQLite's rowid: 1 in
    an empty table, otherwise one more than the largest in use. *)
Definition next_rowid (ids : list Z) : Z :=
  match ids with
  | [] => 1
  | i :: rest => fold_left Z.max rest i + 1
  end.

Definition insert_id {A : Type} (ID : A -> Z) (table : list A) : Z :=
  next_rowid (map ID table).

(** What [include] adds to a row that is read: the row a foreign key
    points at, or [null] when the LEFT OUTER JOIN finds none. *)
Module Eager.
Record ItineraryT : Type := mkItinerary
  { itinerary : Itinerary.t;
    OriginAirport : option Airport.t;
    DestinationAirport : option Airport.t }.
Record FlightT : Type := mkFlight
  { flight : Flights.t;
    Itinerary : option ItineraryT;
    Airplane : option Airplane.t }.
End Eager.

(* ===================================================================== *)
(** ** Responses *)
(* ===================================================================== *)

Inductive Json : Type :=
| jnull
| jint (z : Z)
| jfloat (f : float)
| jstring (s : string)
| jdate (ms : Z)
| jarray (items : list Json)
| jobject (fields : list (string * Json)).

Fixpoint assoc {V : Type} (k : string) (fields : list (string * V))
  : option V :=
  match fields with
  | [] => None
  | (k', v) :: rest => if String.eqb k k' then Some v else assoc k rest
  end.

(** [res.status(code).json(body)] *)
Record Response : Type := mkResponse { status : Z; body : Json }.

Definition error_body (error : string) : Json :=
  jobject [("error", jstring error)].

Definition message_body (message : string) : Json :=
  jobject [("message", jstring message)].

(* ===================================================================== *)
(** ** Validation chains (express-validator) *)
(* ===================================================================== *)

Record ValidationError : Type := mkError
  { location : string; param : string; msg : string }.

(** A chain is run left to right on one field: a validator that fails adds
    its message and the chain goes on; a sanitizer replaces the value for
    the validators after it and in the request the handler reads. *)
Inductive ChainItem (V : Type) : Type :=
| validate (ok : V -> bool) (message : string)
| sanitize (f : V -> V).

Arguments validate {V} ok message.
Arguments sanitize {V} f.

Fixpoint run_chain {V : Type} (where_ name : string)
  (chain : list (ChainItem V)) (v : V) : list ValidationError * V :=
  match chain with
  | [] => ([], v)
  | validate ok message :: rest =>
      let (errors, v') := run_chain where_ name rest v in
      ((if ok v then [] else [mkError where_ name message]) ++ errors, v')
  | sanitize f :: rest => run_chain where_ name rest (f v)
  end.

(** [check(name)] reads a field of the body, [param(name)] a segment of
    the path. *)
Definition check {V : Type} := @run_chain V "body".
Definition check_param {V : Type} := @run_chain V "params".

(** [errors.array()]; the entries' copy of the offending value is left
    out. *)
Definition errors_body (errors : list ValidationError) : Json :=
  jobject
    [("errors",
      jarray (map (fun e => jobject [("msg", jstring (msg e));
                                     ("param", jstring (param e));
                                     ("location", jstring (location e))])
                  errors))].

Definition isEmpty {A : Type} (errors : list A) : bool :=
  match errors with [] => true | _ => false end.

(* ===================================================================== *)
(** ** Handlers as computations *)
(* ===================================================================== *)

(** What a handler can catch: the engine's error for reading a property
    of [null], and the errors Sequelize raises when the database refuses
    a statement over a foreign key or a unique column. *)
Inductive Exn : Type :=
| TypeError (reading : string)
| ForeignKeyConstraintError
| UniqueConstraintError.

Inductive Completion (A : Type) : Type :=
| Normal (a : A)
| Throw (e : Exn).

Arguments Normal {A} a.
Arguments Throw {A} e.

(** A piece of handler code: it reads and writes the database and either
    yields a value or throws.  What it wrote before a throw stays
    written. *)
Definition Async (A : Type) : Type := Store -> Store * Completion A.

Definition ret {A : Type} (a : A) : Async A := fun s => (s, Normal a).

Definition throw {A : Type} (e : Exn) : Async A := fun s => (s, Throw e).

Definition bind {A B : Type} (m : Async A) (k : A -> Async B) : Async B :=
  fun s =>
    match m s with
    | (s', Normal a) => k a s'
    | (s', Throw e) => (s', Throw e)
    end.

Declare Scope async_scope.
Delimit Scope async_scope with async.
Notation "x <- m ;; k" := (bind m (fun x => k))
  (at level 61, m at next level, right associativity) : async_scope.
Notation "m ;;; k" := (bind m (fun _ => k))
  (at level 61, right associativity) : async_scope.
Local Open Scope async_scope.

(** [try { ... } catch (error) { ... }] around a handler body. *)
Definition try_catch (body : Async Response) (handler : Exn -> Response)
  : Store -> Store * Response :=
  fun s =>
    match body s with
    | (s', Normal r) => (s', r)
    | (s', Throw e) => (s', handler e)
    end.

(** [o.p] where [o] may be [null]. *)
Definition deref {A : Type} (reading : string) (o : option A) : Async A :=
  match o with
  | Some a => ret a
  | None => throw (TypeError reading)
  end.

Definition respond (code : Z) (j : Json) : Async Response :=
  ret (mkResponse code j).

(* ===================================================================== *)
(** ** The ORM calls the handlers make *)
(* ===================================================================== *)

(** The instance [create] resolves to.  Every model declares [ID] as a
    primary key without [autoIncrement], so Sequelize does not read the
    row id back after the INSERT: the instance holds the attributes that
    were written, and its [ID] is [null]. *)
Module Built.
Record t (Row : Type) : Type := mk { written : Row }.
Arguments mk {Row} written.
Arguments written {Row} _.

Definition ID {Row : Type} (instance : t Row) : Json := jnull.

Definition get {Row V : Type} (attribute : Row -> V) (instance : t Row) : V :=
  attribute (written instance).
End Built.

(** The foreign keys [sequelize.sync()] declares for the associations of
    database.js, with foreign keys enforced on the connection:
    - Reservation.FlightID, Flights.ItineraryID, Itinerary.OriginAirportID
      and Itinerary.DestinationAirportID each come with a [hasOne] or
      [hasMany] of the parent and are ON DELETE CASCADE;
    - Flights.AirplaneID comes with a [belongsTo] only and is ON DELETE
      NO ACTION.
    A route that inserts or rewrites a child row has looked its parents up
    before, and a route that inserts a row with a unique column has
    looked the value up; nothing comes between the lookup and the write
    when requests are served in turn, and the booking tasks that are
    interleaved below delete no flight, so these writes pass the checks
    of the database.  The write that can fail on a unique column is the
    UPDATE of an itinerary, whose route does not look the code up. *)
Module Cascade.

Definition uses_airport (id : Z) (i : Itinerary.t) : bool :=
  (Itinerary.OriginAirportID i =? id) || (Itinerary.DestinationAirportID i =? id).

Definition mem (id : Z) (ids : list Z) : bool :=
  existsb (Z.eqb id) ids.

(** The flights of the itineraries in [gone], and the reservations of the
    flights in [gone]. *)
Definition flights_of (gone : list Itinerary.t) (f : Flights.t) : bool :=
  mem (Flights.ItineraryID f) (map Itinerary.ID gone).

Definition reservations_of (gone : list Flights.t) (r : Reservation.t) : bool :=
  mem (Reservation.FlightID r) (map Flights.ID gone).

Definition keep {A : Type} (gone : A -> bool) (table : list A) : list A :=
  List.filter (fun row => negb (gone row)) table.

(** [DELETE FROM Flights] of the rows [gone] selects, with the
    reservations that go with them. *)
Definition delete_flights (gone : Flights.t -> bool) (s : Store) : Store :=
  mkStore (airports s) (itineraries s) (airplanes s)
    (keep gone (flights s))
    (keep (reservations_of (List.filter gone (flights s))) (reservations s)).

(** [DELETE FROM Itineraries] of the rows [gone] selects, with their
    flights and the reservations of these. *)
Definition delete_itineraries (gone : Itinerary.t -> bool) (s : Store)
  : Store :=
  let s' := delete_flights (flights_of (List.filter gone (itineraries s))) s in
  mkStore (airports s') (keep gone (itineraries s')) (airplanes s')
    (flights s') (reservations s').

(** [DELETE FROM Airports WHERE ID = id], with the itineraries that start
    or end there and all that goes with them. *)
Definition delete_airport (id : Z) (s : Store) : Store :=
  let s' := delete_itineraries (uses_airport id) s in
  mkStore (List.filter (fun a => negb (Airport.ID a =? id)) (airports s'))
    (itineraries s') (airplanes s') (flights s') (reservations s').

End Cascade.

Module Orm.

Definition find {A : Type} (ID : A -> Z) (id : Z) (table : list A)
  : option A :=
  List.find (fun row => ID row =? id) table.

(** [DELETE FROM table WHERE ID = id] *)
Definition delete {A : Type} (ID : A -> Z) (id : Z) (table : list A)
  : list A :=
  List.filter (fun row => negb (ID row =? id)) table.

(** The [include] of an itinerary: both airports. *)
Definition include_airports (s : Store) (i : Itinerary.t)
  : Eager.ItineraryT :=
  Eager.mkItinerary i
    (find Airport.ID (Itinerary.OriginAirportID i) (airports s))
    (find Airport.ID (Itinerary.DestinationAirportID i) (airports s)).

(** The [include] of a flight: its itinerary with both airports, and its
    airplane. *)
Definition include_all (s : Store) (f : Flights.t) : Eager.FlightT :=
  Eager.mkFlight f
    (option_map (include_airports s)
       (find Itinerary.ID (Flights.ItineraryID f) (itineraries s)))
    (find Airplane.ID (Flights.AirplaneID f) (airplanes s)).

(** [Flights.findOne({ where: { ID }, include: [...] })] *)
Definition Flights_findOne_include (ID : Z) : Async (option Eager.FlightT) :=
  fun s => (s, Normal (option_map (include_all s)
                         (find Flights.ID ID (flights s)))).

Definition for_flight (FlightID : Z) (table : list Reservation.t)
  : list Reservation.t :=
  List.filter (fun r => Reservation.FlightID r =? FlightID) table.

(** [Reservation.count({ where: { FlightID } })] *)
Definition Reservation_count (FlightID : Z) : Async Z :=
  fun s => (s, Normal (Z.of_nat
                         (List.length (for_flight FlightID (reservations s))))).

(** [Reservation.create({ PassengerName, FlightID })] at time [now]: the
    row is stored under the next row id, the instance is built from what
    was written. *)
Definition Reservation_create (now : Z) (PassengerName : string)
  (FlightID : Z) : Async (Built.t Reservation.t) :=
  fun s =>
    let row := Reservation.mk (insert_id Reservation.ID (reservations s))
                 PassengerName FlightID now now in
    (mkStore (airports s) (itineraries s) (airplanes s) (flights s)
       (reservations s ++ [row]),
     Normal (Built.mk row)).

(** [Reservation.findOne({ where: { ID } })] *)
Definition Reservation_findOne (ID : Z) : Async (option Reservation.t) :=
  fun s => (s, Normal (find Reservation.ID ID (reservations s))).

(** [reservation.destroy()] *)
Definition Reservation_destroy (reservation : Reservation.t) : Async unit :=
  fun s =>
    (mkStore (airports s) (itineraries s) (airplanes s) (flights s)
       (delete Reservation.ID (Reservation.ID reservation) (reservations s)),
     Normal tt).

(** [Reservation.findAll({ where: { FlightID }, include: [...] })]; the
    handler reads nothing of what is included. *)
Definition Reservation_findAll (FlightID : Z) : Async (list Reservation.t) :=
  fun s => (s, Normal (for_flight FlightID (reservations s))).

(** [Itinerary.findOne({ where: { ID } })] *)
Definition Itinerary_findOne (ID : Z) : Async (option Itinerary.t) :=
  fun s => (s, Normal (find Itinerary.ID ID (itineraries s))).

(** [Airplane.findOne({ where: { ID } })] and [Airplane.findByPk(id)] *)
Definition Airplane_findOne (ID : Z) : Async (option Airplane.t) :=
  fun s => (s, Normal (find Airplane.ID ID (airplanes s))).

(** [Airplane.findOne({ where: { name } })] *)
Definition Airplane_findOne_name (name : string) : Async (option Airplane.t) :=
  fun s => (s, Normal (List.find (fun a => String.eqb (Airplane.Name a) name)
                         (airplanes s))).

(** [Airplane.create({ Name, Model, Capacity })] at time [now]. *)
Definition Airplane_create (now : Z) (Name Model : string) (Capacity : Z)
  : Async (Built.t Airplane.t) :=
  fun s =>
    let row := Airplane.mk (insert_id Airplane.ID (airplanes s))
                 Name Model Capacity now now in
    (mkStore (airports s) (itineraries s) (airplanes s ++ [row]) (flights s)
       (reservations s),
     Normal (Built.mk row)).

(** Whether a flight names the airplane. *)
Definition airplane_in_use (id : Z) (s : Store) : bool :=
  existsb (fun f => Flights.AirplaneID f =? id) (flights s).

(** [airplane.destroy()]: the database refuses the DELETE while a flight
    names the airplane, and nothing is deleted then. *)
Definition Airplane_destroy (airplane : Airplane.t) : Async unit :=
  fun s =>
    if airplane_in_use (Airplane.ID airplane) s then
      (s, Throw ForeignKeyConstraintError)
    else
      (mkStore (airports s) (itineraries s)
         (delete Airplane.ID (Airplane.ID airplane) (airplanes s))
         (flights s) (reservations s),
       Normal tt).

(** [Flights.create({ ItineraryID, DepartureTime, ArrivalTime,
    AirplaneID })] at time [now], the two times already dates. *)
Definition Flights_create (now : Z) (ItineraryID DepartureTime ArrivalTime
  AirplaneID : Z) : Async (Built.t Flights.t) :=
  fun s =>
    let row := Flights.mk (insert_id Flights.ID (flights s))
                 ItineraryID DepartureTime ArrivalTime AirplaneID now now in
    (mkStore (airports s) (itineraries s) (airplanes s) (flights s ++ [row])
       (reservations s),
     Normal (Built.mk row)).

End Orm.

(* ===================================================================== *)
(** ** Reservation routes *)
(* ===================================================================== *)

(** The body of POST /reservation/create.  [FlightID] is the integer the
    database compares the column with. *)
Module ReservationBody.
Record t : Type := mk { PassengerName : string; FlightID : Z }.
End ReservationBody.

Definition reservationValidationConstraints (b : ReservationBody.t)
  : list ValidationError * ReservationBody.t :=
  let (e1, PassengerName) :=
    check "PassengerName"
      [ validate (fun v => negb (Validator.isEmpty v))
          "Passenger name is required.";
        sanitize Validator.trim;
        validate Validator.isAlphanumeric
          "Passenger name should contain only alphanumeric characters.";
        validate (Validator.isLength_min 2)
          "Passenger name should contain at least 2 characters." ]
      (ReservationBody.PassengerName b) in
  let (e2, FlightID) :=
    check "FlightID"
      [ validate (fun _ : Z => true) "Flight ID is required.";
        validate (Z.leb 1)
          "Flight ID must be a valid positive, non-zero integer." ]
      (ReservationBody.FlightID b) in
  (e1 ++ e2, ReservationBody.mk PassengerName FlightID).

(** The [reservation] object of the booking response (lines 755-790). *)
Definition created_reservation (reservation : Built.t Reservation.t)
  (existingFlight : Eager.FlightT) : Async Json :=
  itinerary <- deref "Itinerary" (Eager.Itinerary existingFlight) ;;
  origin <- deref "OriginAirport" (Eager.OriginAirport itinerary) ;;
  destination <-
    deref "DestinationAirport" (Eager.DestinationAirport itinerary) ;;
  airplane <- deref "Airplane" (Eager.Airplane existingFlight) ;;
  ret (jobject
    [ ("ID", Built.ID reservation);
      ("PassengerName", jstring (Built.get Reservation.PassengerName reservation));
      ("Flight", jobject
        [ ("ID", jint (Flights.ID (Eager.flight existingFlight)));
          ("DepartureTime",
            jdate (Flights.DepartureTime (Eager.flight existingFlight)));
          ("ArrivalTime",
            jdate (Flights.ArrivalTime (Eager.flight existingFlight)));
          ("Itinerary", jobject
            [ ("ID", jint (Itinerary.ID (Eager.itinerary itinerary)));
              ("Code", jstring (Itinerary.Code (Eager.itinerary itinerary)));
              ("OriginAirport", jobject
                [ ("ID", jint (Airport.ID origin));
                  ("Name", jstring (Airport.Name origin));
                  ("Latitude", jfloat (Airport.Latitude origin));
                  ("Longitude", jfloat (Airport.Longitude origin));
                  ("Timezone", jstring (Airport.Timezone origin)) ]);
              ("DestinationAirport", jobject
                [ ("ID", jint (Airport.ID destination));
                  ("Name", jstring (Airport.Name destination));
                  ("Latitude", jfloat (Airport.Latitude destination));
                  ("Longitude", jfloat (Airport.Longitude destination));
                  ("Timezone", jstring (Airport.Timezone destination)) ]);
              ("DurationMinutes",
                jint (Itinerary.DurationMinutes (Eager.itinerary itinerary)))
            ]);
          ("Airplane", jobject
            [ ("ID", jint (Airplane.ID airplane));
              ("Name", jstring (Airplane.Name airplane));
              ("Model", jstring (Airplane.Model airplane));
              ("Capacity", jint (Airplane.Capacity airplane)) ]) ]);
      ("updatedAt", jdate (Built.get Reservation.updatedAt reservation));
      ("createdAt", jdate (Built.get Reservation.createdAt reservation)) ]).

(** The [try] block of POST /reservation/create with its [catch]. *)
Definition create_reservation (now : Z) (PassengerName : string)
  (FlightID : Z) : Store -> Store * Response :=
  try_catch
    (existingFlight <- Orm.Flights_findOne_include FlightID ;;
     match existingFlight with
     | None => respond 409 (error_body "No such flight exists.")
     | Some existingFlight =>
         reservationsCount <- Orm.Reservation_count FlightID ;;
         airplane <- deref "Capacity" (Eager.Airplane existingFlight) ;;
         if reservationsCount >=? Airplane.Capacity airplane then
           respond 409 (error_body "The flight is already full.")
         else
           reservation <-
             Orm.Reservation_create now PassengerName FlightID ;;
           record <- created_reservation reservation existingFlight ;;
           respond 200
             (jobject
                [ ("message", jstring "Reservation created successfully");
                  ("reservation", record) ])
     end)
    (fun error =>
       mkResponse 500 (error_body "Failed to create reservation.")).

(** POST /reservation/create, the request arriving at time [now]. *)
Definition post_reservation_create (now : Z) (req : ReservationBody.t)
  : Store -> Store * Response :=
  let (errors, body) := reservationValidationConstraints req in
  if negb (isEmpty errors) then
    fun s => (s, mkResponse 422 (errors_body errors))
  else
    create_reservation now (ReservationBody.PassengerName body)
      (ReservationBody.FlightID body).

(** The body of DELETE /reservation/delete: a JSON object, as the list of
    its keys with their values. *)
Definition DeleteBody : Type := list (string * Z).

(** DELETE /reservation/delete.  [!ID] holds of a key that is missing and
    of the number zero. *)
Definition delete_reservation_delete (req : DeleteBody)
  : Store -> Store * Response :=
  match assoc "ID" req with
  | None =>
      fun s => (s, mkResponse 400 (error_body "ID is required in the body."))
  | Some ID =>
      if ID =? 0 then
        fun s => (s, mkResponse 400 (error_body "ID is required in the body."))
      else if negb (Nat.eqb (List.length req) 1) then
        fun s =>
          (s, mkResponse 400
                (error_body "Only the ID should be provided in the body."))
      else
        try_catch
          (reservation <- Orm.Reservation_findOne ID ;;
           match reservation with
           | None => respond 404 (error_body "Reservation not found.")
           | Some reservation =>
               Orm.Reservation_destroy reservation ;;;
               respond 200 (message_body "Reservation deleted successfully.")
           end)
          (fun error =>
             mkResponse 500
               (error_body "Something went wrong. Please try again later."))
  end.

(** [items.map(f)] where [f] may throw. *)
Fixpoint map_async {A B : Type} (f : A -> Async B) (items : list A)
  : Async (list B) :=
  match items with
  | [] => ret []
  | x :: rest =>
      y <- f x ;;
      ys <- map_async f rest ;;
      ret (y :: ys)
  end.

(** One item of the list response (lines 883-918). *)
Definition listed_reservation (existingFlight : Eager.FlightT)
  (reservation : Reservation.t) : Async Json :=
  itinerary <- deref "Itinerary" (Eager.Itinerary existingFlight) ;;
  origin <- deref "OriginAirport" (Eager.OriginAirport itinerary) ;;
  destination <-
    deref "DestinationAirport" (Eager.DestinationAirport itinerary) ;;
  airplane <- deref "Airplane" (Eager.Airplane existingFlight) ;;
  ret (jobject
    [ ("ID", jint (Reservation.ID reservation));
      ("PassengerName", jstring (Reservation.PassengerName reservation));
      ("Flight", jobject
        [ ("ID", jint (Flights.ID (Eager.flight existingFlight)));
          ("DepartureTime",
            jdate (Flights.DepartureTime (Eager.flight existingFlight)));
          ("ArrivalTime",
            jdate (Flights.ArrivalTime (Eager.flight existingFlight)));
          ("Itinerary", jobject
            [ ("ID", jint (Itinerary.ID (Eager.itinerary itinerary)));
              ("Code", jstring (Itinerary.Code (Eager.itinerary itinerary)));
              ("OriginAirport", jobject
                [ ("ID", jint (Airport.ID origin));
                  ("Name", jstring (Airport.Name origin));
                  ("Latitude", jfloat (Airport.Latitude origin));
                  ("Longitude", jfloat (Airport.Longitude origin));
                  ("Timezone", jstring (Airport.Timezone origin)) ]);
              ("DestinationAirport", jobject
                [ ("ID", jint (Airport.ID destination));
                  ("Name", jstring (Airport.Name destination));
                  ("Latitude", jfloat (Airport.Latitude destination));
                  ("Longitude", jfloat (Airport.Longitude destination));
                  ("Timezone", jstring (Airport.Timezone destination)) ]);
              ("DurationMinutes",
                jint (Itinerary.DurationMinutes (Eager.itinerary itinerary)))
            ]);
          ("Airplane", jobject
            [ ("ID", jint (Airplane.ID airplane));
              ("Name", jstring (Airplane.Name airplane));
              ("Model", jstring (Airplane.Model airplane));
              ("Capacity", jint (Airplane.Capacity airplane)) ]) ]);
      ("updatedAt", jdate (Reservation.updatedAt reservation));
      ("createdAt", jdate (Reservation.createdAt reservation)) ]).

(** GET /reservation/flight/:ID *)
Definition get_reservation_flight (req : Z) : Store -> Store * Response :=
  let (errors, ID) :=
    check_param "ID" [ validate (Z.leb 1) "Invalid value" ] req in
  if negb (isEmpty errors) then
    fun s => (s, mkResponse 422 (errors_body errors))
  else
    try_catch
      (existingFlight <- Orm.Flights_findOne_include ID ;;
       match existingFlight with
       | None => respond 409 (error_body "No such flight exists.")
       | Some existingFlight =>
           reservations <-
             Orm.Reservation_findAll (Flights.ID (Eager.flight existingFlight)) ;;
           items <- map_async (listed_reservation existingFlight) reservations ;;
           respond 200
             (jobject
                [ ("message", jstring "Reservations retrieved successfully");
                  ("reservations", jarray items) ])
       end)
      (fun error => mkResponse 500 (error_body "Internal server error.")).

(* ===================================================================== *)
(** ** Booking, cut at its awaits *)
(* ===================================================================== *)

(** A booking request in flight.  The handler gives the event loop back at
    each [await]; between two of them it runs alone.  A task is the state
    at one of these points: the request not yet looked at, the flight read
    and the count not yet asked for, the count compared and the row not
    yet written, the response sent. *)
Inductive BookingTask : Type :=
| Received (now : Z) (req : ReservationBody.t)
| Resolved (now : Z) (body : ReservationBody.t)
    (existingFlight : Eager.FlightT)
| Granted (now : Z) (body : ReservationBody.t)
    (existingFlight : Eager.FlightT)
| Responded (res : Response).

Definition failed_to_create : Response :=
  mkResponse 500 (error_body "Failed to create reservation.").

(** One database call of a task and the code up to its next [await]. *)
Definition booking_step (t : BookingTask) (s : Store)
  : Store * BookingTask :=
  match t with
  | Received now req =>
      let (errors, body) := reservationValidationConstraints req in
      if negb (isEmpty errors) then
        (s, Responded (mkResponse 422 (errors_body errors)))
      else
        match Orm.Flights_findOne_include (ReservationBody.FlightID body) s with
        | (s', Normal None) =>
            (s', Responded
                   (mkResponse 409 (error_body "No such flight exists.")))
        | (s', Normal (Some existingFlight)) =>
            (s', Resolved now body existingFlight)
        | (s', Throw _) => (s', Responded failed_to_create)
        end
  | Resolved now body existingFlight =>
      match
        (reservationsCount <-
           Orm.Reservation_count (ReservationBody.FlightID body) ;;
         airplane <- deref "Capacity" (Eager.Airplane existingFlight) ;;
         ret (reservationsCount >=? Airplane.Capacity airplane)) s
      with
      | (s', Normal true) =>
          (s', Responded
                 (mkResponse 409 (error_body "The flight is already full.")))
      | (s', Normal false) => (s', Granted now body existingFlight)
      | (s', Throw _) => (s', Responded failed_to_create)
      end
  | Granted now body existingFlight =>
      let (s', res) :=
        try_catch
          (reservation <-
             Orm.Reservation_create now (ReservationBody.PassengerName body)
               (ReservationBody.FlightID body) ;;
           record <- created_reservation reservation existingFlight ;;
           respond 200
             (jobject
                [ ("message", jstring "Reservation created successfully");
                  ("reservation", record) ]))
          (fun error => failed_to_create) s in
      (s', Responded res)
  | Responded res => (s, Responded res)
  end.

(** The requests in flight and the database they share. *)
Record System : Type := mkSystem { db : Store; tasks : list BookingTask }.

Fixpoint step_nth (i : nat) (ts : list BookingTask) (s : Store)
  : Store * list BookingTask :=
  match ts, i with
  | [], _ => (s, [])
  | t :: rest, O => let (s', t') := booking_step t s in (s', t' :: rest)
  | t :: rest, S j => let (s', rest') := step_nth j rest s in (s', t :: rest')
  end.

(** The event loop resumes task [i]. *)
Definition resume (i : nat) (sys : System) : System :=
  let (s', ts') := step_nth i (tasks sys) (db sys) in mkSystem s' ts'.

(** A schedule names the task resumed at each turn. *)
Definition run_schedule (schedule : list nat) (sys : System) : System :=
  fold_left (fun sys i => resume i sys) schedule sys.

(** A task run from start to end with nothing in between. *)
Definition run_alone (t : BookingTask) (s : Store) : Store * BookingTask :=
  let (s1, t1) := booking_step t s in
  let (s2, t2) := booking_step t1 s1 in
  booking_step t2 s2.

(** The operations of the booking service, each with what it is sent. *)
Inductive Request : Type :=
| book (now : Z) (req : ReservationBody.t)
| cancel (req : DeleteBody)
| listReservationsForFlight (ID : Z).

Definition handle (r : Request) : Store -> Store * Response :=
  match r with
  | book now req => post_reservation_create now req
  | cancel req => delete_reservation_delete req
  | listReservationsForFlight ID => get_reservation_flight ID
  end.

(** Requests served one after the other. *)
Fixpoint serve (rs : list Request) (s : Store) : Store * list Response :=
  match rs with
  | [] => (s, [])
  | r :: rest =>
      let (s1, res) := handle r s in
      let (s2, out) := serve rest s1 in
      (s2, res :: out)
  end.

Definition reservationsCount (FlightID : Z) (s : Store) : Z :=
  Z.of_nat (List.length (Orm.for_flight FlightID (reservations s))).

(* ===================================================================== *)
(** ** Airplane routes *)
(* ===================================================================== *)

Module AirplaneBody.
Record t : Type := mk { name : string; model : string; capacity : Z }.
End AirplaneBody.

Definition airplaneValidationConstraints (b : AirplaneBody.t)
  : list ValidationError * AirplaneBody.t :=
  let (e1, name) :=
    check "name"
      [ validate (fun v => negb (Validator.isEmpty v)) "Name is required.";
        sanitize Validator.trim;
        validate Validator.isAlphanumeric
          "Name should contain only alphanumeric characters." ]
      (AirplaneBody.name b) in
  let (e2, model) :=
    check "model"
      [ validate (fun v => negb (Validator.isEmpty v)) "Model is required.";
        sanitize Validator.trim;
        validate Validator.isAlphanumeric
          "Model should contain only alphanumeric characters." ]
      (AirplaneBody.model b) in
  let (e3, capacity) :=
    check "capacity"
      [ validate (fun _ : Z => true) "Capacity is required.";
        validate (Z.leb 1)
          "Capacity must be a valid positive, non-zero integer." ]
      (AirplaneBody.capacity b) in
  (e1 ++ e2 ++ e3, AirplaneBody.mk name model capacity).

(** A [try]/[catch] inside a longer handler. *)
Definition attempt (body : Async Response) (handler : Exn -> Response)
  : Async Response :=
  fun s => let (s', res) := try_catch body handler s in (s', Normal res).

(** POST /airplane/create *)
Definition post_airplane_create (now : Z) (req : AirplaneBody.t)
  : Async Response :=
  let (errors, body) := airplaneValidationConstraints req in
  if negb (isEmpty errors) then respond 422 (errors_body errors)
  else
    let name := AirplaneBody.name body in
    let model := AirplaneBody.model body in
    let capacity := AirplaneBody.capacity body in
    existingAirplane <- Orm.Airplane_findOne_name name ;;
    match existingAirplane with
    | Some _ => respond 409 (error_body "Airplane name already exists.")
    | None =>
        attempt
          (airplane <- Orm.Airplane_create now name model capacity ;;
           respond 200
             (jobject
                [ ("message", jstring "Airplane created successfully");
                  ("airplane", jobject
                    [ ("id", Built.ID airplane);
                      ("name", jstring (Built.get Airplane.Name airplane));
                      ("model", jstring (Built.get Airplane.Model airplane));
                      ("capacity",
                        jint (Built.get Airplane.Capacity airplane));
                      ("updatedAt",
                        jdate (Built.get Airplane.updatedAt airplane));
                      ("createdAt",
                        jdate (Built.get Airplane.createdAt airplane)) ])
                ]))
          (fun error => mkResponse 500 (error_body "Server error"))
    end.

(** A number inside a template string. *)
Definition show (z : Z) : string := NilZero.string_of_int (Z.to_int z).

(** DELETE /airplane/delete, the body a JSON object with integer
    values. *)
Definition delete_airplane_delete (req : list (string * Z))
  : Async Response :=
  let invalid :=
    respond 422
      (error_body "Invalid request body - missing or invalid airplane ID") in
  match assoc "id" req with
  | None => invalid
  | Some id =>
      if (id =? 0) || (id <=? 0) then invalid
      else
        attempt
          (airplane <- Orm.Airplane_findOne id ;;
           match airplane with
           | None => respond 404 (error_body "Airplane not found")
           | Some airplane =>
               Orm.Airplane_destroy airplane ;;;
               respond 200
                 (message_body
                    ("Airplane " ++ show id ++ " deleted successfully")%string)
           end)
          (fun error => mkResponse 500 (error_body "Server error"))
  end.

(* ===================================================================== *)
(** ** Flight creation *)
(* ===================================================================== *)

(** The body of POST /flight/create.  The handler compares the two times
    itself, so they are kept as they came: numbers or strings. *)
Module FlightBody.
Record t : Type := mk
  { ItineraryID : Z; DepartureTime : JsVal; ArrivalTime : JsVal;
    AirplaneID : Z }.
End FlightBody.

Definition flightValidationConstraints (b : FlightBody.t)
  : list ValidationError * FlightBody.t :=
  let (e1, ItineraryID) :=
    check "ItineraryID"
      [ validate (fun _ : Z => true) "Itinerary ID is required.";
        validate (Z.leb 1)
          "Itinerary ID must be a valid positive, non-zero integer." ]
      (FlightBody.ItineraryID b) in
  let (e2, DepartureTime) :=
    check "DepartureTime"
      [ validate Js.notEmpty "Departure time is required.";
        validate (Js.isInt_min 0)
          "Departure time must be a valid positive integer." ]
      (FlightBody.DepartureTime b) in
  let (e3, ArrivalTime) :=
    check "ArrivalTime"
      [ validate Js.notEmpty "Arrival time is required.";
        validate (Js.isInt_min 0)
          "Arrival time must be a valid positive integer." ]
      (FlightBody.ArrivalTime b) in
  let (e4, AirplaneID) :=
    check "AirplaneID"
      [ validate (fun _ : Z => true) "Airplane ID is required.";
        validate (Z.leb 1)
          "Airplane ID must be a valid positive, non-zero integer." ]
      (FlightBody.AirplaneID b) in
  (e1 ++ e2 ++ e3 ++ e4,
   FlightBody.mk ItineraryID DepartureTime ArrivalTime AirplaneID).

Section FlightRoutes.

(** The date the ORM makes of a value written to a DATE column.  How a
    string of digits is read as a date is left to the engine. *)
Variable toDate : JsVal -> Z.

(** POST /flight/create *)
Definition post_flight_create (now : Z) (req : FlightBody.t)
  : Async Response :=
  let (errors, body) := flightValidationConstraints req in
  if negb (isEmpty errors) then respond 422 (errors_body errors)
  else
    let ItineraryID := FlightBody.ItineraryID body in
    let DepartureTime := FlightBody.DepartureTime body in
    let ArrivalTime := FlightBody.ArrivalTime body in
    let AirplaneID := FlightBody.AirplaneID body in
    existingItinerary <- Orm.Itinerary_findOne ItineraryID ;;
    match existingItinerary with
    | None => respond 409 (error_body "Invalid itinerary ID.")
    | Some _ =>
        existingAirplane <- Orm.Airplane_findOne AirplaneID ;;
        match existingAirplane with
        | None => respond 409 (error_body "Invalid airplane ID.")
        | Some _ =>
            if Js.le ArrivalTime DepartureTime then
              respond 422
                (error_body "Arrival time must be after departure time.")
            else
              attempt
                (flight <-
                   Orm.Flights_create now ItineraryID (toDate DepartureTime)
                     (toDate ArrivalTime) AirplaneID ;;
                 respond 200
                   (jobject
                      [ ("message", jstring "Flight created successfully");
                        ("flight", jobject
                          [ ("id", Built.ID flight);
                            ("itineraryID",
                              jint (Built.get Flights.ItineraryID flight));
                            ("departureTime",
                              jdate (Built.get Flights.DepartureTime flight));
                            ("arrivalTime",
                              jdate (Built.get Flights.ArrivalTime flight));
                            ("airplaneID",
                              jint (Built.get Flights.AirplaneID flight));
                            ("updatedAt",
                              jdate (Built.get Flights.updatedAt flight));
                            ("createdAt",
                              jdate (Built.get Flights.createdAt flight))
                          ]) ]))
                (fun error => mkResponse 500 (error_body "Server error"))
        end
    end.

(** The database after a flight is written. *)
Definition with_flight (now : Z) (body : FlightBody.t) (s : Store) : Store :=
  mkStore (airports s) (itineraries s) (airplanes s)
    (flights s
     ++ [Flights.mk (insert_id Flights.ID (flights s))
           (FlightBody.ItineraryID body)
           (toDate (FlightBody.DepartureTime body))
           (toDate (FlightBody.ArrivalTime body))
           (FlightBody.AirplaneID body) now now])
    (reservations s).

End FlightRoutes.

(* ===================================================================== *)
(** ** What the statements below speak of *)
(* ===================================================================== *)

(** A request the validators let through, with the body the handler then
    reads. *)
Definition validated (req body : ReservationBody.t) : Prop :=
  reservationValidationConstraints req = ([], body).

Definition NoSuchFlight : Response :=
  mkResponse 409 (error_body "No such flight exists.").

Definition FlightFull : Response :=
  mkResponse 409 (error_body "The flight is already full.").

(** The 200 response of a booking around its nested record. *)
Definition created (record : Json) : Response :=
  mkResponse 200
    (jobject [ ("message", jstring "Reservation created successfully");
               ("reservation", record) ]).

Definition NotFound : Response :=
  mkResponse 404 (error_body "Reservation not found.").

Definition Ok : Response :=
  mkResponse 200 (message_body "Reservation deleted successfully.").

(** The row a booking writes, and the database once it is written. *)
Definition new_reservation (now : Z) (body : ReservationBody.t) (s : Store)
  : Reservation.t :=
  Reservation.mk (insert_id Reservation.ID (reservations s))
    (ReservationBody.PassengerName body) (ReservationBody.FlightID body)
    now now.

Definition with_reservations (rows : list Reservation.t) (s : Store) : Store :=
  mkStore (airports s) (itineraries s) (airplanes s) (flights s) rows.

Definition booked (now : Z) (body : ReservationBody.t) (s : Store) : Store :=
  with_reservations (reservations s ++ [new_reservation now body s]) s.

(** The flight context of the specification: the stored flight with the
    given ID, the itinerary, the two airports and the airplane its foreign
    keys name, each a stored row. *)
Record FlightContext : Type := mkContext
  { ctx_flight : Flights.t;
    ctx_itinerary : Itinerary.t;
    ctx_origin : Airport.t;
    ctx_destination : Airport.t;
    ctx_airplane : Airplane.t }.

Definition resolves (s : Store) (flightId : Z) (c : FlightContext) : Prop :=
  Orm.find Flights.ID flightId (flights s) = Some (ctx_flight c) /\
  Orm.find Itinerary.ID (Flights.ItineraryID (ctx_flight c)) (itineraries s)
    = Some (ctx_itinerary c) /\
  Orm.find Airport.ID (Itinerary.OriginAirportID (ctx_itinerary c))
    (airports s) = Some (ctx_origin c) /\
  Orm.find Airport.ID (Itinerary.DestinationAirportID (ctx_itinerary c))
    (airports s) = Some (ctx_destination c) /\
  Orm.find Airplane.ID (Flights.AirplaneID (ctx_flight c)) (airplanes s)
    = Some (ctx_airplane c).

(** The confirmation format of the specification, section 6, written from
    its words: an airport with its five attributes, and a reservation with
    its flight, the flight's itinerary and airplane nested in it. *)
Definition airport_view (a : Airport.t) : Json :=
  jobject
    [ ("ID", jint (Airport.ID a));
      ("Name", jstring (Airport.Name a));
      ("Latitude", jfloat (Airport.Latitude a));
      ("Longitude", jfloat (Airport.Longitude a));
      ("Timezone", jstring (Airport.Timezone a)) ].

Definition flight_view (c : FlightContext) : Json :=
  jobject
    [ ("ID", jint (Flights.ID (ctx_flight c)));
      ("DepartureTime", jdate (Flights.DepartureTime (ctx_flight c)));
      ("ArrivalTime", jdate (Flights.ArrivalTime (ctx_flight c)));
      ("Itinerary", jobject
        [ ("ID", jint (Itinerary.ID (ctx_itinerary c)));
          ("Code", jstring (Itinerary.Code (ctx_itinerary c)));
          ("OriginAirport", airport_view (ctx_origin c));
          ("DestinationAirport", airport_view (ctx_destination c));
          ("DurationMinutes",
            jint (Itinerary.DurationMinutes (ctx_itinerary c))) ]);
      ("Airplane", jobject
        [ ("ID", jint (Airplane.ID (ctx_airplane c)));
          ("Name", jstring (Airplane.Name (ctx_airplane c)));
          ("Model", jstring (Airplane.Model (ctx_airplane c)));
          ("Capacity", jint (Airplane.Capacity (ctx_airplane c))) ]) ].

Definition reservation_view (c : FlightContext) (r : Reservation.t) : Json :=
  jobject
    [ ("ID", jint (Reservation.ID r));
      ("PassengerName", jstring (Reservation.PassengerName r));
      ("Flight", flight_view c);
      ("updatedAt", jdate (Reservation.updatedAt r));
      ("createdAt", jdate (Reservation.createdAt r)) ].

(** The record of a booking response: the same fields, the reservation's
    own [ID] being [null] on the instance the response is built from. *)
Definition confirmation_view (c : FlightContext) (r : Reservation.t) : Json :=
  jobject
    [ ("ID", jnull);
      ("PassengerName", jstring (Reservation.PassengerName r));
      ("Flight", flight_view c);
      ("updatedAt", jdate (Reservation.updatedAt r));
      ("createdAt", jdate (Reservation.createdAt r)) ].

(** [j.k] for an object [j]. *)
Definition member (k : string) (j : Json) : option Json :=
  match j with
  | jobject fields => assoc k fields
  | _ => None
  end.

(** The nested shape of a JSON value: its keys and their nesting, the
    scalars at the leaves forgotten. *)
Fixpoint shape (j : Json) : Json :=
  match j with
  | jarray items => jarray (map shape items)
  | jobject fields =>
      jobject (map (fun field => (fst field, shape (snd field))) fields)
  | _ => jnull
  end.

(** The 200 response of the list route around its items. *)
Definition listed (items : list Json) : Response :=
  mkResponse 200
    (jobject [ ("message", jstring "Reservations retrieved successfully");
               ("reservations", jarray items) ]).

(** The rows of a context are rows of the tables, tied by their keys. *)
Definition stored (s : Store) (c : FlightContext) : Prop :=
  In (ctx_flight c) (flights s) /\
  In (ctx_itinerary c) (itineraries s) /\
  In (ctx_origin c) (airports s) /\
  In (ctx_destination c) (airports s) /\
  In (ctx_airplane c) (airplanes s) /\
  Itinerary.ID (ctx_itinerary c) = Flights.ItineraryID (ctx_flight c) /\
  Airport.ID (ctx_origin c) = Itinerary.OriginAirportID (ctx_itinerary c) /\
  Airport.ID (ctx_destination c)
  = Itinerary.DestinationAirportID (ctx_itinerary c) /\
  Airplane.ID (ctx_airplane c) = Flights.AirplaneID (ctx_flight c).

(** A request the validators let through. *)
Definition accepted (req : ReservationBody.t) : Prop :=
  fst (reservationValidationConstraints req) = [].

Definition succeeded (res : Response) : bool := status res =? 200.

(** Booking requests with their arrival times, as requests to serve and as
    tasks for the event loop. *)
Definition bookings (reqs : list (Z * ReservationBody.t)) : list Request :=
  map (fun p => book (fst p) (snd p)) reqs.

Definition spawn (reqs : list (Z * ReservationBody.t)) : list BookingTask :=
  map (fun p => Received (fst p) (snd p)) reqs.

Definition response_status (t : BookingTask) : option Z :=
  match t with
  | Responded res => Some (status res)
  | _ => None
  end.

(** The schedule without interleaving: task [i] is resumed three times,
    to its end, before task [i + 1] is looked at. *)
Fixpoint one_by_one_from (i n : nat) : list nat :=
  match n with
  | O => []
  | S n' => i :: i :: i :: one_by_one_from (S i) n'
  end.

Definition one_by_one (n : nat) : list nat := one_by_one_from 0 n.

(** Invariants of the tables: a primary key occurs once, row ids are
    positive, an airplane seats at least one. *)
Definition unique_ids {A : Type} (ID : A -> Z) (table : list A) : Prop :=
  NoDup (map ID table).

Definition positive_ids {A : Type} (ID : A -> Z) (table : list A) : Prop :=
  Forall (fun row => 1 <= ID row) table.

Definition capacities_positive (s : Store) : Prop :=
  Forall (fun a => 1 <= Airplane.Capacity a) (airplanes s).

(** The capacity invariant for one flight, against a given capacity. *)
Definition within_capacity (FlightID capacity : Z) (s : Store) : Prop :=
  reservationsCount FlightID s <= capacity.

(** Whether every association of a flight that was read is there. *)
Definition complete (existingFlight : Eager.FlightT) : bool :=
  match Eager.Itinerary existingFlight, Eager.Airplane existingFlight with
  | Some i, Some _ =>
      match Eager.OriginAirport i, Eager.DestinationAirport i with
      | Some _, Some _ => true
      | _, _ => false
      end
  | _, _ => false
  end.

(* ===================================================================== *)
(** ** A small database to run the routes on *)
(* ===================================================================== *)

Module Demo.

Definition LHR : Airport.t :=
  Airport.mk 1 "Heathrow" 51.5%float (-0.5)%float "GMT+0" 100 100.

Definition JFK : Airport.t :=
  Airport.mk 2 "Kennedy" 40.625%float (-73.75)%float "GMT-5" 101 101.

Definition route : Itinerary.t := Itinerary.mk 1 "BA117" 1 2 480 110 110.

Definition single : Airplane.t := Airplane.mk 1 "Solo" "C172" 1 120 120.

Definition twin : Airplane.t := Airplane.mk 2 "Duo" "DA42" 2 121 121.

(** Flight 1 has one seat, flight 2 has two, flight 3 names an airplane
    that is no longer stored. *)
Definition f1 : Flights.t := Flights.mk 1 1 1000 2000 1 130 130.
Definition f2 : Flights.t := Flights.mk 2 1 3000 4000 2 131 131.
Definition f3 : Flights.t := Flights.mk 3 1 5000 6000 9 132 132.

Definition store : Store :=
  mkStore [LHR; JFK] [route] [single; twin] [f1; f2; f3] [].

Definition ctx1 : FlightContext := mkContext f1 route LHR JFK single.
Definition ctx2 : FlightContext := mkContext f2 route LHR JFK twin.

(** The same database with the one seat of flight 1 taken. *)
Definition seat : Reservation.t := Reservation.mk 1 "Ann" 1 7 7.

Definition sold_out : Store :=
  mkStore [LHR; JFK] [route] [single; twin] [f1; f2; f3] [seat].

Definition Ann : ReservationBody.t := ReservationBody.mk "Ann" 1.
Definition Bob : ReservationBody.t := ReservationBody.mk "Bob" 1.

(** The same database with one of the two seats of flight 2 taken, and a
    request for the other. *)
Definition half_full : Store :=
  mkStore [LHR; JFK] [route] [single; twin] [f1; f2; f3]
    [Reservation.mk 1 "Ann" 2 7 7].

Definition Cy : ReservationBody.t := ReservationBody.mk "Cy" 2.

(** A database whose newest flight, flight 2, has a reservation, as has
    flight 1. *)
Definition two_flights : Store :=
  mkStore [LHR; JFK] [route] [single; twin] [f1; f2]
    [Reservation.mk 1 "Ann" 2 7 7; Reservation.mk 2 "Bob" 1 8 8].

End Demo.

(* ===================================================================== *)
(** ** Numbers read from strings *)
(* ===================================================================== *)

Module Number.

Definition is_hex (c : ascii) : bool :=
  Chars.is_digit c
  || ((65 <=? Chars.code c) && (Chars.code c <=? 70))%N
  || ((97 <=? Chars.code c) && (Chars.code c <=? 102))%N.

Definition hex_value (c : ascii) : Z :=
  if Chars.is_digit c then Chars.digit_value c
  else if (Chars.code c <=? 70)%N then Z.of_N (Chars.code c) - 55
  else Z.of_N (Chars.code c) - 87.

(** The digits a number starts with, in a radix, up to the first
    character that is none. *)
Fixpoint leading (is_digit : ascii -> bool) (value : ascii -> Z)
  (radix acc : Z) (s : string) : Z :=
  match s with
  | String c s' =>
      if is_digit c then leading is_digit value radix (radix * acc + value c) s'
      else acc
  | EmptyString => acc
  end.

Definition starts_with (is_digit : ascii -> bool) (s : string) : bool :=
  match s with
  | String c _ => is_digit c
  | EmptyString => false
  end.

(** [parseInt] after blanks and sign: a [0x] prefix announces hexadecimal
    digits, anything else is read as decimal; [None] is [NaN]. *)
Definition magnitude (s : string) : option Z :=
  match s with
  | String "0" (String x r) =>
      if Ascii.eqb x "x" || Ascii.eqb x "X" then
        if starts_with is_hex r then Some (leading is_hex hex_value 16 0 r)
        else None
      else Some (leading Chars.is_digit Chars.digit_value 10 0 s)
  | _ =>
      if starts_with Chars.is_digit s then
        Some (leading Chars.is_digit Chars.digit_value 10 0 s)
      else None
  end.

(** [parseInt(s)]: leading blanks are skipped, a sign is read, then the
    digits up to the first character that is no digit. *)
Definition parseInt (s : string) : option Z :=
  match Validator.ltrim s with
  | String c r =>
      if Ascii.eqb c "-" then option_map Z.opp (magnitude r)
      else if Ascii.eqb c "+" then magnitude r
      else magnitude (String c r)
  | EmptyString => None
  end.

(** [s.substring(n)] *)
Fixpoint substring_from (n : nat) (s : string) : string :=
  match n, s with
  | O, _ => s
  | S n', String _ s' => substring_from n' s'
  | S _, EmptyString => EmptyString
  end.

End Number.

(* ===================================================================== *)
(** ** Airport routes *)
(* ===================================================================== *)

(** The body of POST /airport/create; the coordinates are JSON numbers. *)
Module AirportBody.
Record t : Type := mk
  { Name : string; Latitude : float; Longitude : float; Timezone : string }.
End AirportBody.

(** [/^GMT[+-]\d{1,2}$/.test(value)] *)
Definition timezone_regex (value : string) : bool :=
  match value with
  | String g (String m (String t (String sign digits))) =>
      Ascii.eqb g "G" && Ascii.eqb m "M" && Ascii.eqb t "T"
      && (Ascii.eqb sign "+" || Ascii.eqb sign "-")
      && match digits with
         | String d EmptyString => Chars.is_digit d
         | String d (String d' EmptyString) =>
             Chars.is_digit d && Chars.is_digit d'
         | _ => false
         end
  | _ => false
  end.

(** The custom validator of the time zone (lines 42-52): [Some message]
    when it throws, [None] when it returns [true]. *)
Definition timezone_custom (value : string) : option string :=
  if negb (timezone_regex value) then Some "Invalid timezone."
  else
    match Number.parseInt (Number.substring_from 4 value) with
    | Some offset =>
        if (offset <? 0) || (offset >? 12) then Some "Invalid timezone offset."
        else None
    | None => None
    end.

(** What a custom validator adds to the errors of its field. *)
Definition custom (name : string) (thrown : option string)
  : list ValidationError :=
  match thrown with
  | Some message => [mkError "body" name message]
  | None => []
  end.

(** [.isFloat({ min, max })] on a number. *)
Definition isFloat_in (min max v : float) : bool :=
  PrimFloat.leb min v && PrimFloat.leb v max.

Definition name_taken (s : Store) (Name : string) : bool :=
  match List.find (fun a => String.eqb (Airport.Name a) Name) (airports s) with
  | Some _ => true
  | None => false
  end.

(** The validators of the airport routes; the one that looks the name up
    reads the database. *)
Definition airportValidationConstraints (s : Store) (b : AirportBody.t)
  : list ValidationError * AirportBody.t :=
  let (e1, Name) :=
    check "Name"
      [ validate (fun v => negb (Validator.isEmpty v)) "Name is required.";
        validate Validator.isAlphanumeric
          "Name should contain only alphanumeric characters.";
        validate (fun v => negb (name_taken s v))
          "Airport name already exists." ]
      (AirportBody.Name b) in
  let (e2, Latitude) :=
    check "Latitude"
      [ validate (isFloat_in (-90) 90) "Invalid latitude." ]
      (AirportBody.Latitude b) in
  let (e3, Longitude) :=
    check "Longitude"
      [ validate (isFloat_in (-180) 180) "Invalid longitude." ]
      (AirportBody.Longitude b) in
  let (e4, Timezone) :=
    check "Timezone"
      [ validate (fun v => negb (Validator.isEmpty v))
          "Timezone is required." ]
      (AirportBody.Timezone b) in
  (e1 ++ e2 ++ e3 ++ e4 ++ custom "Timezone" (timezone_custom Timezone),
   AirportBody.mk Name Latitude Longitude Timezone).

Module Orm2.

(** [Airport.findOne({ where: { Name } })] *)
Definition Airport_findOne_Name (Name : string) : Async (option Airport.t) :=
  fun s => (s, Normal (List.find (fun a => String.eqb (Airport.Name a) Name)
                         (airports s))).

(** [Airport.findByPk(id)] *)
Definition Airport_findByPk (id : Z) : Async (option Airport.t) :=
  fun s => (s, Normal (Orm.find Airport.ID id (airports s))).

(** [Airport.findAll()] *)
Definition Airport_findAll : Async (list Airport.t) :=
  fun s => (s, Normal (airports s)).

(** [Airport.create({ Name, Latitude, Longitude, Timezone })] at time
    [now]. *)
Definition Airport_create (now : Z) (b : AirportBody.t)
  : Async (Built.t Airport.t) :=
  fun s =>
    let row := Airport.mk (insert_id Airport.ID (airports s))
                 (AirportBody.Name b) (AirportBody.Latitude b)
                 (AirportBody.Longitude b) (AirportBody.Timezone b) now now in
    (mkStore (airports s ++ [row]) (itineraries s) (airplanes s) (flights s)
       (reservations s),
     Normal (Built.mk row)).

(** The row an update leaves: the four attributes are replaced, the key
    and the creation time stay, the time of the update is the time of the
    call. *)
Definition updated_airport (now : Z) (b : AirportBody.t) (a : Airport.t)
  : Airport.t :=
  Airport.mk (Airport.ID a) (AirportBody.Name b) (AirportBody.Latitude b)
    (AirportBody.Longitude b) (AirportBody.Timezone b)
    (Airport.createdAt a) now.

(** [airport.update({ Name, Latitude, Longitude, Timezone })]: the rows
    with the key of the instance are rewritten.  The route calls it with
    a name that no stored airport has, so a value is new and the UPDATE
    is sent. *)
Definition Airport_update (now : Z) (airport : Airport.t) (b : AirportBody.t)
  : Async Airport.t :=
  fun s =>
    (mkStore
       (map (fun a => if Airport.ID a =? Airport.ID airport
                      then updated_airport now b a else a) (airports s))
       (itineraries s) (airplanes s) (flights s) (reservations s),
     Normal (updated_airport now b airport)).

(** [airport.destroy()]: the row goes, and with it the itineraries that
    start or end at the airport, their flights and the reservations of
    these. *)
Definition Airport_destroy (airport : Airport.t) : Async Airport.t :=
  fun s => (Cascade.delete_airport (Airport.ID airport) s, Normal airport).

End Orm2.

(** The [airport] object of the create and update responses, from the
    attributes of the instance.  The routes read [airport.id], which is no
    attribute of the model ([ID] is): the value is [undefined] and the key
    is left out of the JSON. *)
Definition airport_answer (airport : Airport.t) : Json :=
  jobject
    [ ("Name", jstring (Airport.Name airport));
      ("Latitude", jfloat (Airport.Latitude airport));
      ("Longitude", jfloat (Airport.Longitude airport));
      ("Timezone", jstring (Airport.Timezone airport));
      ("updatedAt", jdate (Airport.updatedAt airport));
      ("createdAt", jdate (Airport.createdAt airport)) ].

(** [res.json(airport)]: the row with all its columns. *)
Definition airport_json (airport : Airport.t) : Json :=
  jobject
    [ ("ID", jint (Airport.ID airport));
      ("Name", jstring (Airport.Name airport));
      ("Latitude", jfloat (Airport.Latitude airport));
      ("Longitude", jfloat (Airport.Longitude airport));
      ("Timezone", jstring (Airport.Timezone airport));
      ("createdAt", jdate (Airport.createdAt airport));
      ("updatedAt", jdate (Airport.updatedAt airport)) ].

(** The handler of POST /airport/create once the validators are done
    (lines 63-83). *)
Definition airport_create_handler (now : Z) (body : AirportBody.t)
  : Async Response :=
  existingAirport <- Orm2.Airport_findOne_Name (AirportBody.Name body) ;;
  match existingAirport with
  | Some _ => respond 409 (error_body "Airport name already exists.")
  | None =>
      airport <- Orm2.Airport_create now body ;;
      respond 200
        (jobject
           [ ("message", jstring "Airport created successfully");
             ("airport", airport_answer (Built.written airport)) ])
  end.

(** POST /airport/create where other requests may be served while this
    one waits: the validators look the name up in the database as the
    request finds it, the handler runs on the database as it is once the
    validators are done and [others] have written. *)
Definition post_airport_create_after (others : Store -> Store) (now : Z)
  (req : AirportBody.t) : Async Response :=
  fun s =>
    let (errors, body) := airportValidationConstraints s req in
    if negb (isEmpty errors) then respond 422 (errors_body errors) (others s)
    else airport_create_handler now body (others s).

(** POST /airport/create served with no other request in between. *)
Definition post_airport_create (now : Z) (req : AirportBody.t)
  : Async Response :=
  post_airport_create_after (fun s => s) now req.

(** The body of PUT /airport/update: the four attributes and an [id]
    that may be missing. *)
Module AirportUpdate.
Record t : Type := mk { id : option Z; attributes : AirportBody.t }.
End AirportUpdate.

(** PUT /airport/update *)
Definition put_airport_update (now : Z) (req : AirportUpdate.t)
  : Async Response :=
  fun s =>
    match AirportUpdate.id req with
    | None =>
        respond 422
          (error_body "Invalid request body - missing or invalid airport ID") s
    | Some id =>
        if (id =? 0) || (id <=? 0) then
          respond 422
            (error_body "Invalid request body - missing or invalid airport ID")
            s
        else
          let (errors, body) :=
            airportValidationConstraints s (AirportUpdate.attributes req) in
          if negb (isEmpty errors) then respond 422 (errors_body errors) s
          else
            (airport <- Orm2.Airport_findByPk id ;;
             match airport with
             | None => respond 404 (error_body "Airport not found")
             | Some airport =>
                 airport <- Orm2.Airport_update now airport body ;;
                 respond 200
                   (jobject
                      [ ("message",
                          jstring ("Airport " ++ show id
                                   ++ " successfully updated")%string);
                        ("airport", airport_answer airport) ])
             end) s
    end.

(** GET /airport/list *)
Definition get_airport_list : Async Response :=
  airports <- Orm2.Airport_findAll ;;
  respond 200 (jarray (map airport_json airports)).

(** GET /airport/:id, the segment of the path as it came. *)
Definition get_airport (param : string) : Async Response :=
  match Number.parseInt param with
  | None => respond 422 (error_body "Invalid airport ID")
  | Some id =>
      if id <=? 0 then respond 422 (error_body "Invalid airport ID")
      else
        airport <- Orm2.Airport_findByPk id ;;
        match airport with
        | None => respond 404 (error_body "Airport not found")
        | Some airport => respond 200 (airport_json airport)
        end
  end.

(** DELETE /airport/delete, the body a JSON object with integer values.
    [destroy] resolves to the instance, so the test on its result never
    holds. *)
Definition delete_airport_delete (req : list (string * Z)) : Async Response :=
  let invalid :=
    respond 422
      (error_body "Invalid request body - missing or invalid airport ID") in
  match assoc "id" req with
  | None => invalid
  | Some id =>
      if (id =? 0) || (id <=? 0) then invalid
      else
        airport <- Orm2.Airport_findByPk id ;;
        match airport with
        | None => respond 404 (error_body "Airport not found")
        | Some airport =>
            deletedAirport <- Orm2.Airport_destroy airport ;;
            respond 200 (message_body "Airport deleted")
        end
  end.

(* ===================================================================== *)
(** ** Itinerary routes *)
(* ===================================================================== *)

Module ItineraryBody.
Record t : Type := mk
  { code : string; originAirportId : Z; destinationAirportId : Z;
    duration : Z }.
End ItineraryBody.

Definition airport_exists (s : Store) (id : Z) : bool :=
  match Orm.find Airport.ID id (airports s) with
  | Some _ => true
  | None => false
  end.

(** The validators of the itinerary routes; those of the two airports
    read the database. *)
Definition itineraryValidationConstraints (s : Store) (b : ItineraryBody.t)
  : list ValidationError * ItineraryBody.t :=
  let (e1, code) :=
    check "code"
      [ validate (fun v => negb (Validator.isEmpty v)) "Code is required.";
        sanitize Validator.trim;
        validate Validator.isAlphanumeric
          "Code should contain only alphanumeric characters." ]
      (ItineraryBody.code b) in
  let (e2, originAirportId) :=
    check "originAirportId"
      [ validate (fun _ : Z => true) "Origin airport ID is required.";
        validate (Z.leb 1)
          "Origin airport ID must be a valid non-zero integer.";
        validate (airport_exists s) "Origin airport does not exist." ]
      (ItineraryBody.originAirportId b) in
  let (e3, destinationAirportId) :=
    check "destinationAirportId"
      [ validate (fun _ : Z => true) "Destination airport ID is required.";
        validate (Z.leb 1)
          "Destination airport ID must be a valid non-zero integer.";
        validate (airport_exists s) "Destination airport does not exist." ]
      (ItineraryBody.destinationAirportId b) in
  let (e4, duration) :=
    check "duration"
      [ validate (fun _ : Z => true) "Duration is required.";
        validate (Z.leb 1)
          "Duration must be a valid non-zero integer representing the flight duration in minutes." ]
      (ItineraryBody.duration b) in
  (e1 ++ e2 ++ e3 ++ e4,
   ItineraryBody.mk code originAirportId destinationAirportId duration).

Module Orm3.

(** [Itinerary.findOne({ where: { code } })] *)
Definition Itinerary_findOne_code (code : string) : Async (option Itinerary.t) :=
  fun s => (s, Normal (List.find (fun i => String.eqb (Itinerary.Code i) code)
                         (itineraries s))).

(** [Itinerary.create({ Code, OriginAirportID, DestinationAirportID,
    DurationMinutes })] at time [now]. *)
Definition Itinerary_create (now : Z) (b : ItineraryBody.t)
  : Async (Built.t Itinerary.t) :=
  fun s =>
    let row := Itinerary.mk (insert_id Itinerary.ID (itineraries s))
                 (ItineraryBody.code b) (ItineraryBody.originAirportId b)
                 (ItineraryBody.destinationAirportId b)
                 (ItineraryBody.duration b) now now in
    (mkStore (airports s) (itineraries s ++ [row]) (airplanes s) (flights s)
       (reservations s),
     Normal (Built.mk row)).

(** [Itinerary.findByPk(id)] *)
Definition Itinerary_findByPk (id : Z) : Async (option Itinerary.t) :=
  fun s => (s, Normal (Orm.find Itinerary.ID id (itineraries s))).

(** [itinerary.destroy()]: the row goes, and with it the flights of the
    itinerary and their reservations. *)
Definition Itinerary_destroy (itinerary : Itinerary.t) : Async unit :=
  fun s =>
    (Cascade.delete_itineraries
       (fun i => Itinerary.ID i =? Itinerary.ID itinerary) s,
     Normal tt).

(** The row [itinerary.save()] leaves once the handler has set the four
    attributes. *)
Definition updated_itinerary (now : Z) (b : ItineraryBody.t) (i : Itinerary.t)
  : Itinerary.t :=
  Itinerary.mk (Itinerary.ID i) (ItineraryBody.code b)
    (ItineraryBody.originAirportId b) (ItineraryBody.destinationAirportId b)
    (ItineraryBody.duration b) (Itinerary.createdAt i) now.

(** Whether the handler has set an attribute to a new value. *)
Definition itinerary_changed (b : ItineraryBody.t) (i : Itinerary.t) : bool :=
  negb (String.eqb (ItineraryBody.code b) (Itinerary.Code i)
        && (ItineraryBody.originAirportId b =? Itinerary.OriginAirportID i)
        && (ItineraryBody.destinationAirportId b
            =? Itinerary.DestinationAirportID i)
        && (ItineraryBody.duration b =? Itinerary.DurationMinutes i)).

Definition code_stored (code : string) (s : Store) : bool :=
  existsb (fun i => String.eqb (Itinerary.Code i) code) (itineraries s).

(** [itinerary.save()] at time [now], the handler having set the four
    attributes from [b].  Nothing is sent to the database when no value is
    new.  Otherwise the rows with the key of the instance are rewritten,
    unless the code is new and stored already: [Code] is a unique column,
    the database refuses the UPDATE and nothing is written. *)
Definition Itinerary_save (now : Z) (itinerary : Itinerary.t)
  (b : ItineraryBody.t) : Async Itinerary.t :=
  fun s =>
    if negb (itinerary_changed b itinerary) then (s, Normal itinerary)
    else if negb (String.eqb (ItineraryBody.code b) (Itinerary.Code itinerary))
            && code_stored (ItineraryBody.code b) s then
      (s, Throw UniqueConstraintError)
    else
      (mkStore (airports s)
         (map (fun i => if Itinerary.ID i =? Itinerary.ID itinerary
                        then updated_itinerary now b i else i) (itineraries s))
         (airplanes s) (flights s) (reservations s),
       Normal (updated_itinerary now b itinerary)).

(** The row an update leaves: the four attributes are replaced, the key
    and the creation time stay, the time of the update is the time of the
    call. *)
Definition updated_flight (now ItineraryID DepartureTime ArrivalTime
  AirplaneID : Z) (f : Flights.t) : Flights.t :=
  Flights.mk (Flights.ID f) ItineraryID DepartureTime ArrivalTime AirplaneID
    (Flights.createdAt f) now.

(** Whether a value set on a DATE attribute is the date the instance
    has: the value is turned into a date unless it is falsy, and a falsy
    value always counts as new. *)
Definition same_date (toDate : JsVal -> Z) (value : JsVal) (original : Z)
  : bool :=
  Js.truthy value && (toDate value =? original).

(** Whether an attribute gets a new value. *)
Definition flight_changed (toDate : JsVal -> Z) (ItineraryID : Z)
  (DepartureTime ArrivalTime : JsVal) (AirplaneID : Z) (f : Flights.t)
  : bool :=
  negb ((ItineraryID =? Flights.ItineraryID f)
        && same_date toDate DepartureTime (Flights.DepartureTime f)
        && same_date toDate ArrivalTime (Flights.ArrivalTime f)
        && (AirplaneID =? Flights.AirplaneID f)).

(** [existingFlight.update({ ItineraryID, DepartureTime, ArrivalTime,
    AirplaneID })], [toDate] giving the date written for a value.  The
    instance takes the four values and the time of the call; the rows
    with its key are rewritten when a value is new, and no UPDATE is sent
    when none is. *)
Definition Flights_update (toDate : JsVal -> Z) (now : Z)
  (existingFlight : Flights.t) (ItineraryID : Z)
  (DepartureTime ArrivalTime : JsVal) (AirplaneID : Z) : Async Flights.t :=
  fun s =>
    let rewrite := updated_flight now ItineraryID (toDate DepartureTime)
                     (toDate ArrivalTime) AirplaneID in
    (if flight_changed toDate ItineraryID DepartureTime ArrivalTime AirplaneID
          existingFlight
     then mkStore (airports s) (itineraries s) (airplanes s)
            (map (fun f => if Flights.ID f =? Flights.ID existingFlight
                           then rewrite f else f) (flights s))
            (reservations s)
     else s,
     Normal (rewrite existingFlight)).

(** [Flights.findOne({ where: { ID } })] *)
Definition Flights_findOne (ID : Z) : Async (option Flights.t) :=
  fun s => (s, Normal (Orm.find Flights.ID ID (flights s))).

(** [Flights.destroy({ where: { ID } })]: the rows go, and with them the
    reservations of these flights. *)
Definition Flights_destroy (ID : Z) : Async unit :=
  fun s =>
    (Cascade.delete_flights (fun f => Flights.ID f =? ID) s, Normal tt).

End Orm3.

(** POST /itinerary/create *)
Definition post_itinerary_create (now : Z) (req : ItineraryBody.t)
  : Async Response :=
  fun s =>
    let (errors, body) := itineraryValidationConstraints s req in
    if negb (isEmpty errors) then respond 422 (errors_body errors) s
    else
      (existingItinerary <-
         Orm3.Itinerary_findOne_code (ItineraryBody.code body) ;;
       match existingItinerary with
       | Some _ => respond 409 (error_body "Itinerary code already exists.")
       | None =>
           attempt
             (itinerary <- Orm3.Itinerary_create now body ;;
              respond 200
                (jobject
                   [ ("message", jstring "Itinerary created successfully");
                     ("itinerary", jobject
                       [ ("id", Built.ID itinerary);
                         ("code",
                           jstring (Built.get Itinerary.Code itinerary));
                         ("originAirportId",
                           jint (Built.get Itinerary.OriginAirportID
                                   itinerary));
                         ("destinationAirportId",
                           jint (Built.get Itinerary.DestinationAirportID
                                   itinerary));
                         ("duration",
                           jint (Built.get Itinerary.DurationMinutes
                                   itinerary));
                         ("updatedAt",
                           jdate (Built.get Itinerary.updatedAt itinerary));
                         ("createdAt",
                           jdate (Built.get Itinerary.createdAt itinerary))
                       ]) ]))
             (fun error => mkResponse 500 (error_body "Server error"))
       end) s.

(** DELETE /itinerary/delete, the body a JSON object with integer
    values. *)
Definition delete_itinerary_delete (req : list (string * Z))
  : Async Response :=
  let invalid :=
    respond 422
      (error_body "Invalid request body - missing or invalid itinerary ID") in
  match assoc "id" req with
  | None => invalid
  | Some id =>
      if (id =? 0) || (id <=? 0) then invalid
      else
        attempt
          (itinerary <- Orm3.Itinerary_findByPk id ;;
           match itinerary with
           | None => respond 404 (error_body "Itinerary not found")
           | Some itinerary =>
               Orm3.Itinerary_destroy itinerary ;;;
               respond 200
                 (message_body
                    ("Itinerary " ++ show id ++ " deleted successfully")%string)
           end)
          (fun error => mkResponse 500 (error_body "Server error"))
  end.

(** The body of PUT /itinerary/update: the four attributes and an [id]
    that may be missing. *)
Module ItineraryUpdate.
Record t : Type := mk { id : option Z; attributes : ItineraryBody.t }.
End ItineraryUpdate.

(** [Itinerary.findByPk(id)] where [id] may be [undefined]. *)
Definition Itinerary_findByPk_opt (id : option Z)
  : Async (option Itinerary.t) :=
  match id with
  | Some id => Orm3.Itinerary_findByPk id
  | None => ret None
  end.

(** [`${id}`] *)
Definition show_opt (id : option Z) : string :=
  match id with
  | Some id => show id
  | None => "undefined"
  end.

(** PUT /itinerary/update *)
Definition put_itinerary_update (now : Z) (req : ItineraryUpdate.t)
  : Async Response :=
  fun s =>
    let (errors, body) :=
      itineraryValidationConstraints s (ItineraryUpdate.attributes req) in
    if negb (isEmpty errors) then respond 422 (errors_body errors) s
    else
      attempt
        (itinerary <- Itinerary_findByPk_opt (ItineraryUpdate.id req) ;;
         match itinerary with
         | None => respond 404 (error_body "Itinerary not found")
         | Some itinerary =>
             itinerary <- Orm3.Itinerary_save now itinerary body ;;
             respond 200
               (jobject
                  [ ("message",
                      jstring ("Itinerary "
                               ++ show_opt (ItineraryUpdate.id req)
                               ++ " updated successfully")%string);
                    ("itinerary", jobject
                      [ ("id", jint (Itinerary.ID itinerary));
                        ("code", jstring (Itinerary.Code itinerary));
                        ("originAirportId",
                          jint (Itinerary.OriginAirportID itinerary));
                        ("destinationAirportId",
                          jint (Itinerary.DestinationAirportID itinerary));
                        ("duration",
                          jint (Itinerary.DurationMinutes itinerary));
                        ("updatedAt", jdate (Itinerary.updatedAt itinerary));
                        ("createdAt", jdate (Itinerary.createdAt itinerary))
                      ]) ])
         end)
        (fun error => mkResponse 500 (error_body "Server error")) s.

(* ===================================================================== *)
(** ** Flight update and deletion *)
(* ===================================================================== *)

(** The body of PUT /flight/update: the four attributes and the [id] of
    the flight, an integer. *)
Module FlightUpdate.
Record t : Type := mk { id : Z; attributes : FlightBody.t }.
End FlightUpdate.

Section FlightUpdateRoute.

Variable toDate : JsVal -> Z.

(** PUT /flight/update *)
Definition put_flight_update (now : Z) (req : FlightUpdate.t)
  : Async Response :=
  let (errors, body) :=
    flightValidationConstraints (FlightUpdate.attributes req) in
  if negb (isEmpty errors) then respond 422 (errors_body errors)
  else
    let id := FlightUpdate.id req in
    let ItineraryID := FlightBody.ItineraryID body in
    let DepartureTime := FlightBody.DepartureTime body in
    let ArrivalTime := FlightBody.ArrivalTime body in
    let AirplaneID := FlightBody.AirplaneID body in
    existingFlight <- Orm3.Flights_findOne id ;;
    match existingFlight with
    | None => respond 404 (error_body "Flight with this ID does not exist.")
    | Some existingFlight =>
        existingItinerary <- Orm.Itinerary_findOne ItineraryID ;;
        match existingItinerary with
        | None => respond 409 (error_body "Invalid itinerary ID.")
        | Some _ =>
            existingAirplane <- Orm.Airplane_findOne AirplaneID ;;
            match existingAirplane with
            | None => respond 409 (error_body "Invalid airplane ID.")
            | Some _ =>
                if Js.le ArrivalTime DepartureTime then
                  respond 422
                    (error_body "Arrival time must be after departure time.")
                else
                  attempt
                    (existingFlight <-
                       Orm3.Flights_update toDate now existingFlight
                         ItineraryID DepartureTime ArrivalTime AirplaneID ;;
                     respond 200
                       (jobject
                          [ ("message", jstring "Flight updated successfully");
                            ("flight", jobject
                              [ ("id", jint (Flights.ID existingFlight));
                                ("itineraryID",
                                  jint (Flights.ItineraryID existingFlight));
                                ("departureTime",
                                  jdate (Flights.DepartureTime existingFlight));
                                ("arrivalTime",
                                  jdate (Flights.ArrivalTime existingFlight));
                                ("airplaneID",
                                  jint (Flights.AirplaneID existingFlight));
                                ("updatedAt",
                                  jdate (Flights.updatedAt existingFlight));
                                ("createdAt",
                                  jdate (Flights.createdAt existingFlight))
                              ]) ]))
                    (fun error => mkResponse 500 (error_body "Server error"))
            end
        end
    end.

End FlightUpdateRoute.

(** DELETE /flight/delete, the body holding the integer [ID]. *)
Definition delete_flight_delete (ID : Z) : Async Response :=
  attempt
    (existingFlight <- Orm3.Flights_findOne ID ;;
     match existingFlight with
     | None => respond 404 (error_body "Flight not found.")
     | Some _ =>
         Orm3.Flights_destroy ID ;;;
         respond 200 (message_body "Flight deleted successfully.")
     end)
    (fun err => mkResponse 500 (error_body "Server error")).

(* ===================================================================== *)
(** ** The GET routes in the order they are registered *)
(* ===================================================================== *)

(** A path is the list of its segments after [/api].  A route is a list of
    patterns, each a word or a parameter that takes any one segment.  The
    router hands a request to the first route that matches; words are
    compared without regard to case. *)
Inductive Pattern : Type :=
| word (w : string)
| parameter (name : string).

Inductive GetHandler : Type :=
| airport_list
| airport_by_id
| airport_all
| itinerary_list
| itinerary_by_id
| airplane_list
| airplane_by_id
| flight_list
| reservation_flight.

Definition lower (c : ascii) : ascii :=
  if Chars.is_upper c then ascii_of_N (Chars.code c + 32) else c.

Fixpoint lowercase (s : string) : string :=
  match s with
  | EmptyString => EmptyString
  | String c s' => String (lower c) (lowercase s')
  end.

Fixpoint matches (route : list Pattern) (path : list string)
  : option (list (string * string)) :=
  match route, path with
  | [], [] => Some []
  | word w :: route', segment :: path' =>
      if String.eqb (lowercase w) (lowercase segment) then matches route' path'
      else None
  | parameter name :: route', segment :: path' =>
      match segment with
      | EmptyString => None
      | _ => option_map (cons (name, segment)) (matches route' path')
      end
  | _, _ => None
  end.

Definition get_routes : list (list Pattern * GetHandler) :=
  [ ([word "airport"; word "list"], airport_list);
    ([word "airport"; parameter "id"], airport_by_id);
    ([word "airport"; word "all"], airport_all);
    ([word "itinerary"; word "list"], itinerary_list);
    ([word "itinerary"; parameter "id"], itinerary_by_id);
    ([word "airplane"; word "list"], airplane_list);
    ([word "airplane"; parameter "id"], airplane_by_id);
    ([word "flight"; word "list"], flight_list);
    ([word "reservation"; word "flight"; parameter "ID"], reservation_flight) ].

Fixpoint first_match (routes : list (list Pattern * GetHandler))
  (path : list string) : option (GetHandler * list (string * string)) :=
  match routes with
  | [] => None
  | (route, handler) :: rest =>
      match matches route path with
      | Some params => Some (handler, params)
      | None => first_match rest path
      end
  end.

Definition dispatch_get : list string
  -> option (GetHandler * list (string * string)) :=
  first_match get_routes.

(* ===================================================================== *)
(** ** Invariants the routes are checked against *)
(* ===================================================================== *)

(** A passenger name as the booking route stores it. *)
Definition valid_name (name : string) : Prop :=
  Validator.isAlphanumeric name = true /\ (2 <= String.length name)%nat.

Definition names_valid (s : Store) : Prop :=
  Forall (fun r => valid_name (Reservation.PassengerName r)) (reservations s).

(** The Airplane table as the airplane routes keep it. *)
Definition airplanes_wf (s : Store) : Prop :=
  NoDup (map Airplane.Name (airplanes s)) /\
  unique_ids Airplane.ID (airplanes s) /\
  positive_ids Airplane.ID (airplanes s) /\
  capacities_positive s.

(** The Airport table as the airport routes keep it. *)
Definition valid_airport (a : Airport.t) : Prop :=
  Validator.isAlphanumeric (Airport.Name a) = true /\
  isFloat_in (-90) 90 (Airport.Latitude a) = true /\
  isFloat_in (-180) 180 (Airport.Longitude a) = true /\
  timezone_custom (Airport.Timezone a) = None.

Definition airports_wf (s : Store) : Prop :=
  NoDup (map Airport.Name (airports s)) /\
  unique_ids Airport.ID (airports s) /\
  positive_ids Airport.ID (airports s) /\
  Forall valid_airport (airports s).

(** Every itinerary names two stored airports. *)
Definition itineraries_resolve (s : Store) : Prop :=
  Forall (fun i =>
            airport_exists s (Itinerary.OriginAirportID i) = true /\
            airport_exists s (Itinerary.DestinationAirportID i) = true)
    (itineraries s).

(** How many turns a task still needs to its response. *)
Definition turns_left (t : BookingTask) : nat :=
  match t with
  | Received _ _ => 3
  | Resolved _ _ _ => 2
  | Granted _ _ _ => 1
  | Responded _ => 0
  end.

Definition has_responded (t : BookingTask) : bool :=
  match t with
  | Responded _ => true
  | _ => false
  end.

(** A second small database: flight 4 flies an itinerary that is no longer
    stored and has seats. *)
Module Lost.

Definition f4 : Flights.t := Flights.mk 4 7 7000 8000 2 133 133.

Definition store : Store :=
  mkStore [Demo.LHR; Demo.JFK] [Demo.route] [Demo.single; Demo.twin]
    [Demo.f1; Demo.f2; Demo.f3; f4] [].

Definition Eve : ReservationBody.t := ReservationBody.mk "Eve" 4.

End Lost.

(** The turns the task at place [i] still needs; none where there is no
    task. *)
Definition turns_at (ts : list BookingTask) (i : nat) : nat :=
  match nth_error ts i with
  | Some t => turns_left t
  | None => 0
  end.

(** A third small database: both seats of flight 2 are taken. *)
Module Busy.

Definition store : Store :=
  mkStore [Demo.LHR; Demo.JFK] [Demo.route] [Demo.single; Demo.twin]
    [Demo.f1; Demo.f2; Demo.f3]
    [Reservation.mk 1 "Ann" 2 7 7; Reservation.mk 2 "Bob" 2 8 8].

End Busy.

(** A conversion to run the flight routes with: the date of a number is
    that many milliseconds after the epoch. *)
Definition epoch (v : JsVal) : Z :=
  match v with
  | JNum z => z
  | JStr _ => 0
  end.

(** The digits of a time zone. *)
Definition one_or_two_digits (ds : string) : Prop :=
  (exists d, ds = String d EmptyString /\ Chars.is_digit d = true) \/
  (exists d d', ds = String d (String d' EmptyString) /\
                Chars.is_digit d = true /\ Chars.is_digit d' = true).


(** The Itinerary table as the itinerary routes keep it. *)
Definition itineraries_wf (s : Store) : Prop :=
  NoDup (map Itinerary.Code (itineraries s)) /\
  unique_ids Itinerary.ID (itineraries s) /\
  positive_ids Itinerary.ID (itineraries s) /\
  itineraries_resolve s /\
  Forall (fun i => 1 <= Itinerary.DurationMinutes i) (itineraries s).

(** The Reservation table as the booking service keeps it. *)
Definition reservations_wf (s : Store) : Prop :=
  unique_ids Reservation.ID (reservations s) /\
  positive_ids Reservation.ID (reservations s) /\
  names_valid s.

(** The tasks that have not responded yet. *)
Definition pending (ts : list BookingTask) : nat :=
  List.length (filter (fun t => negb (has_responded t)) ts).

(* ===================================================================== *)
(** ** Validation *)
(* ===================================================================== *)

Lemma app_nil_inv {A : Type} (l l' : list A) : l ++ l' = [] -> l = [] /\ l' = [].
Proof. destruct l; simpl; intros H; [auto | discriminate]. Qed.

(** What the validators let through: a flight ID of at least 1, unchanged,
    and a trimmed name of two or more letters and digits. *)
Lemma validated_inv req body :
  validated req body ->
  1 <= ReservationBody.FlightID body /\
  ReservationBody.FlightID body = ReservationBody.FlightID req /\
  ReservationBody.PassengerName body
  = Validator.trim (ReservationBody.PassengerName req).
Proof.
  unfold validated, reservationValidationConstraints, check. simpl.
  destruct (Z.leb_spec 1 (ReservationBody.FlightID req)) as [Hle | Hlt].
  - intros H. inversion H; subst; simpl. auto.
  - intros H. inversion H as [[Herr Hbody]].
    apply app_nil_inv in Herr. destruct Herr as [_ Herr]. discriminate.
Qed.

Lemma post_reservation_create_validated now req body :
  validated req body ->
  post_reservation_create now req
  = create_reservation now (ReservationBody.PassengerName body)
      (ReservationBody.FlightID body).
Proof.
  unfold validated, post_reservation_create. intros ->. reflexivity.
Qed.

(** A request the validators refuse is answered 422 and writes nothing. *)
Lemma post_reservation_create_refused now req s :
  fst (reservationValidationConstraints req) <> [] ->
  fst (post_reservation_create now req s) = s /\
  status (snd (post_reservation_create now req s)) = 422.
Proof.
  unfold post_reservation_create.
  destruct (reservationValidationConstraints req) as [errors body]. simpl.
  destruct errors; [congruence | intros _; simpl; auto].
Qed.

(* ===================================================================== *)
(** ** The booking handler, case by case *)
(* ===================================================================== *)

Ltac run_handler :=
  cbv beta iota delta
    [create_reservation try_catch bind ret throw respond deref
     Orm.Flights_findOne_include Orm.Reservation_count
     Orm.Reservation_findOne Orm.Reservation_destroy Orm.Reservation_findAll
     option_map].

Lemma create_reservation_no_flight now name FlightID s :
  Orm.find Flights.ID FlightID (flights s) = None ->
  create_reservation now name FlightID s = (s, NoSuchFlight).
Proof. intros H. run_handler. rewrite H. reflexivity. Qed.

Lemma create_reservation_no_airplane now name FlightID s f :
  Orm.find Flights.ID FlightID (flights s) = Some f ->
  Orm.find Airplane.ID (Flights.AirplaneID f) (airplanes s) = None ->
  create_reservation now name FlightID s = (s, failed_to_create).
Proof.
  intros Hf Ha. run_handler. rewrite Hf.
  unfold Orm.include_all; simpl. rewrite Ha. reflexivity.
Qed.

Lemma create_reservation_full now name FlightID s f a :
  Orm.find Flights.ID FlightID (flights s) = Some f ->
  Orm.find Airplane.ID (Flights.AirplaneID f) (airplanes s) = Some a ->
  Airplane.Capacity a <= reservationsCount FlightID s ->
  create_reservation now name FlightID s = (s, FlightFull).
Proof.
  intros Hf Ha Hfull. run_handler. rewrite Hf.
  unfold Orm.include_all; simpl. rewrite Ha.
  fold (reservationsCount FlightID s).
  destruct (Z.geb_spec (reservationsCount FlightID s) (Airplane.Capacity a));
    [reflexivity | lia].
Qed.

Lemma resolves_include_all s FlightID c :
  resolves s FlightID c ->
  Orm.include_all s (ctx_flight c)
  = Eager.mkFlight (ctx_flight c)
      (Some (Eager.mkItinerary (ctx_itinerary c) (Some (ctx_origin c))
               (Some (ctx_destination c))))
      (Some (ctx_airplane c)).
Proof.
  intros (_ & Hi & Ho & Hd & Ha).
  unfold Orm.include_all, Orm.include_airports.
  rewrite Hi, Ha. simpl. rewrite Ho, Hd. reflexivity.
Qed.

Lemma complete_resolves s FlightID f :
  Orm.find Flights.ID FlightID (flights s) = Some f ->
  complete (Orm.include_all s f) = true ->
  exists c, resolves s FlightID c /\ ctx_flight c = f.
Proof.
  intros Hf. unfold complete, Orm.include_all, Orm.include_airports, resolves.
  simpl.
  destruct (Orm.find Itinerary.ID (Flights.ItineraryID f) (itineraries s))
    as [i |] eqn:Hi; simpl; [| discriminate].
  destruct (Orm.find Airplane.ID (Flights.AirplaneID f) (airplanes s))
    as [a |] eqn:Ha; [| discriminate].
  destruct (Orm.find Airport.ID (Itinerary.OriginAirportID i) (airports s))
    as [o |] eqn:Ho; [| discriminate].
  destruct (Orm.find Airport.ID (Itinerary.DestinationAirportID i) (airports s))
    as [d |] eqn:Hd; [| discriminate].
  intros _. exists (mkContext f i o d a). simpl. repeat split; assumption.
Qed.

(** Both builders of the nested record give the confirmation format when
    the flight that was read is complete; the one of the booking gives it
    without the row id. *)
Lemma created_reservation_view s FlightID c r s' :
  resolves s FlightID c ->
  created_reservation (Built.mk r) (Orm.include_all s (ctx_flight c)) s'
  = (s', Normal (confirmation_view c r)).
Proof.
  intros H. rewrite (resolves_include_all _ _ _ H). reflexivity.
Qed.

Lemma listed_reservation_view s FlightID c r s' :
  resolves s FlightID c ->
  listed_reservation (Orm.include_all s (ctx_flight c)) r s'
  = (s', Normal (reservation_view c r)).
Proof.
  intros H. rewrite (resolves_include_all _ _ _ H). reflexivity.
Qed.

(** A builder that meets a missing association throws, and writes
    nothing. *)
Lemma created_reservation_incomplete r existingFlight s :
  complete existingFlight = false ->
  exists e, created_reservation r existingFlight s = (s, Throw e).
Proof.
  unfold complete, created_reservation, bind, deref, throw, ret.
  destruct existingFlight as [f [[i [o |] [d |]] |] [a |]]; simpl;
    intros H; try discriminate; eexists; reflexivity.
Qed.

Lemma create_reservation_admitted now name FlightID s f a :
  Orm.find Flights.ID FlightID (flights s) = Some f ->
  Orm.find Airplane.ID (Flights.AirplaneID f) (airplanes s) = Some a ->
  reservationsCount FlightID s < Airplane.Capacity a ->
  let body := ReservationBody.mk name FlightID in
  fst (create_reservation now name FlightID s) = booked now body s /\
  (complete (Orm.include_all s f) = false ->
   snd (create_reservation now name FlightID s) = failed_to_create) /\
  (forall c, resolves s FlightID c ->
   snd (create_reservation now name FlightID s)
   = created (confirmation_view c (new_reservation now body s))).
Proof.
  intros Hf Ha Hlt body.
  assert (Hrun : create_reservation now name FlightID s
    = match created_reservation (Built.mk (new_reservation now body s))
              (Orm.include_all s f) (booked now body s) with
      | (s', Normal record) => (s', created record)
      | (s', Throw _) => (s', failed_to_create)
      end).
  { run_handler. rewrite Hf.
    replace (Eager.Airplane (Orm.include_all s f)) with (Some a)
      by (unfold Orm.include_all; simpl; auto).
    fold (reservationsCount FlightID s).
    destruct (Z.geb_spec (reservationsCount FlightID s) (Airplane.Capacity a));
      [lia |].
    unfold Orm.Reservation_create.
    fold (new_reservation now body s). fold (booked now body s).
    destruct (created_reservation _ _ _) as [s' [record | e]]; reflexivity. }
  rewrite Hrun. split; [| split].
  - destruct (complete (Orm.include_all s f)) eqn:Hc.
    + destruct (complete_resolves _ _ _ Hf Hc) as (c & Hres & <-).
      rewrite (created_reservation_view _ _ _ _ _ Hres). reflexivity.
    + destruct (created_reservation_incomplete
                  (Built.mk (new_reservation now body s))
                  _ (booked now body s) Hc) as [e ->]. reflexivity.
  - intros Hc.
    destruct (created_reservation_incomplete
                  (Built.mk (new_reservation now body s))
                _ (booked now body s) Hc) as [e ->]. reflexivity.
  - intros c Hres.
    assert (ctx_flight c = f) as <-.
    { destruct Hres as (Hf' & _). congruence. }
    rewrite (created_reservation_view _ _ _ _ _ Hres). reflexivity.
Qed.

Lemma find_absent {A : Type} (ID : A -> Z) (id : Z) (table : list A) :
  (forall row, In row table -> ID row <> id) ->
  Orm.find ID id table = None.
Proof.
  intros H. unfold Orm.find.
  destruct (List.find (fun row => ID row =? id) table) as [row |] eqn:Hfind;
    [| reflexivity].
  apply find_some in Hfind. destruct Hfind as [Hin Heq].
  apply Z.eqb_eq in Heq. elim (H row Hin Heq).
Qed.

Lemma find_stored {A : Type} (ID : A -> Z) (id : Z) (table : list A) row :
  Orm.find ID id table = Some row -> In row table /\ ID row = id.
Proof.
  unfold Orm.find. intros H. apply find_some in H.
  destruct H as [Hin Heq]. apply Z.eqb_eq in Heq. auto.
Qed.

Lemma find_after {A : Type} (ID : A -> Z) (id : Z) (table rest : list A) :
  (forall row, In row table -> ID row <> id) ->
  Orm.find ID id (table ++ rest) = Orm.find ID id rest.
Proof.
  unfold Orm.find.
  induction table as [| row table IH]; simpl; intros H; [reflexivity |].
  destruct (Z.eqb_spec (ID row) id) as [Heq | _].
  - elim (H row (or_introl eq_refl) Heq).
  - apply IH. intros r Hr. apply H. right. exact Hr.
Qed.

Lemma booked_changes now body s : booked now body s <> s.
Proof.
  intros H. apply (f_equal (fun s => List.length (reservations s))) in H.
  unfold booked, with_reservations in H. simpl in H.
  rewrite length_app in H. simpl in H. lia.
Qed.

(** A booking the validators let through, on a flight whose context
    resolves and that has a seat left. *)
Lemma post_reservation_create_resolved now req body s c :
  validated req body ->
  resolves s (ReservationBody.FlightID body) c ->
  reservationsCount (ReservationBody.FlightID body) s
  < Airplane.Capacity (ctx_airplane c) ->
  post_reservation_create now req s
  = (booked now body s,
     created (confirmation_view c (new_reservation now body s))).
Proof.
  intros Hv Hres Hlt.
  rewrite (post_reservation_create_validated now _ _ Hv).
  destruct body as [name FlightID]. simpl in *.
  pose proof Hres as (Hf & _ & _ & _ & Ha).
  destruct (create_reservation_admitted now name _ _ _ _ Hf Ha Hlt)
    as (Hstore & _ & Hview).
  rewrite (surjective_pairing (create_reservation now name FlightID s)).
  rewrite Hstore, (Hview c Hres). reflexivity.
Qed.

(* ===================================================================== *)
(** ** Admission *)
(* ===================================================================== *)

(** C1. Booking admission boundary.  For a request the validators let
    through, for a stored flight whose airplane is stored: the booking
    writes its reservation row exactly when the number of reservations of
    the flight is below the airplane's capacity, and the answer is then
    the 200 confirmation when the whole flight context resolves (the
    record in it carries the row's name and times and the flight context,
    and [null] for the row id); when the
    count has reached the capacity the answer is 409 'The flight is
    already full.' and the database is as before; with a capacity of at
    least 1, a flight without reservations is admitted. *)
Theorem booking_admission_boundary s now req body f a :
  validated req body ->
  Orm.find Flights.ID (ReservationBody.FlightID body) (flights s) = Some f ->
  Orm.find Airplane.ID (Flights.AirplaneID f) (airplanes s) = Some a ->
  let n := reservationsCount (ReservationBody.FlightID body) s in
  let out := post_reservation_create now req s in
  (fst out = booked now body s <-> n < Airplane.Capacity a) /\
  (n < Airplane.Capacity a ->
   forall c, resolves s (ReservationBody.FlightID body) c ->
   snd out = created (confirmation_view c (new_reservation now body s))) /\
  (Airplane.Capacity a <= n -> out = (s, FlightFull)) /\
  (1 <= Airplane.Capacity a -> n = 0 -> fst out = booked now body s).
Proof.
  intros Hv Hf Ha n out. subst out.
  rewrite (post_reservation_create_validated now _ _ Hv).
  destruct body as [name FlightID]. simpl in *.
  assert (Hadm : n < Airplane.Capacity a ->
                 fst (create_reservation now name FlightID s)
                 = booked now (ReservationBody.mk name FlightID) s).
  { intros Hlt. apply (create_reservation_admitted now name _ _ _ _ Hf Ha Hlt). }
  assert (Hfull : Airplane.Capacity a <= n ->
                  create_reservation now name FlightID s = (s, FlightFull)).
  { intros Hge. apply (create_reservation_full now name _ _ _ _ Hf Ha Hge). }
  repeat split.
  - intros Hb. destruct (Z.lt_ge_cases n (Airplane.Capacity a)) as [| Hge];
      [assumption |].
    rewrite (Hfull Hge) in Hb. simpl in Hb.
    symmetry in Hb. elim (booked_changes _ _ _ Hb).
  - exact Hadm.
  - intros Hlt c Hres.
    apply (create_reservation_admitted now name _ _ _ _ Hf Ha Hlt). exact Hres.
  - exact Hfull.
  - intros Hcap Hzero. apply Hadm. lia.
Qed.

Lemma booking_admission_boundary_witness :
  let out := post_reservation_create 7 Demo.Ann Demo.store in
  (fst out = booked 7 Demo.Ann Demo.store <-> 0 < 1) /\
  (0 < 1 ->
   forall c, resolves Demo.store 1 c ->
   snd out
   = created (confirmation_view c (new_reservation 7 Demo.Ann Demo.store))) /\
  (1 <= 0 -> out = (Demo.store, FlightFull)) /\
  (1 <= 1 -> 0 = 0 -> fst out = booked 7 Demo.Ann Demo.store).
Proof.
  apply (booking_admission_boundary Demo.store 7 Demo.Ann Demo.Ann Demo.f1
           Demo.single); reflexivity.
Defined.



(** C8. A stored flight whose airplane is no longer stored: a booking the
    validators let through reads the capacity of an absent association,
    lands in the catch branch, and is answered 500 'Failed to create
    reservation.' with the database as it was. *)
Theorem booking_orphaned_airplane s now req body f :
  validated req body ->
  Orm.find Flights.ID (ReservationBody.FlightID body) (flights s) = Some f ->
  (forall a, In a (airplanes s) -> Airplane.ID a <> Flights.AirplaneID f) ->
  post_reservation_create now req s
  = (s, mkResponse 500 (error_body "Failed to create reservation.")).
Proof.
  intros Hv Hf Hnone. apply find_absent in Hnone.
  rewrite (post_reservation_create_validated now _ _ Hv).
  apply (create_reservation_no_airplane now _ _ _ _ Hf Hnone).
Qed.

Lemma booking_orphaned_airplane_witness :
  post_reservation_create 7 (ReservationBody.mk "Ann" 3) Demo.store
  = (Demo.store, mkResponse 500 (error_body "Failed to create reservation.")).
Proof.
  apply (booking_orphaned_airplane Demo.store 7 (ReservationBody.mk "Ann" 3)
           (ReservationBody.mk "Ann" 3) Demo.f3).
  - reflexivity.
  - reflexivity.
  - simpl. intros a [<- | [<- | []]]; discriminate.
Defined.

(* ===================================================================== *)
(** ** Row ids *)
(* ===================================================================== *)

Lemma fold_max_ge (ids : list Z) (i : Z) :
  i <= fold_left Z.max ids i /\
  (forall x, In x ids -> x <= fold_left Z.max ids i).
Proof.
  revert i. induction ids as [| y ids IH]; intros i; simpl.
  - split; [lia | intros x []].
  - destruct (IH (Z.max i y)) as [Hi Hx]. split; [lia |].
    intros x [<- | Hin]; [lia | auto].
Qed.

(** The row id of an insert is above every row id in use. *)
Lemma next_rowid_fresh (ids : list Z) (x : Z) :
  In x ids -> x < next_rowid ids.
Proof.
  destruct ids as [| i rest]; simpl; [intros [] |].
  destruct (fold_max_ge rest i) as [Hi Hx].
  intros [<- | Hin]; [lia | specialize (Hx x Hin); lia].
Qed.

Lemma next_rowid_positive (ids : list Z) :
  Forall (fun x => 1 <= x) ids -> 1 <= next_rowid ids.
Proof.
  destruct ids as [| i rest]; simpl; [lia |].
  intros H. inversion H; subst.
  destruct (fold_max_ge rest i) as [Hi _]. lia.
Qed.

Lemma insert_id_fresh {A : Type} (ID : A -> Z) (table : list A) row :
  In row table -> ID row < insert_id ID table.
Proof.
  intros Hin. apply next_rowid_fresh. apply in_map. exact Hin.
Qed.

Lemma insert_id_positive {A : Type} (ID : A -> Z) (table : list A) :
  positive_ids ID table -> 1 <= insert_id ID table.
Proof.
  intros H. apply next_rowid_positive. apply Forall_map. exact H.
Qed.

(* ===================================================================== *)
(** ** Cancelling *)
(* ===================================================================== *)

Lemma with_reservations_same s : with_reservations (reservations s) s = s.
Proof. destruct s; reflexivity. Qed.

Lemma delete_absent {A : Type} (ID : A -> Z) (id : Z) (table : list A) :
  (forall row, In row table -> ID row <> id) ->
  Orm.delete ID id table = table.
Proof.
  induction table as [| row table IH]; simpl; intros H; [reflexivity |].
  destruct (Z.eqb_spec (ID row) id) as [Heq | Hne]; simpl.
  - elim (H row (or_introl eq_refl) Heq).
  - f_equal. apply IH. intros r Hr. apply H. right. exact Hr.
Qed.

Lemma delete_gone {A : Type} (ID : A -> Z) (id : Z) (table : list A) row :
  In row (Orm.delete ID id table) -> ID row <> id.
Proof.
  unfold Orm.delete. intros H. apply filter_In in H. destruct H as [_ H].
  apply negb_true_iff in H. apply Z.eqb_neq in H. exact H.
Qed.

(** With unique keys, deleting by the key of a stored row takes out that
    row and nothing else. *)
Lemma delete_unique {A : Type} (ID : A -> Z) (table : list A) row :
  unique_ids ID table ->
  Orm.find ID (ID row) table = Some row ->
  exists before after,
    table = before ++ row :: after /\
    Orm.delete ID (ID row) table = before ++ after.
Proof.
  unfold unique_ids, Orm.find.
  induction table as [| r table IH]; simpl; intros Hnd Hfind; [discriminate |].
  inversion Hnd as [| ? ? Hnotin Hnd']; subst.
  destruct (Z.eqb_spec (ID r) (ID row)) as [Heq | Hne]; simpl.
  - inversion Hfind; subst r. exists [], table. split; [reflexivity |].
    simpl. apply delete_absent. intros r Hr Heq'.
    apply Hnotin. rewrite <- Heq'. apply in_map. exact Hr.
  - destruct (IH Hnd' Hfind) as (before & after & -> & Hdel).
    exists (r :: before), after. split; [reflexivity |].
    simpl. f_equal. exact Hdel.
Qed.

Lemma delete_last {A : Type} (ID : A -> Z) (table : list A) row :
  (forall r, In r table -> ID r <> ID row) ->
  Orm.delete ID (ID row) (table ++ [row]) = table.
Proof.
  intros H. unfold Orm.delete. rewrite filter_app. simpl.
  rewrite Z.eqb_refl. simpl. rewrite app_nil_r.
  apply (delete_absent ID (ID row) table H).
Qed.

Lemma cancel_found ID s r :
  ID <> 0 ->
  Orm.find Reservation.ID ID (reservations s) = Some r ->
  delete_reservation_delete [("ID", ID)] s
  = (with_reservations (Orm.delete Reservation.ID ID (reservations s)) s, Ok).
Proof.
  intros Hnz Hfind. unfold delete_reservation_delete. simpl.
  destruct (Z.eqb_spec ID 0) as [| _]; [contradiction |].
  run_handler. rewrite Hfind.
  destruct (find_stored _ _ _ _ Hfind) as [_ ->]. reflexivity.
Qed.

Lemma cancel_not_found ID s :
  ID <> 0 ->
  Orm.find Reservation.ID ID (reservations s) = None ->
  delete_reservation_delete [("ID", ID)] s = (s, NotFound).
Proof.
  intros Hnz Hfind. unfold delete_reservation_delete. simpl.
  destruct (Z.eqb_spec ID 0) as [| _]; [contradiction |].
  run_handler. rewrite Hfind. reflexivity.
Qed.

Lemma find_some_if {A : Type} (ID : A -> Z) (id : Z) (table : list A) :
  (exists row, In row table /\ ID row = id) ->
  exists row, Orm.find ID id table = Some row.
Proof.
  intros (row & Hin & Heq). unfold Orm.find.
  destruct (List.find (fun row => ID row =? id) table) as [r |] eqn:Hfind;
    [eauto |].
  apply (List.find_none _ _ Hfind) in Hin. apply Z.eqb_neq in Hin. contradiction.
Qed.

(** C6. Cancel contract.  For a body that holds the ID of a reservation
    and nothing else: when a reservation with this ID is stored the answer
    is 200 and no row with the ID is left; when none is stored the answer
    is 404 'Reservation not found.' and the database is as before; hence
    of two cancels with one ID the first is answered 200 and the second
    404.  A cancel touches the Reservation table only: there is no
    counter to update. *)
Theorem cancel_contract s ID :
  ID <> 0 ->
  let req := [("ID", ID)] in
  let out := delete_reservation_delete req s in
  ((exists r, In r (reservations s) /\ Reservation.ID r = ID) ->
   snd out = Ok /\
   (forall r, In r (reservations (fst out)) -> Reservation.ID r <> ID) /\
   snd (serve [cancel req; cancel req] s) = [Ok; NotFound]) /\
  ((forall r, In r (reservations s) -> Reservation.ID r <> ID) ->
   out = (s, NotFound)) /\
  fst out
  = with_reservations (Orm.delete Reservation.ID ID (reservations s)) s.
Proof.
  intros Hnz req out. subst req out. split; [| split].
  - intros Hex. apply find_some_if in Hex. destruct Hex as [r Hfind].
    simpl. rewrite (cancel_found ID s r Hnz Hfind). simpl.
    split; [reflexivity |]. split.
    + intros r'. apply delete_gone.
    + rewrite cancel_not_found; [reflexivity | exact Hnz |].
      apply find_absent. simpl. intros r'. apply delete_gone.
  - intros Hnone. apply cancel_not_found; [exact Hnz |].
    apply find_absent. exact Hnone.
  - destruct (Orm.find Reservation.ID ID (reservations s)) as [r |] eqn:Hfind.
    + rewrite (cancel_found ID s r Hnz Hfind). reflexivity.
    + rewrite (cancel_not_found ID s Hnz Hfind). simpl.
      rewrite delete_absent; [symmetry; apply with_reservations_same |].
      intros r Hr Heq.
      assert (Hex : exists row, In row (reservations s)
                               /\ Reservation.ID row = ID) by eauto.
      apply find_some_if in Hex. destruct Hex as [r' Hr']. congruence.
Qed.

Lemma cancel_contract_witness :
  let req := [("ID", 1)] in
  let out := delete_reservation_delete req Demo.sold_out in
  ((exists r, In r (reservations Demo.sold_out) /\ Reservation.ID r = 1) ->
   snd out = Ok /\
   (forall r, In r (reservations (fst out)) -> Reservation.ID r <> 1) /\
   snd (serve [cancel req; cancel req] Demo.sold_out) = [Ok; NotFound]) /\
  ((forall r, In r (reservations Demo.sold_out) -> Reservation.ID r <> 1) ->
   out = (Demo.sold_out, NotFound)) /\
  fst out
  = with_reservations
      (Orm.delete Reservation.ID 1 (reservations Demo.sold_out)) Demo.sold_out.
Proof. apply (cancel_contract Demo.sold_out 1). discriminate. Defined.

(** C10. Frame of a cancel.  With unique reservation IDs, a cancel that is
    answered 200 takes out of the Reservation table the one row with the
    ID of the body, keeps every other row in its place, and leaves the
    Airport, Itinerary, Airplane and Flights tables as they were. *)
Theorem cancel_frame s req :
  unique_ids Reservation.ID (reservations s) ->
  status (snd (delete_reservation_delete req s)) = 200 ->
  let s' := fst (delete_reservation_delete req s) in
  exists r before after,
    assoc "ID" req = Some (Reservation.ID r) /\
    reservations s = before ++ r :: after /\
    reservations s' = before ++ after /\
    airports s' = airports s /\
    itineraries s' = itineraries s /\
    airplanes s' = airplanes s /\
    flights s' = flights s.
Proof.
  intros Huniq. unfold delete_reservation_delete.
  destruct (assoc "ID" req) as [ID |]; [| simpl; discriminate].
  destruct (ID =? 0); [simpl; discriminate |].
  destruct (negb (Nat.eqb (List.length req) 1)); [simpl; discriminate |].
  run_handler.
  destruct (Orm.find Reservation.ID ID (reservations s)) as [r |] eqn:Hfind;
    [| simpl; discriminate].
  intros _. simpl.
  destruct (find_stored _ _ _ _ Hfind) as [_ <-].
  destruct (delete_unique Reservation.ID _ r Huniq Hfind)
    as (before & after & Hsplit & Hdel).
  exists r, before, after. rewrite Hdel. auto 10.
Qed.

Lemma cancel_frame_witness :
  let s' := fst (delete_reservation_delete [("ID", 1)] Demo.sold_out) in
  exists r before after,
    assoc "ID" [("ID", 1)] = Some (Reservation.ID r) /\
    reservations Demo.sold_out = before ++ r :: after /\
    reservations s' = before ++ after /\
    airports s' = airports Demo.sold_out /\
    itineraries s' = itineraries Demo.sold_out /\
    airplanes s' = airplanes Demo.sold_out /\
    flights s' = flights Demo.sold_out.
Proof.
  apply (cancel_frame Demo.sold_out [("ID", 1)]).
  - unfold unique_ids. simpl. constructor; [intros [] | constructor].
  - reflexivity.
Defined.

(* ===================================================================== *)
(** ** Booking and the tables *)
(* ===================================================================== *)

Lemma for_flight_app FlightID (l l' : list Reservation.t) :
  Orm.for_flight FlightID (l ++ l')
  = Orm.for_flight FlightID l ++ Orm.for_flight FlightID l'.
Proof. apply filter_app. Qed.

Lemma count_booked now body s FlightID :
  reservationsCount FlightID (booked now body s)
  = reservationsCount FlightID s
    + (if ReservationBody.FlightID body =? FlightID then 1 else 0).
Proof.
  unfold reservationsCount, booked, with_reservations. simpl.
  rewrite for_flight_app, length_app. simpl.
  destruct (ReservationBody.FlightID body =? FlightID); simpl; lia.
Qed.

(** C5. Cancel then rebook.  On a flight whose context resolves, whose
    airplane seats one and which has no reservation, in a table of
    positive row ids: booking A, cancelling the row that booking wrote,
    then booking B is answered 200, 200, 200, and leaves the database that
    booking B alone would have left, with one reservation for the
    flight.  The two confirmations carry [null] for the row id; the id
    that is cancelled is the one of the row in the table. *)
Theorem cancel_then_rebook s c FlightID nowA nowB A B bodyA bodyB :
  validated A bodyA ->
  validated B bodyB ->
  ReservationBody.FlightID bodyA = FlightID ->
  ReservationBody.FlightID bodyB = FlightID ->
  resolves s FlightID c ->
  Airplane.Capacity (ctx_airplane c) = 1 ->
  reservationsCount FlightID s = 0 ->
  positive_ids Reservation.ID (reservations s) ->
  let rowA := new_reservation nowA bodyA s in
  let rowB := new_reservation nowB bodyB s in
  serve [ book nowA A; cancel [("ID", Reservation.ID rowA)]; book nowB B ] s
  = (booked nowB bodyB s,
     [ created (confirmation_view c rowA); Ok;
       created (confirmation_view c rowB) ]) /\
  reservationsCount FlightID (booked nowB bodyB s) = 1.
Proof.
  intros HvA HvB HfA HfB Hres Hcap Hzero Hpos rowA rowB.
  assert (Hbook : forall now req body,
            validated req body -> ReservationBody.FlightID body = FlightID ->
            post_reservation_create now req s
            = (booked now body s,
               created (confirmation_view c (new_reservation now body s)))).
  { intros now req body Hv Hfid.
    apply post_reservation_create_resolved; rewrite ?Hfid; auto. lia. }
  split.
  - cbn [serve handle]. rewrite (Hbook nowA A bodyA HvA HfA).
    assert (Hid : Reservation.ID rowA <> 0).
    { pose proof (insert_id_positive Reservation.ID _ Hpos).
      unfold rowA, new_reservation. simpl. lia. }
    assert (Hfresh : forall r, In r (reservations s) ->
                               Reservation.ID r <> Reservation.ID rowA).
    { intros r Hr. pose proof (insert_id_fresh Reservation.ID _ r Hr).
      unfold rowA, new_reservation. simpl. lia. }
    assert (Hfind : Orm.find Reservation.ID (Reservation.ID rowA)
                      (reservations (booked nowA bodyA s)) = Some rowA).
    { unfold booked, with_reservations. simpl.
      rewrite (find_after Reservation.ID _ _ _ Hfresh).
      unfold Orm.find. simpl. rewrite Z.eqb_refl. reflexivity. }
    rewrite (cancel_found _ _ _ Hid Hfind).
    assert (Hback : with_reservations
                      (Orm.delete Reservation.ID (Reservation.ID rowA)
                         (reservations (booked nowA bodyA s)))
                      (booked nowA bodyA s) = s).
    { unfold booked, with_reservations. cbn [reservations].
      fold rowA. rewrite (delete_last Reservation.ID _ rowA Hfresh).
      destruct s; reflexivity. }
    rewrite Hback. rewrite (Hbook nowB B bodyB HvB HfB). reflexivity.
  - rewrite count_booked, HfB, Z.eqb_refl. lia.
Qed.

Lemma cancel_then_rebook_witness :
  serve [ book 7 Demo.Ann; cancel [("ID", 1)]; book 8 Demo.Bob ] Demo.store
  = (booked 8 Demo.Bob Demo.store,
     [ created (confirmation_view Demo.ctx1
                  (new_reservation 7 Demo.Ann Demo.store));
       Ok;
       created (confirmation_view Demo.ctx1
                  (new_reservation 8 Demo.Bob Demo.store)) ]) /\
  reservationsCount 1 (booked 8 Demo.Bob Demo.store) = 1.
Proof.
  apply (cancel_then_rebook Demo.store Demo.ctx1 1 7 8 Demo.Ann Demo.Bob
           Demo.Ann Demo.Bob); try reflexivity.
  - repeat split.
  - constructor.
Defined.

(* ===================================================================== *)
(** ** Listing *)
(* ===================================================================== *)

Lemma resolves_stored s FlightID c : resolves s FlightID c -> stored s c.
Proof.
  intros (Hf & Hi & Ho & Hd & Ha).
  apply find_stored in Hf, Hi, Ho, Hd, Ha. unfold stored. tauto.
Qed.

Lemma map_async_resolved s FlightID c rows s' :
  resolves s FlightID c ->
  map_async (listed_reservation (Orm.include_all s (ctx_flight c))) rows s'
  = (s', Normal (map (reservation_view c) rows)).
Proof.
  intros Hres. induction rows as [| r rows IH]; [reflexivity |].
  cbn [map_async map]. unfold bind at 1.
  rewrite (listed_reservation_view _ _ _ r s' Hres).
  unfold bind at 1. rewrite IH. reflexivity.
Qed.

Lemma listed_reservation_incomplete r existingFlight s :
  complete existingFlight = false ->
  exists e, listed_reservation existingFlight r s = (s, Throw e).
Proof.
  unfold complete, listed_reservation, bind, deref, throw, ret.
  destruct existingFlight as [f [[i [o |] [d |]] |] [a |]]; simpl;
    intros H; try discriminate; eexists; reflexivity.
Qed.

Lemma get_reservation_flight_refused ID s :
  ID < 1 ->
  fst (get_reservation_flight ID s) = s /\
  status (snd (get_reservation_flight ID s)) = 422.
Proof.
  intros Hlt. unfold get_reservation_flight, check_param. simpl.
  destruct (Z.leb_spec 1 ID); [lia |]. simpl. auto.
Qed.

Lemma get_reservation_flight_no_flight ID s :
  1 <= ID ->
  Orm.find Flights.ID ID (flights s) = None ->
  get_reservation_flight ID s = (s, NoSuchFlight).
Proof.
  intros Hle Hf. unfold get_reservation_flight, check_param. simpl.
  destruct (Z.leb_spec 1 ID); [| lia]. simpl.
  run_handler. rewrite Hf. reflexivity.
Qed.

(** The list route on a stored flight: the rows of the flight, each
    rebuilt around the flight that was read once. *)
Lemma get_reservation_flight_found ID s f :
  1 <= ID ->
  Orm.find Flights.ID ID (flights s) = Some f ->
  get_reservation_flight ID s
  = match map_async (listed_reservation (Orm.include_all s f))
            (Orm.for_flight ID (reservations s)) s with
    | (s', Normal items) => (s', listed items)
    | (s', Throw _) => (s', mkResponse 500 (error_body "Internal server error."))
    end.
Proof.
  intros Hle Hf. unfold get_reservation_flight, check_param. simpl.
  destruct (Z.leb_spec 1 ID); [| lia]. simpl.
  run_handler. rewrite Hf.
  destruct (find_stored _ _ _ _ Hf) as [_ Hid].
  cbn [Orm.include_all Eager.flight]. rewrite Hid.
  destruct (map_async _ _ s) as [s' [items | e]]; reflexivity.
Qed.

(** The list route reads only. *)
Lemma get_reservation_flight_reads ID s :
  fst (get_reservation_flight ID s) = s.
Proof.
  destruct (Z.lt_ge_cases ID 1) as [Hlt | Hle].
  { apply get_reservation_flight_refused. exact Hlt. }
  destruct (Orm.find Flights.ID ID (flights s)) as [f |] eqn:Hf.
  2:{ rewrite (get_reservation_flight_no_flight _ _ Hle Hf). reflexivity. }
  rewrite (get_reservation_flight_found _ _ _ Hle Hf).
  destruct (complete (Orm.include_all s f)) eqn:Hc.
  - destruct (complete_resolves _ _ _ Hf Hc) as (c & Hres & <-).
    rewrite (map_async_resolved _ _ _ _ s Hres). reflexivity.
  - destruct (Orm.for_flight ID (reservations s)) as [| r rows];
      [reflexivity |].
    cbn [map_async]. unfold bind at 1.
    destruct (listed_reservation_incomplete r _ s Hc) as [e ->].
    reflexivity.
Qed.

(** C9. A stored flight without reservations, in a table of positive row
    ids: the list route answers 200 with an empty array of reservations,
    and reads only. *)
Theorem list_without_reservations s f :
  positive_ids Flights.ID (flights s) ->
  In f (flights s) ->
  reservationsCount (Flights.ID f) s = 0 ->
  get_reservation_flight (Flights.ID f) s
  = (s, mkResponse 200
          (jobject
             [ ("message", jstring "Reservations retrieved successfully");
               ("reservations", jarray []) ])).
Proof.
  intros Hpos Hin Hzero.
  assert (Hle : 1 <= Flights.ID f).
  { unfold positive_ids in Hpos. rewrite Forall_forall in Hpos. auto. }
  destruct (find_some_if Flights.ID (Flights.ID f) (flights s)) as [f' Hf'];
    [eauto |].
  rewrite (get_reservation_flight_found _ _ _ Hle Hf').
  unfold reservationsCount in Hzero.
  destruct (Orm.for_flight (Flights.ID f) (reservations s)) as [| r rows];
    [reflexivity | simpl in Hzero; lia].
Qed.

Lemma list_without_reservations_witness :
  get_reservation_flight 3 Demo.store
  = (Demo.store,
     mkResponse 200
       (jobject
          [ ("message", jstring "Reservations retrieved successfully");
            ("reservations", jarray []) ])).
Proof.
  apply (list_without_reservations Demo.store Demo.f3).
  - repeat constructor; simpl; lia.
  - simpl. auto.
  - reflexivity.
Defined.

(* ===================================================================== *)
(** ** The confirmation format *)
(* ===================================================================== *)

(** Every booking answered 200 has written its row and returns it in the
    confirmation format, around the flight context stored when the
    request came. *)
Lemma booking_confirmed_inv s now req s' res :
  post_reservation_create now req s = (s', res) ->
  status res = 200 ->
  exists body c,
    validated req body /\
    resolves s (ReservationBody.FlightID body) c /\
    stored s c /\
    s' = booked now body s /\
    res = created (confirmation_view c (new_reservation now body s)).
Proof.
  intros Hrun H200.
  destruct (reservationValidationConstraints req) as [errors body] eqn:Hc.
  destruct errors as [| e errors].
  2:{ destruct (post_reservation_create_refused now req s) as [_ H422].
      { rewrite Hc. discriminate. }
      rewrite Hrun in H422. simpl in H422. congruence. }
  exists body.
  rewrite (post_reservation_create_validated now _ _ Hc) in Hrun.
  destruct body as [name FlightID]. simpl in Hrun.
  destruct (Orm.find Flights.ID FlightID (flights s)) as [f |] eqn:Hf.
  2:{ rewrite (create_reservation_no_flight now name _ _ Hf) in Hrun.
      inversion Hrun; subst. discriminate. }
  destruct (Orm.find Airplane.ID (Flights.AirplaneID f) (airplanes s))
    as [a |] eqn:Ha.
  2:{ rewrite (create_reservation_no_airplane now name _ _ _ Hf Ha) in Hrun.
      inversion Hrun; subst. discriminate. }
  destruct (Z.lt_ge_cases (reservationsCount FlightID s)
              (Airplane.Capacity a)) as [Hlt | Hge].
  2:{ rewrite (create_reservation_full now name _ _ _ _ Hf Ha Hge) in Hrun.
      inversion Hrun; subst. discriminate. }
  destruct (create_reservation_admitted now name _ _ _ _ Hf Ha Hlt)
    as (Hstore & Hinc & Hview).
  rewrite Hrun in Hstore, Hinc, Hview. simpl in Hstore, Hinc, Hview.
  destruct (complete (Orm.include_all s f)) eqn:Hcomp.
  2:{ rewrite (Hinc eq_refl) in H200. discriminate. }
  destruct (complete_resolves _ _ _ Hf Hcomp) as (c & Hres & _).
  exists c. simpl.
  split; [exact Hc |]. split; [exact Hres |].
  split; [apply (resolves_stored _ _ _ Hres) |].
  split; [exact Hstore | apply Hview; exact Hres].
Qed.

(** Every list answered 200 is empty or holds the rows of the flight in
    table order, each around one flight context. *)
Lemma list_answered_inv s ID s' res :
  get_reservation_flight ID s = (s', res) ->
  status res = 200 ->
  let rows := Orm.for_flight ID (reservations s) in
  s' = s /\
  (rows = [] -> res = listed []) /\
  (rows <> [] ->
   exists c, resolves s ID c /\ stored s c /\
             res = listed (map (reservation_view c) rows)).
Proof.
  intros Hrun H200 rows.
  destruct (Z.lt_ge_cases ID 1) as [Hlt | Hle].
  { destruct (get_reservation_flight_refused ID s Hlt) as [_ H422].
    rewrite Hrun in H422. simpl in H422. congruence. }
  destruct (Orm.find Flights.ID ID (flights s)) as [f |] eqn:Hf.
  2:{ rewrite (get_reservation_flight_no_flight _ _ Hle Hf) in Hrun.
      inversion Hrun; subst. discriminate. }
  rewrite (get_reservation_flight_found _ _ _ Hle Hf) in Hrun.
  fold rows in Hrun.
  destruct (complete (Orm.include_all s f)) eqn:Hcomp.
  + destruct (complete_resolves _ _ _ Hf Hcomp) as (c & Hres & <-).
    rewrite (map_async_resolved _ _ _ rows s Hres) in Hrun.
    inversion Hrun; subst. split; [reflexivity |]. split.
    * intros ->. reflexivity.
    * intros _. exists c. split; [exact Hres |].
      split; [apply (resolves_stored _ _ _ Hres) | reflexivity].
  + destruct rows as [| r rows'] eqn:Hrows.
    * simpl in Hrun. inversion Hrun; subst.
      split; [reflexivity |]. split; [reflexivity | congruence].
    * cbn [map_async] in Hrun. unfold bind at 1 in Hrun.
      destruct (listed_reservation_incomplete r _ s Hcomp) as [e He].
      rewrite He in Hrun. inversion Hrun; subst. discriminate.
Qed.

(** The list route on a flight whose context resolves. *)
Lemma get_reservation_flight_resolved s ID c :
  1 <= ID ->
  resolves s ID c ->
  get_reservation_flight ID s
  = (s, listed (map (reservation_view c) (Orm.for_flight ID (reservations s)))).
Proof.
  intros Hle Hres. pose proof Hres as (Hf & _).
  rewrite (get_reservation_flight_found _ _ _ Hle Hf).
  rewrite (map_async_resolved _ _ _ _ s Hres). reflexivity.
Qed.

(** C4. Denormalization fidelity.  For a booking the validators let
    through, on a flight whose context resolves and that has a seat left:
    the context is made of stored rows; the booking answers 200 with the
    written row in the confirmation format, whose [Flight] member is the
    view of that context; the list route on the same database returns the
    rows of the flight in table order, every item with the same [Flight]
    member, built from the one context, and with the nested shape of the
    booking's record.  The two records differ in one value: the booking's
    [ID] is [null], an item's [ID] is the row id.  Conversely every
    booking and every list answered 200 has this form. *)
Theorem denormalization_fidelity s now req body c :
  validated req body ->
  resolves s (ReservationBody.FlightID body) c ->
  reservationsCount (ReservationBody.FlightID body) s
  < Airplane.Capacity (ctx_airplane c) ->
  let FlightID := ReservationBody.FlightID body in
  let row := new_reservation now body s in
  stored s c /\
  post_reservation_create now req s
  = (booked now body s, created (confirmation_view c row)) /\
  member "Flight" (confirmation_view c row) = Some (flight_view c) /\
  get_reservation_flight FlightID s
  = (s, listed (map (reservation_view c)
                  (Orm.for_flight FlightID (reservations s)))) /\
  (forall r,
     member "Flight" (reservation_view c r) = Some (flight_view c) /\
     shape (reservation_view c r) = shape (confirmation_view c row) /\
     member "ID" (reservation_view c r) = Some (jint (Reservation.ID r)) /\
     member "ID" (confirmation_view c r) = Some jnull) /\
  (forall now' req' s' res,
     post_reservation_create now' req' s = (s', res) ->
     status res = 200 ->
     exists body' c',
       validated req' body' /\
       resolves s (ReservationBody.FlightID body') c' /\
       stored s c' /\
       s' = booked now' body' s /\
       res = created (confirmation_view c' (new_reservation now' body' s))) /\
  (forall ID s' res,
     get_reservation_flight ID s = (s', res) ->
     status res = 200 ->
     let rows := Orm.for_flight ID (reservations s) in
     s' = s /\
     (rows = [] -> res = listed []) /\
     (rows <> [] ->
      exists c', resolves s ID c' /\ stored s c' /\
                 res = listed (map (reservation_view c') rows))).
Proof.
  intros Hv Hres Hlt FlightID row.
  destruct (validated_inv _ _ Hv) as (Hle & _ & _).
  split; [apply (resolves_stored _ _ _ Hres) |].
  split; [apply post_reservation_create_resolved; assumption |].
  split; [reflexivity |].
  split; [apply get_reservation_flight_resolved; assumption |].
  split; [intros r; repeat split |].
  split.
  - intros now' req' s' res. apply booking_confirmed_inv.
  - intros ID s' res. apply list_answered_inv.
Qed.

Lemma denormalization_fidelity_witness :
  stored Demo.half_full Demo.ctx2 /\
  post_reservation_create 9 Demo.Cy Demo.half_full
  = (booked 9 Demo.Cy Demo.half_full,
     created (confirmation_view Demo.ctx2 (Reservation.mk 2 "Cy" 2 9 9))) /\
  get_reservation_flight 2 Demo.half_full
  = (Demo.half_full,
     listed [reservation_view Demo.ctx2 (Reservation.mk 1 "Ann" 2 7 7)]).
Proof.
  destruct (denormalization_fidelity Demo.half_full 9 Demo.Cy Demo.Cy
              Demo.ctx2) as (Hstored & Hbook & _ & Hlist & _).
  - reflexivity.
  - repeat split.
  - reflexivity.
  - split; [exact Hstored |]. split; [exact Hbook | exact Hlist].
Defined.

(* ===================================================================== *)
(** ** The handler and its steps *)
(* ===================================================================== *)

(** Run from start to end with nothing in between, the three steps of a
    booking are the handler. *)
Lemma run_alone_handler now req s :
  run_alone (Received now req) s
  = (fst (post_reservation_create now req s),
     Responded (snd (post_reservation_create now req s))).
Proof.
  unfold run_alone, post_reservation_create. cbn [booking_step].
  destruct (reservationValidationConstraints req) as [errors body].
  destruct errors as [| e errors]; [| reflexivity].
  cbn [isEmpty negb]. unfold create_reservation.
  run_handler.
  destruct (Orm.find Flights.ID (ReservationBody.FlightID body) (flights s))
    as [f |]; [| reflexivity].
  cbn [booking_step]. run_handler.
  destruct (Eager.Airplane (Orm.include_all s f)) as [a |]; [| reflexivity].
  destruct (_ >=? _); [reflexivity |].
  cbn [booking_step]. run_handler. unfold Orm.Reservation_create.
  destruct (created_reservation _ _ _) as [s' [record | e]]; reflexivity.
Qed.

Lemma step_nth_app (done : list BookingTask) t rest s :
  step_nth (List.length done) (done ++ t :: rest) s
  = (fst (booking_step t s), done ++ snd (booking_step t s) :: rest).
Proof.
  induction done as [| d done IH]; simpl.
  - destruct (booking_step t s); reflexivity.
  - rewrite IH. reflexivity.
Qed.

Lemma resume_app (done : list BookingTask) t rest s :
  resume (List.length done) (mkSystem s (done ++ t :: rest))
  = mkSystem (fst (booking_step t s))
      (done ++ snd (booking_step t s) :: rest).
Proof. unfold resume. simpl. rewrite step_nth_app. reflexivity. Qed.

(** Three turns in a row take a request that just came to its response,
    as the handler does. *)
Lemma resume_thrice (done : list BookingTask) now req rest s :
  let i := List.length done in
  resume i (resume i (resume i
    (mkSystem s (done ++ Received now req :: rest))))
  = mkSystem (fst (post_reservation_create now req s))
      (done ++ Responded (snd (post_reservation_create now req s)) :: rest).
Proof.
  intros i. subst i. rewrite !resume_app.
  pose proof (run_alone_handler now req s) as H. unfold run_alone in H.
  destruct (booking_step (Received now req) s) as [s1 t1]. simpl.
  destruct (booking_step t1 s1) as [s2 t2]. simpl.
  rewrite H. reflexivity.
Qed.

Lemma one_by_one_from_serves reqs : forall (done : list BookingTask) s,
  run_schedule (one_by_one_from (List.length done) (List.length reqs))
    (mkSystem s (done ++ spawn reqs))
  = mkSystem (fst (serve (bookings reqs) s))
      (done ++ map Responded (snd (serve (bookings reqs) s))).
Proof.
  induction reqs as [| [now req] reqs IH]; intros done s; [reflexivity |].
  cbn [List.length one_by_one_from spawn map fst snd bookings serve handle].
  fold (spawn reqs). fold (bookings reqs).
  unfold run_schedule. cbn [fold_left].
  rewrite (resume_thrice done now req (spawn reqs) s).
  fold (run_schedule
          (one_by_one_from (S (List.length done)) (List.length reqs))).
  destruct (post_reservation_create now req s) as [s1 res]. cbn [fst snd].
  replace (done ++ Responded res :: spawn reqs)
    with ((done ++ [Responded res]) ++ spawn reqs)
    by (rewrite <- app_assoc; reflexivity).
  replace (S (List.length done)) with (List.length (done ++ [Responded res]))
    by (rewrite length_app; simpl; lia).
  rewrite IH.
  destruct (serve (bookings reqs) s1) as [s2 out]. cbn [fst snd map].
  rewrite <- app_assoc. reflexivity.
Qed.

(** Without interleaving the event loop serves the requests in turn. *)
Lemma one_by_one_serves reqs s :
  run_schedule (one_by_one (List.length reqs)) (mkSystem s (spawn reqs))
  = mkSystem (fst (serve (bookings reqs) s))
      (map Responded (snd (serve (bookings reqs) s))).
Proof. apply (one_by_one_from_serves reqs [] s). Qed.

(* ===================================================================== *)
(** ** The capacity invariant *)
(* ===================================================================== *)

Lemma accepted_validated req :
  accepted req -> validated req (snd (reservationValidationConstraints req)).
Proof.
  unfold accepted, validated.
  destruct (reservationValidationConstraints req) as [errors body]. simpl.
  intros ->. reflexivity.
Qed.

Lemma post_reservation_create_full now req body s c :
  validated req body ->
  resolves s (ReservationBody.FlightID body) c ->
  Airplane.Capacity (ctx_airplane c)
  <= reservationsCount (ReservationBody.FlightID body) s ->
  post_reservation_create now req s = (s, FlightFull).
Proof.
  intros Hv (Hf & _ & _ & _ & Ha) Hge.
  rewrite (post_reservation_create_validated now _ _ Hv).
  apply (create_reservation_full now _ _ _ _ _ Hf Ha Hge).
Qed.

(** Requests for one flight served in turn: the first ones are confirmed
    until the flight is full, all later ones are refused. *)
Lemma serve_same_flight c FlightID reqs : forall s,
  resolves s FlightID c ->
  Forall (fun p => accepted (snd p) /\
                   ReservationBody.FlightID (snd p) = FlightID) reqs ->
  reservationsCount FlightID s <= Airplane.Capacity (ctx_airplane c) ->
  let k := Z.min (Z.of_nat (List.length reqs))
             (Airplane.Capacity (ctx_airplane c)
              - reservationsCount FlightID s) in
  exists confirmations,
    snd (serve (bookings reqs) s)
    = confirmations
      ++ repeat FlightFull (List.length reqs - List.length confirmations) /\
    Z.of_nat (List.length confirmations) = k /\
    Forall (fun res => status res = 200) confirmations /\
    reservationsCount FlightID (fst (serve (bookings reqs) s))
    = reservationsCount FlightID s + k.
Proof.
  induction reqs as [| [now req] reqs IH]; intros s Hres Hall Hcap k.
  - exists []. subst k. simpl. repeat split; [| constructor | ]; lia.
  - inversion Hall as [| ? ? Hhead Hall']; subst.
    destruct Hhead as [Hacc Hfid]. simpl in Hacc, Hfid.
    pose proof (accepted_validated _ Hacc) as Hv.
    set (body := snd (reservationValidationConstraints req)) in *.
    destruct (validated_inv _ _ Hv) as (_ & Hsame & _).
    rewrite Hfid in Hsame.
    cbn [bookings map serve handle fst snd]. fold (bookings reqs).
    destruct (Z.lt_ge_cases (reservationsCount FlightID s)
                (Airplane.Capacity (ctx_airplane c))) as [Hlt | Hge].
    + rewrite (post_reservation_create_resolved now req body s c Hv);
        [| rewrite Hsame; exact Hres | rewrite Hsame; exact Hlt].
      pose proof (count_booked now body s FlightID) as Hcount.
      rewrite Hsame, Z.eqb_refl in Hcount.
      destruct (IH (booked now body s)) as (conf & Hout & Hlen & H200 & Hn);
        [exact Hres | exact Hall' | lia |].
      destruct (serve (bookings reqs) (booked now body s)) as [s2 out].
      cbn [fst snd] in *.
      exists (created (confirmation_view c (new_reservation now body s))
              :: conf).
      subst k. cbn [List.length]. repeat split.
      * rewrite Hout. reflexivity.
      * lia.
      * constructor; [reflexivity | exact H200].
      * lia.
    + rewrite (post_reservation_create_full now req body s c Hv);
        [| rewrite Hsame; exact Hres | rewrite Hsame; exact Hge].
      destruct (IH s) as (conf & Hout & Hlen & H200 & Hn);
        [exact Hres | exact Hall' | lia |].
      destruct (serve (bookings reqs) s) as [s2 out]. cbn [fst snd] in *.
      assert (conf = []) as ->.
      { destruct conf; [reflexivity | simpl in Hlen; lia]. }
      exists []. subst k. cbn [List.length]. repeat split.
      * rewrite Hout. simpl. rewrite Nat.sub_0_r. reflexivity.
      * simpl. lia.
      * constructor.
      * lia.
Qed.

(** Whatever the request, a booking served alone keeps every flight
    within the capacity of its airplane. *)
Lemma booking_preserves_capacity s now req FlightID f a :
  Orm.find Flights.ID FlightID (flights s) = Some f ->
  Orm.find Airplane.ID (Flights.AirplaneID f) (airplanes s) = Some a ->
  within_capacity FlightID (Airplane.Capacity a) s ->
  within_capacity FlightID (Airplane.Capacity a)
    (fst (post_reservation_create now req s)).
Proof.
  unfold within_capacity. intros Hf Ha Hcap.
  destruct (reservationValidationConstraints req) as [errors body] eqn:Hc.
  destruct errors as [| e errors].
  2:{ destruct (post_reservation_create_refused now req s) as [-> _];
        [rewrite Hc; discriminate | exact Hcap]. }
  rewrite (post_reservation_create_validated now _ _ Hc).
  destruct body as [name id]. simpl.
  destruct (Orm.find Flights.ID id (flights s)) as [f0 |] eqn:Hf0.
  2:{ rewrite (create_reservation_no_flight now name _ _ Hf0). exact Hcap. }
  destruct (Orm.find Airplane.ID (Flights.AirplaneID f0) (airplanes s))
    as [a0 |] eqn:Ha0.
  2:{ rewrite (create_reservation_no_airplane now name _ _ _ Hf0 Ha0).
      exact Hcap. }
  destruct (Z.lt_ge_cases (reservationsCount id s) (Airplane.Capacity a0))
    as [Hlt | Hge].
  2:{ rewrite (create_reservation_full now name _ _ _ _ Hf0 Ha0 Hge).
      exact Hcap. }
  destruct (create_reservation_admitted now name _ _ _ _ Hf0 Ha0 Hlt)
    as (-> & _).
  rewrite count_booked. simpl.
  destruct (Z.eqb_spec id FlightID) as [-> | _]; [| lia].
  assert (f0 = f) by congruence. subst f0.
  assert (a0 = a) by congruence. subst a0. lia.
Qed.

(** C2, as the code has it.  Booking requests for one flight that the
    event loop runs one by one, each to its end before the next: the
    first min(N, capacity - existing) are confirmed with 200, every later
    one is refused with 409 'The flight is already full.', and the flight
    ends with existing + min(N, capacity - existing) reservations, within
    its capacity. *)
Theorem bookings_in_turn_fill_capacity s c FlightID reqs :
  resolves s FlightID c ->
  Forall (fun p => accepted (snd p) /\
                   ReservationBody.FlightID (snd p) = FlightID) reqs ->
  within_capacity FlightID (Airplane.Capacity (ctx_airplane c)) s ->
  let capacity := Airplane.Capacity (ctx_airplane c) in
  let existing := reservationsCount FlightID s in
  let N := List.length reqs in
  let k := Z.min (Z.of_nat N) (capacity - existing) in
  let sys := run_schedule (one_by_one N) (mkSystem s (spawn reqs)) in
  exists confirmations,
    tasks sys
    = map Responded
        (confirmations
         ++ repeat FlightFull (N - List.length confirmations)) /\
    Z.of_nat (List.length confirmations) = k /\
    Forall (fun res => status res = 200) confirmations /\
    reservationsCount FlightID (db sys) = existing + k /\
    within_capacity FlightID capacity (db sys).
Proof.
  intros Hres Hall Hcap capacity existing N k sys.
  destruct (serve_same_flight c FlightID reqs s Hres Hall Hcap)
    as (conf & Hout & Hlen & H200 & Hn).
  exists conf. subst sys N. rewrite one_by_one_serves. cbn [tasks db].
  rewrite Hout. repeat split; try assumption.
  unfold within_capacity in *. rewrite Hn. subst k capacity existing. lia.
Qed.

Lemma bookings_in_turn_fill_capacity_witness :
  let reqs := [(7, Demo.Ann); (8, Demo.Bob)] in
  let sys := run_schedule (one_by_one 2) (mkSystem Demo.store (spawn reqs)) in
  exists confirmations,
    tasks sys
    = map Responded
        (confirmations
         ++ repeat FlightFull (2 - List.length confirmations)) /\
    Z.of_nat (List.length confirmations) = Z.min 2 (1 - 0) /\
    Forall (fun res => status res = 200) confirmations /\
    reservationsCount 1 (db sys) = 0 + Z.min 2 (1 - 0) /\
    within_capacity 1 1 (db sys).
Proof.
  apply (bookings_in_turn_fill_capacity Demo.store Demo.ctx1 1
           [(7, Demo.Ann); (8, Demo.Bob)]).
  - repeat split.
  - repeat constructor.
  - unfold within_capacity. vm_compute. discriminate.
Defined.

(** C2, as stated, fails.  Flight 1 has one seat and no reservation.  Two
    requests for it are resumed in alternation: each reads the flight,
    each counts zero reservations, each writes its row.  Both are answered
    200 and the flight holds two reservations. *)
Lemma concurrent_bookings_overshoot :
  let reqs := [(7, Demo.Ann); (8, Demo.Bob)] in
  let sys :=
    run_schedule [0; 1; 0; 1; 0; 1]%nat (mkSystem Demo.store (spawn reqs)) in
  resolves Demo.store 1 Demo.ctx1 /\
  Airplane.Capacity (ctx_airplane Demo.ctx1) = 1 /\
  reservationsCount 1 Demo.store = 0 /\
  map response_status (tasks sys) = [Some 200; Some 200] /\
  reservationsCount 1 (db sys) = 2 /\
  ~ within_capacity 1 (Airplane.Capacity (ctx_airplane Demo.ctx1)) (db sys).
Proof.
  repeat split. unfold within_capacity. vm_compute. intros H. apply H.
  reflexivity.
Qed.

(* ===================================================================== *)
(** ** Airplanes seat at least one *)
(* ===================================================================== *)

Lemma airplane_validated_capacity req body :
  airplaneValidationConstraints req = ([], body) ->
  1 <= AirplaneBody.capacity body.
Proof.
  unfold airplaneValidationConstraints, check. 
  destruct (run_chain "body" "name" _ _) as [e1 name].
  destruct (run_chain "body" "model" _ _) as [e2 model].
  simpl.
  destruct (Z.leb_spec 1 (AirplaneBody.capacity req)) as [Hle | Hlt];
    intros H; inversion H as [[Herr Hbody]]; simpl; [exact Hle |].
  apply app_nil_inv in Herr. destruct Herr as [_ Herr].
  apply app_nil_inv in Herr. destruct Herr as [_ Herr]. discriminate.
Qed.

(** POST /airplane/create stores no airplane without a seat. *)
Lemma post_airplane_create_capacity now req s :
  capacities_positive s ->
  capacities_positive (fst (post_airplane_create now req s)).
Proof.
  unfold capacities_positive, post_airplane_create. intros Hs.
  destruct (airplaneValidationConstraints req) as [errors body] eqn:Hv.
  destruct errors as [| e errors]; [| exact Hs].
  cbn [isEmpty negb].
  unfold bind, Orm.Airplane_findOne_name, attempt, try_catch, respond, ret,
    Orm.Airplane_create.
  destruct (List.find _ (airplanes s)); [exact Hs |].
  simpl. apply Forall_app. split; [exact Hs |].
  constructor; [| constructor]. simpl.
  apply (airplane_validated_capacity _ _ Hv).
Qed.

Lemma delete_airplane_delete_capacity req s :
  capacities_positive s ->
  capacities_positive (fst (delete_airplane_delete req s)).
Proof.
  unfold capacities_positive, delete_airplane_delete. intros Hs.
  destruct (assoc "id" req) as [id |]; [| exact Hs].
  destruct ((id =? 0) || (id <=? 0)); [exact Hs |].
  unfold attempt, try_catch, bind, Orm.Airplane_findOne, Orm.Airplane_destroy,
    respond, ret.
  destruct (Orm.find Airplane.ID id (airplanes s)) as [airplane |];
    [| exact Hs].
  destruct (Orm.airplane_in_use (Airplane.ID airplane) s); [exact Hs |].
  simpl. unfold Orm.delete. rewrite Forall_forall in *.
  intros a Ha. apply filter_In in Ha. apply Hs. tauto.
Qed.



(* ===================================================================== *)
(** ** Flight creation *)
(* ===================================================================== *)

Section FlightCreation.

Variable toDate : JsVal -> Z.

Ltac run_flight :=
  cbv beta iota delta
    [post_flight_create bind ret respond attempt try_catch
     Orm.Itinerary_findOne Orm.Airplane_findOne Orm.Flights_create].

(** What POST /flight/create does with a body the validators let
    through: 409 for an itinerary that is not stored, then 409 for an
    airplane that is not stored, then 422 when [ArrivalTime <=
    DepartureTime] holds in JavaScript, and otherwise a new row and
    200. *)
Lemma post_flight_create_cases now req body s :
  flightValidationConstraints req = ([], body) ->
  let out := post_flight_create toDate now req s in
  (Orm.find Itinerary.ID (FlightBody.ItineraryID body) (itineraries s) = None ->
   out = (s, Normal (mkResponse 409 (error_body "Invalid itinerary ID.")))) /\
  (Orm.find Itinerary.ID (FlightBody.ItineraryID body) (itineraries s) <> None ->
   Orm.find Airplane.ID (FlightBody.AirplaneID body) (airplanes s) = None ->
   out = (s, Normal (mkResponse 409 (error_body "Invalid airplane ID.")))) /\
  (Orm.find Itinerary.ID (FlightBody.ItineraryID body) (itineraries s) <> None ->
   Orm.find Airplane.ID (FlightBody.AirplaneID body) (airplanes s) <> None ->
   Js.le (FlightBody.ArrivalTime body) (FlightBody.DepartureTime body) = true ->
   out = (s, Normal (mkResponse 422
                       (error_body "Arrival time must be after departure time.")))) /\
  (Orm.find Itinerary.ID (FlightBody.ItineraryID body) (itineraries s) <> None ->
   Orm.find Airplane.ID (FlightBody.AirplaneID body) (airplanes s) <> None ->
   Js.le (FlightBody.ArrivalTime body) (FlightBody.DepartureTime body) = false ->
   fst out = with_flight toDate now body s /\
   exists res, snd out = Normal res /\ status res = 200).
Proof.
  intros Hv out. subst out. run_flight. rewrite Hv. cbn [isEmpty negb].
  destruct (Orm.find Itinerary.ID _ (itineraries s)) as [i |];
    [destruct (Orm.find Airplane.ID _ (airplanes s)) as [a |];
       [destruct (Js.le _ _) |] |];
    (split; [| split; [| split]]); intros; try congruence.
  split; [reflexivity | eexists; split; reflexivity].
Qed.

(** Two numbers are compared as the integers they are. *)
Lemma le_numbers (a d : Z) : Js.le (JNum a) (JNum d) = (a <=? d).
Proof. reflexivity. Qed.

(** Two strings are compared as strings, whatever integers they
    denote. *)
Lemma le_strings (a d : string) : Js.le (JStr a) (JStr d) = String.leb a d.
Proof. reflexivity. Qed.

(** C7, where the code departs from it.  The body with DepartureTime "10"
    and ArrivalTime "9", both strings, passes the validators; its arrival
    is before its departure; itinerary 1 and airplane 1 are stored; the
    comparison of the handler is one of strings and does not hold, so the
    flight is written and the answer is 200. *)
Theorem flight_created_arriving_before_departing now :
  let req := FlightBody.mk 1 (JStr "10") (JStr "9") 1 in
  let out := post_flight_create toDate now req Demo.store in
  flightValidationConstraints req = ([], req) /\
  Js.ToNumber (FlightBody.ArrivalTime req) = Some 9 /\
  Js.ToNumber (FlightBody.DepartureTime req) = Some 10 /\
  flights (fst out)
  = flights Demo.store
    ++ [Flights.mk 4 1 (toDate (JStr "10")) (toDate (JStr "9")) 1 now now] /\
  exists res, snd out = Normal res /\ status res = 200.
Proof.
  repeat split. eexists. split; reflexivity.
Qed.

End FlightCreation.

(* ===================================================================== *)
(** ** Primary keys *)
(* ===================================================================== *)

Lemma unique_ids_insert {A : Type} (ID : A -> Z) (table : list A) row :
  unique_ids ID table ->
  ID row = insert_id ID table ->
  unique_ids ID (table ++ [row]).
Proof.
  unfold unique_ids. intros Hnd Hid. rewrite map_app. simpl.
  apply NoDup_app; [exact Hnd | repeat constructor; intros [] |].
  intros x Hx [<- | []]. apply next_rowid_fresh in Hx.
  unfold insert_id in Hid. lia.
Qed.

Lemma positive_ids_insert {A : Type} (ID : A -> Z) (table : list A) row :
  positive_ids ID table ->
  ID row = insert_id ID table ->
  positive_ids ID (table ++ [row]).
Proof.
  unfold positive_ids. intros Hpos Hid. apply Forall_app. split; [exact Hpos |].
  constructor; [| constructor]. rewrite Hid.
  apply insert_id_positive. exact Hpos.
Qed.

Lemma unique_ids_delete {A : Type} (ID : A -> Z) (id : Z) (table : list A) :
  unique_ids ID table -> unique_ids ID (Orm.delete ID id table).
Proof.
  unfold unique_ids, Orm.delete.
  induction table as [| row table IH]; simpl; intros Hnd; [constructor |].
  inversion Hnd as [| ? ? Hnotin Hnd']; subst.
  destruct (negb (ID row =? id)); simpl; [| auto].
  constructor; [| auto]. intros Hin. apply Hnotin.
  apply in_map_iff in Hin. destruct Hin as (r & <- & Hr).
  apply filter_In in Hr. apply in_map. tauto.
Qed.

Lemma positive_ids_delete {A : Type} (ID : A -> Z) (id : Z) (table : list A) :
  positive_ids ID table -> positive_ids ID (Orm.delete ID id table).
Proof.
  unfold positive_ids, Orm.delete. rewrite !Forall_forall.
  intros H row Hrow. apply filter_In in Hrow. apply H. tauto.
Qed.

(** A booking leaves the database as it was or adds its one row. *)
Lemma post_reservation_create_store now req s :
  fst (post_reservation_create now req s) = s \/
  exists body, validated req body /\
               fst (post_reservation_create now req s) = booked now body s.
Proof.
  destruct (reservationValidationConstraints req) as [errors body] eqn:Hc.
  destruct errors as [| e errors].
  2:{ left. apply post_reservation_create_refused. rewrite Hc. discriminate. }
  rewrite (post_reservation_create_validated now _ _ Hc).
  destruct body as [name id]. simpl.
  destruct (Orm.find Flights.ID id (flights s)) as [f |] eqn:Hf.
  2:{ left. rewrite (create_reservation_no_flight now name _ _ Hf).
      reflexivity. }
  destruct (Orm.find Airplane.ID (Flights.AirplaneID f) (airplanes s))
    as [a |] eqn:Ha.
  2:{ left. rewrite (create_reservation_no_airplane now name _ _ _ Hf Ha).
      reflexivity. }
  destruct (Z.lt_ge_cases (reservationsCount id s) (Airplane.Capacity a))
    as [Hlt | Hge].
  2:{ left. rewrite (create_reservation_full now name _ _ _ _ Hf Ha Hge).
      reflexivity. }
  right. exists (ReservationBody.mk name id). split; [exact Hc |].
  apply (create_reservation_admitted now name _ _ _ _ Hf Ha Hlt).
Qed.

(** The routes of the booking service keep the keys of the Reservation
    table unique and positive. *)
Lemma handle_keys r s :
  unique_ids Reservation.ID (reservations s) ->
  positive_ids Reservation.ID (reservations s) ->
  unique_ids Reservation.ID (reservations (fst (handle r s))) /\
  positive_ids Reservation.ID (reservations (fst (handle r s))).
Proof.
  intros Huniq Hpos. destruct r as [now req | req | ID]; cbn [handle].
  - destruct (post_reservation_create_store now req s)
      as [-> | (body & _ & ->)]; [auto |].
    unfold booked, with_reservations. cbn [reservations].
    split; [apply unique_ids_insert | apply positive_ids_insert];
      auto; reflexivity.
  - unfold delete_reservation_delete.
    destruct (assoc "ID" req) as [ID |]; [| auto].
    destruct (ID =? 0); [auto |].
    destruct (negb _); [auto |].
    run_handler.
    destruct (Orm.find Reservation.ID ID (reservations s)); [| auto].
    cbn [fst reservations].
    split; [apply unique_ids_delete | apply positive_ids_delete]; auto.
  - rewrite get_reservation_flight_reads. auto.
Qed.

(** The reservation routes do not touch the Airplane table. *)
Lemma handle_airplanes r s : airplanes (fst (handle r s)) = airplanes s.
Proof.
  destruct r as [now req | req | ID]; cbn [handle].
  - destruct (post_reservation_create_store now req s)
      as [-> | (body & _ & ->)]; reflexivity.
  - unfold delete_reservation_delete.
    destruct (assoc "ID" req) as [ID |]; [| reflexivity].
    destruct (ID =? 0); [reflexivity |].
    destruct (negb _); [reflexivity |].
    run_handler.
    destruct (Orm.find Reservation.ID ID (reservations s)); reflexivity.
  - rewrite get_reservation_flight_reads. reflexivity.
Qed.

(* ===================================================================== *)
(** ** Runs on the small database *)
(* ===================================================================== *)

Example trim_name : Validator.trim "  Ann " = "Ann".
Proof. reflexivity. Qed.

Example int_literals :
  map Validator.int_literal ["10"; "+5"; "-0"; "007"; ""; "1.5"; "9 "]
  = [Some 10; Some 5; Some 0; Some 7; None; None; None].
Proof. reflexivity. Qed.

Example short_name_refused :
  status (snd (post_reservation_create 7 (ReservationBody.mk "A" 1) Demo.store))
  = 422.
Proof. reflexivity. Qed.

(** The scenario of the specification: two seats, three passengers. *)
Example two_seats_three_passengers :
  let '(s, out) :=
    serve [ book 7 (ReservationBody.mk "Ann" 2);
            book 8 (ReservationBody.mk "Bob" 2);
            book 9 (ReservationBody.mk "Cid" 2);
            listReservationsForFlight 2 ] Demo.store in
  map status out = [200; 200; 409; 200] /\
  nth 2 out Ok = FlightFull /\
  map Reservation.PassengerName (reservations s) = ["Ann"; "Bob"] /\
  nth 3 out Ok
  = listed (map (reservation_view Demo.ctx2) (reservations s)).
Proof. vm_compute. repeat split. Qed.

(* ===================================================================== *)
(** ** Bookings on a flight with a missing association *)
(* ===================================================================== *)

Lemma incomplete_cases s f :
  Orm.find Itinerary.ID (Flights.ItineraryID f) (itineraries s) = None \/
  (exists i,
     Orm.find Itinerary.ID (Flights.ItineraryID f) (itineraries s) = Some i /\
     (Orm.find Airport.ID (Itinerary.OriginAirportID i) (airports s) = None \/
      Orm.find Airport.ID (Itinerary.DestinationAirportID i) (airports s)
      = None)) ->
  complete (Orm.include_all s f) = false.
Proof.
  unfold complete, Orm.include_all, Orm.include_airports. simpl.
  intros [-> | (i & -> & [Ho | Hd])]; simpl; [reflexivity | |].
  - rewrite Ho. destruct (Orm.find Airplane.ID _ _); reflexivity.
  - rewrite Hd.
    destruct (Orm.find Airplane.ID _ _); [| reflexivity].
    destruct (Orm.find Airport.ID (Itinerary.OriginAirportID i) (airports s));
      reflexivity.
Qed.

(** X1. A booking the validators let through, on a stored flight with a
    stored airplane and a seat left, but whose itinerary or one of whose
    airports is no longer stored: the reservation row is written and the
    answer is 500 'Failed to create reservation.'. *)
Theorem booking_written_and_answered_500 s now req body f a :
  validated req body ->
  Orm.find Flights.ID (ReservationBody.FlightID body) (flights s) = Some f ->
  Orm.find Airplane.ID (Flights.AirplaneID f) (airplanes s) = Some a ->
  reservationsCount (ReservationBody.FlightID body) s < Airplane.Capacity a ->
  (Orm.find Itinerary.ID (Flights.ItineraryID f) (itineraries s) = None \/
   (exists i,
      Orm.find Itinerary.ID (Flights.ItineraryID f) (itineraries s) = Some i /\
      (Orm.find Airport.ID (Itinerary.OriginAirportID i) (airports s) = None \/
       Orm.find Airport.ID (Itinerary.DestinationAirportID i) (airports s)
       = None))) ->
  post_reservation_create now req s
  = (booked now body s,
     mkResponse 500 (error_body "Failed to create reservation.")).
Proof.
  intros Hv Hf Ha Hlt Hmissing. apply incomplete_cases in Hmissing.
  rewrite (post_reservation_create_validated now _ _ Hv).
  destruct body as [name FlightID]. simpl in *.
  destruct (create_reservation_admitted now name _ _ _ _ Hf Ha Hlt)
    as (Hstore & Hinc & _).
  rewrite (surjective_pairing (create_reservation now name FlightID s)).
  rewrite Hstore, (Hinc Hmissing). reflexivity.
Qed.

Lemma booking_written_and_answered_500_witness :
  post_reservation_create 7 Lost.Eve Lost.store
  = (booked 7 Lost.Eve Lost.store,
     mkResponse 500 (error_body "Failed to create reservation.")).
Proof.
  apply (booking_written_and_answered_500 Lost.store 7 Lost.Eve Lost.Eve
           Lost.f4 Demo.twin); try reflexivity.
  left. reflexivity.
Defined.

(** X2. The list route on a stored flight with a missing association:
    200 with an empty array as long as the flight has no reservation, 500
    'Internal server error.' as soon as it has one. *)
Theorem list_with_missing_association s ID f :
  1 <= ID ->
  Orm.find Flights.ID ID (flights s) = Some f ->
  complete (Orm.include_all s f) = false ->
  (Orm.for_flight ID (reservations s) = [] ->
   get_reservation_flight ID s = (s, listed [])) /\
  (Orm.for_flight ID (reservations s) <> [] ->
   get_reservation_flight ID s
   = (s, mkResponse 500 (error_body "Internal server error."))).
Proof.
  intros Hle Hf Hc. rewrite (get_reservation_flight_found _ _ _ Hle Hf).
  destruct (Orm.for_flight ID (reservations s)) as [| r rows].
  - split; [reflexivity | congruence].
  - split; [discriminate |]. intros _.
    cbn [map_async]. unfold bind at 1.
    destruct (listed_reservation_incomplete r _ s Hc) as [e ->]. reflexivity.
Qed.

Lemma list_with_missing_association_witness :
  (Orm.for_flight 4 (reservations (booked 7 Lost.Eve Lost.store)) = [] ->
   get_reservation_flight 4 (booked 7 Lost.Eve Lost.store)
   = (booked 7 Lost.Eve Lost.store, listed [])) /\
  (Orm.for_flight 4 (reservations (booked 7 Lost.Eve Lost.store)) <> [] ->
   get_reservation_flight 4 (booked 7 Lost.Eve Lost.store)
   = (booked 7 Lost.Eve Lost.store,
      mkResponse 500 (error_body "Internal server error."))).
Proof.
  apply (list_with_missing_association (booked 7 Lost.Eve Lost.store) 4
           Lost.f4); [lia | reflexivity | reflexivity].
Defined.

(* ===================================================================== *)
(** ** Booking, then cancelling or listing *)
(* ===================================================================== *)

Lemma new_reservation_found now body s :
  Orm.find Reservation.ID (Reservation.ID (new_reservation now body s))
    (reservations (booked now body s))
  = Some (new_reservation now body s).
Proof.
  unfold booked, with_reservations. cbn [reservations].
  rewrite find_after.
  - unfold Orm.find. simpl. rewrite Z.eqb_refl. reflexivity.
  - intros r Hr. pose proof (insert_id_fresh Reservation.ID _ r Hr).
    unfold new_reservation. simpl. lia.
Qed.

Lemma cancel_new_reservation now body s :
  positive_ids Reservation.ID (reservations s) ->
  delete_reservation_delete
    [("ID", Reservation.ID (new_reservation now body s))] (booked now body s)
  = (s, Ok).
Proof.
  intros Hpos.
  assert (Hid : Reservation.ID (new_reservation now body s) <> 0).
  { pose proof (insert_id_positive Reservation.ID _ Hpos).
    unfold new_reservation. simpl. lia. }
  rewrite (cancel_found _ _ _ Hid (new_reservation_found now body s)).
  f_equal. unfold booked, with_reservations. cbn [reservations].
  rewrite delete_last.
  - destruct s; reflexivity.
  - intros r Hr. pose proof (insert_id_fresh Reservation.ID _ r Hr).
    unfold new_reservation. simpl. lia.
Qed.

(** X3. Booking then cancelling the row that was written gives the
    database back as it was, row ids included: the next booking gets the
    id of the cancelled one.  This holds for every booking that writes its
    row, in a table of positive row ids. *)
Theorem booking_undone_by_cancel s now req body f a :
  validated req body ->
  Orm.find Flights.ID (ReservationBody.FlightID body) (flights s) = Some f ->
  Orm.find Airplane.ID (Flights.AirplaneID f) (airplanes s) = Some a ->
  reservationsCount (ReservationBody.FlightID body) s < Airplane.Capacity a ->
  positive_ids Reservation.ID (reservations s) ->
  let id := Reservation.ID (new_reservation now body s) in
  fst (serve [ book now req; cancel [("ID", id)] ] s) = s /\
  nth 1 (snd (serve [ book now req; cancel [("ID", id)] ] s)) NotFound = Ok /\
  forall now' body',
    Reservation.ID
      (new_reservation now' body'
         (fst (serve [ book now req; cancel [("ID", id)] ] s))) = id.
Proof.
  intros Hv Hf Ha Hlt Hpos id.
  assert (Hbook : fst (post_reservation_create now req s) = booked now body s).
  { rewrite (post_reservation_create_validated now _ _ Hv).
    destruct body as [name FlightID]. simpl in *.
    apply (create_reservation_admitted now name _ _ _ _ Hf Ha Hlt). }
  cbn [serve handle].
  destruct (post_reservation_create now req s) as [s1 res] eqn:Hrun.
  simpl in Hbook. subst s1. subst id.
  rewrite (cancel_new_reservation now body s Hpos). cbn [fst snd nth].
  repeat split. 
Qed.

Lemma booking_undone_by_cancel_witness :
  fst (serve [ book 7 Demo.Ann; cancel [("ID", 1)] ] Demo.store) = Demo.store /\
  nth 1 (snd (serve [ book 7 Demo.Ann; cancel [("ID", 1)] ] Demo.store))
    NotFound = Ok /\
  forall now' body',
    Reservation.ID
      (new_reservation now' body'
         (fst (serve [ book 7 Demo.Ann; cancel [("ID", 1)] ] Demo.store))) = 1.
Proof.
  apply (booking_undone_by_cancel Demo.store 7 Demo.Ann Demo.Ann Demo.f1
           Demo.single); try reflexivity.
  constructor.
Defined.

(** X4. A confirmed booking followed by the list of its flight: the list
    is the one before the booking with one more item at its end, the row
    the booking wrote.  The item carries the row id, which the
    confirmation of the booking does not: the confirmation has [null]
    there, and the same members as the item everywhere else. *)
Theorem booking_listed_last s now req body c :
  validated req body ->
  resolves s (ReservationBody.FlightID body) c ->
  reservationsCount (ReservationBody.FlightID body) s
  < Airplane.Capacity (ctx_airplane c) ->
  let FlightID := ReservationBody.FlightID body in
  let row := new_reservation now body s in
  snd (get_reservation_flight FlightID s)
  = listed (map (reservation_view c) (Orm.for_flight FlightID (reservations s)))
  /\
  serve [ book now req; listReservationsForFlight FlightID ] s
  = (booked now body s,
     [ created (confirmation_view c row);
       listed (map (reservation_view c)
                 (Orm.for_flight FlightID (reservations s))
               ++ [reservation_view c row]) ]) /\
  member "ID" (reservation_view c row)
  = Some (jint (insert_id Reservation.ID (reservations s))) /\
  member "ID" (confirmation_view c row) = Some jnull /\
  (forall k, k <> "ID" ->
     member k (confirmation_view c row) = member k (reservation_view c row)).
Proof.
  intros Hv Hres Hlt FlightID row.
  destruct (validated_inv _ _ Hv) as (Hle & _ & _). fold FlightID in Hle.
  pose proof Hres as (Hf & _).
  split; [| split; [| split; [| split]]].
  - rewrite (get_reservation_flight_resolved _ _ _ Hle Hres). reflexivity.
  - cbn [serve handle].
    rewrite (post_reservation_create_resolved now req body s c Hv Hres Hlt).
    rewrite (get_reservation_flight_found FlightID (booked now body s)
               (ctx_flight c) Hle Hf).
    change (Orm.include_all (booked now body s) (ctx_flight c))
      with (Orm.include_all s (ctx_flight c)).
    rewrite (map_async_resolved _ _ _ _ (booked now body s) Hres).
    unfold booked at 2, with_reservations. cbn [reservations].
    rewrite for_flight_app, map_app.
    unfold Orm.for_flight at 2. cbn [filter new_reservation Reservation.FlightID].
    fold FlightID. rewrite Z.eqb_refl. reflexivity.
  - reflexivity.
  - reflexivity.
  - intros k Hk. unfold member, confirmation_view, reservation_view.
    cbn [assoc]. destruct (String.eqb_spec k "ID"); [contradiction |].
    reflexivity.
Qed.

Lemma booking_listed_last_witness :
  serve [ book 9 Demo.Cy; listReservationsForFlight 2 ] Demo.half_full
  = (booked 9 Demo.Cy Demo.half_full,
     [ created (confirmation_view Demo.ctx2 (Reservation.mk 2 "Cy" 2 9 9));
       listed [ reservation_view Demo.ctx2 (Reservation.mk 1 "Ann" 2 7 7);
                reservation_view Demo.ctx2 (Reservation.mk 2 "Cy" 2 9 9) ] ]).
Proof.
  destruct (booking_listed_last Demo.half_full 9 Demo.Cy Demo.Cy Demo.ctx2)
    as (_ & Hserve & _);
    [reflexivity | repeat split | reflexivity | exact Hserve].
Defined.

(* ===================================================================== *)
(** ** What the booking service keeps *)
(* ===================================================================== *)

Lemma validated_name req body :
  validated req body -> valid_name (ReservationBody.PassengerName body).
Proof.
  unfold validated, reservationValidationConstraints, check, valid_name.
  simpl.
  destruct (negb (Validator.isEmpty (ReservationBody.PassengerName req)));
    destruct (Validator.isAlphanumeric
                (Validator.trim (ReservationBody.PassengerName req))) eqn:Ha;
    destruct (Validator.isLength_min 2
                (Validator.trim (ReservationBody.PassengerName req))) eqn:Hl;
    simpl; intros H; inversion H; subst; simpl.
  split; [exact Ha |]. unfold Validator.isLength_min in Hl.
  apply Nat.leb_le. exact Hl.
Qed.

(** A cancel leaves the database as it was or deletes by one ID. *)
Lemma cancel_store req s :
  fst (delete_reservation_delete req s) = s \/
  exists ID,
    status (snd (delete_reservation_delete req s)) = 200 /\
    fst (delete_reservation_delete req s)
    = with_reservations (Orm.delete Reservation.ID ID (reservations s)) s.
Proof.
  unfold delete_reservation_delete.
  destruct (assoc "ID" req) as [ID |]; [| left; reflexivity].
  destruct (ID =? 0); [left; reflexivity |].
  destruct (negb _); [left; reflexivity |].
  run_handler.
  destruct (Orm.find Reservation.ID ID (reservations s)) as [r |] eqn:Hf;
    [| left; reflexivity].
  right. exists ID. destruct (find_stored _ _ _ _ Hf) as [_ ->].
  split; reflexivity.
Qed.

(** The three routes keep the stored passenger names made of letters and
    digits, two or more. *)
Lemma handle_names r s :
  names_valid s -> names_valid (fst (handle r s)).
Proof.
  unfold names_valid. intros Hs. destruct r as [now req | req | ID];
    cbn [handle].
  - destruct (post_reservation_create_store now req s)
      as [-> | (body & Hv & ->)]; [exact Hs |].
    unfold booked, with_reservations. cbn [reservations].
    apply Forall_app. split; [exact Hs |].
    constructor; [| constructor]. apply (validated_name _ _ Hv).
  - destruct (cancel_store req s) as [-> | (ID & _ & ->)]; [exact Hs |].
    unfold with_reservations, Orm.delete. cbn [reservations].
    rewrite Forall_forall in *. intros r Hr. apply filter_In in Hr.
    apply Hs. tauto.
  - rewrite get_reservation_flight_reads. exact Hs.
Qed.

(* ===================================================================== *)
(** ** Any interleaving *)
(* ===================================================================== *)

Lemma created_reservation_store r ef s :
  fst (created_reservation r ef s) = s.
Proof.
  unfold created_reservation, bind, deref, ret, throw.
  destruct ef as [f [[i [o |] [d |]] |] [a |]]; reflexivity.
Qed.

(** A step of a task leaves the database as it was or appends one
    reservation with the next row id. *)
Lemma booking_step_store t s :
  fst (booking_step t s) = s \/
  exists row,
    Reservation.ID row = insert_id Reservation.ID (reservations s) /\
    fst (booking_step t s)
    = with_reservations (reservations s ++ [row]) s.
Proof.
  destruct t as [now req | now body ef | now body ef | res]; cbn [booking_step].
  - destruct (reservationValidationConstraints req) as [errors body].
    destruct (negb (isEmpty errors)); [left; reflexivity |].
    unfold Orm.Flights_findOne_include.
    destruct (option_map _ _); left; reflexivity.
  - unfold bind, Orm.Reservation_count, deref, ret, throw.
    destruct (Eager.Airplane ef); [| left; reflexivity].
    destruct (_ >=? _); left; reflexivity.
  - right.
    exists (new_reservation now body s). split; [reflexivity |].
    unfold try_catch, bind, Orm.Reservation_create, respond, ret.
    fold (new_reservation now body s).
    pose proof (created_reservation_store
                  (Built.mk (new_reservation now body s)) ef
                  (with_reservations
                     (reservations s ++ [new_reservation now body s]) s))
      as Hc.
    unfold with_reservations in *.
    destruct (created_reservation _ _ _) as [s' [j | e]];
      simpl in *; subst; reflexivity.
  - left. reflexivity.
Qed.

Lemma step_nth_store i : forall ts s,
  fst (step_nth i ts s) = s \/
  exists row,
    Reservation.ID row = insert_id Reservation.ID (reservations s) /\
    fst (step_nth i ts s) = with_reservations (reservations s ++ [row]) s.
Proof.
  induction i as [| i IH]; intros [| t ts] s; simpl; auto.
  - pose proof (booking_step_store t s) as H.
    destruct (booking_step t s) as [s' t']. exact H.
  - pose proof (IH ts s) as H.
    destruct (step_nth i ts s) as [s' ts']. exact H.
Qed.

(** X5. Whatever the schedule, the reservation ids stay unique and
    positive: two requests in flight never get the same id, because the
    row is written in one step. *)
Theorem run_schedule_keys schedule : forall sys,
  unique_ids Reservation.ID (reservations (db sys)) ->
  positive_ids Reservation.ID (reservations (db sys)) ->
  unique_ids Reservation.ID (reservations (db (run_schedule schedule sys))) /\
  positive_ids Reservation.ID (reservations (db (run_schedule schedule sys))).
Proof.
  unfold run_schedule.
  induction schedule as [| i schedule IH]; intros sys Hu Hp; [auto |].
  cbn [fold_left]. apply IH.
  - unfold resume. pose proof (step_nth_store i (tasks sys) (db sys)) as H.
    destruct (step_nth i (tasks sys) (db sys)) as [s' ts']. simpl in *.
    destruct H as [-> | (row & Hid & ->)]; [exact Hu |].
    apply unique_ids_insert; assumption.
  - unfold resume. pose proof (step_nth_store i (tasks sys) (db sys)) as H.
    destruct (step_nth i (tasks sys) (db sys)) as [s' ts']. simpl in *.
    destruct H as [-> | (row & Hid & ->)]; [exact Hp |].
    apply positive_ids_insert; assumption.
Qed.

Lemma run_schedule_keys_witness :
  let sys :=
    run_schedule [0; 1; 0; 1; 0; 1]%nat
      (mkSystem Demo.store (spawn [(7, Demo.Ann); (8, Demo.Bob)])) in
  unique_ids Reservation.ID (reservations (db sys)) /\
  positive_ids Reservation.ID (reservations (db sys)).
Proof.
  apply (run_schedule_keys [0; 1; 0; 1; 0; 1]%nat
           (mkSystem Demo.store (spawn [(7, Demo.Ann); (8, Demo.Bob)])));
    constructor.
Defined.

Lemma booking_step_turns t s :
  (turns_left (snd (booking_step t s)) <= turns_left t - 1)%nat.
Proof.
  destruct t as [now req | now body ef | now body ef | res]; cbn [booking_step].
  - destruct (reservationValidationConstraints req) as [errors body].
    destruct (negb (isEmpty errors)); [simpl; lia |].
    destruct (Orm.Flights_findOne_include _ s) as [s' [[ef |] | e]];
      simpl; lia.
  - destruct (bind _ _ s) as [s' [[|] | e]]; simpl; lia.
  - destruct (try_catch _ _ s) as [s' res]. simpl. lia.
  - simpl. lia.
Qed.

Lemma step_nth_turns i : forall ts s j,
  (turns_at (snd (step_nth i ts s)) j
   <= turns_at ts j - (if Nat.eqb j i then 1 else 0))%nat.
Proof.
  unfold turns_at.
  induction i as [| i IH]; intros [| t ts] s j; simpl.
  - destruct j; simpl; lia.
  - pose proof (booking_step_turns t s) as H.
    destruct (booking_step t s) as [s' t']. simpl in *.
    destruct j as [| j]; simpl; [exact H |].
    destruct (nth_error ts j); lia.
  - destruct j; simpl; lia.
  - specialize (IH ts s). destruct (step_nth i ts s) as [s' ts']. simpl in *.
    destruct j as [| j]; simpl; [lia |]. apply IH.
Qed.

Lemma step_nth_length i : forall ts s,
  List.length (snd (step_nth i ts s)) = List.length ts.
Proof.
  induction i as [| i IH]; intros [| t ts] s; simpl; try reflexivity.
  - destruct (booking_step t s). reflexivity.
  - specialize (IH ts s). destruct (step_nth i ts s). simpl in *.
    f_equal. exact IH.
Qed.

Lemma run_schedule_turns schedule : forall sys j,
  List.length (tasks (run_schedule schedule sys)) = List.length (tasks sys) /\
  (turns_at (tasks (run_schedule schedule sys)) j
   <= turns_at (tasks sys) j - count_occ Nat.eq_dec schedule j)%nat.
Proof.
  unfold run_schedule.
  induction schedule as [| i schedule IH]; intros sys j; cbn [fold_left].
  - simpl. split; [reflexivity | lia].
  - destruct (IH (resume i sys) j) as [Hlen Hturns].
    pose proof (step_nth_turns i (tasks sys) (db sys) j) as Hstep.
    pose proof (step_nth_length i (tasks sys) (db sys)) as Hl.
    unfold resume in *.
    destruct (step_nth i (tasks sys) (db sys)) as [s' ts']. simpl in *.
    split; [congruence |].
    destruct (Nat.eq_dec i j) as [-> | Hne].
    + rewrite Nat.eqb_refl in Hstep. lia.
    + destruct (Nat.eqb_spec j i); [congruence | lia].
Qed.

(** X6. Whatever else runs in between, a booking request the event loop
    has resumed three times has its response. *)
Theorem answered_after_three_turns schedule sys i :
  (i < List.length (tasks sys))%nat ->
  (3 <= count_occ Nat.eq_dec schedule i)%nat ->
  exists res,
    nth_error (tasks (run_schedule schedule sys)) i = Some (Responded res).
Proof.
  intros Hi Hcount.
  destruct (run_schedule_turns schedule sys i) as [Hlen Hturns].
  assert (Hinit : (turns_at (tasks sys) i <= 3)%nat).
  { unfold turns_at. destruct (nth_error (tasks sys) i) as [[| | |] |];
      simpl; lia. }
  unfold turns_at in Hturns at 1.
  destruct (nth_error (tasks (run_schedule schedule sys)) i) as [t |] eqn:Hn.
  - destruct t as [| | | res]; simpl in Hturns; try lia. eauto.
  - apply nth_error_None in Hn. lia.
Qed.

Lemma answered_after_three_turns_witness :
  exists res,
    nth_error
      (tasks (run_schedule [0; 1; 0; 1; 0; 1]%nat
                (mkSystem Demo.store (spawn [(7, Demo.Ann); (8, Demo.Bob)]))))
      1
    = Some (Responded res).
Proof.
  apply (answered_after_three_turns [0; 1; 0; 1; 0; 1]%nat
           (mkSystem Demo.store (spawn [(7, Demo.Ann); (8, Demo.Bob)])) 1%nat);
    simpl; lia.
Defined.

(* ===================================================================== *)
(** ** Airplanes *)
(* ===================================================================== *)


Lemma distinct_column_after_destroy {Row Col : Type} (column : Row -> Col)
  (kept : Row -> bool) (table : list Row) (Hdistinct : NoDup (map column table)) :
  NoDup (map column (filter kept table)).
Proof.
  induction table as [| row table IH]; simpl in *; [constructor |].
  apply NoDup_cons_iff in Hdistinct. destruct Hdistinct as [Hfresh Hrest].
  destruct (kept row); simpl; [| auto].
  apply NoDup_cons; [| auto].
  rewrite in_map_iff. intros (other & Hsame & Hother).
  apply Hfresh. rewrite <- Hsame. apply in_map.
  apply filter_In in Hother. tauto.
Qed.

Lemma find_new_row {A : Type} (ID : A -> Z) (table : list A) row :
  ID row = insert_id ID table ->
  Orm.find ID (ID row) (table ++ [row]) = Some row.
Proof.
  intros Hid. rewrite find_after.
  - unfold Orm.find. simpl. rewrite Z.eqb_refl. reflexivity.
  - intros r Hr. pose proof (insert_id_fresh ID table r Hr). lia.
Qed.

(** What the validators of an airplane let through. *)
Lemma airplane_validated req body :
  airplaneValidationConstraints req = ([], body) ->
  body = AirplaneBody.mk (Validator.trim (AirplaneBody.name req))
           (Validator.trim (AirplaneBody.model req))
           (AirplaneBody.capacity req) /\
  Validator.isAlphanumeric (AirplaneBody.name body) = true /\
  Validator.isAlphanumeric (AirplaneBody.model body) = true /\
  1 <= AirplaneBody.capacity body.
Proof.
  unfold airplaneValidationConstraints, check. simpl.
  destruct (negb (Validator.isEmpty (AirplaneBody.name req)));
    destruct (negb (Validator.isEmpty (AirplaneBody.model req)));
    destruct (Validator.isAlphanumeric (Validator.trim (AirplaneBody.name req)))
      eqn:Hn;
    destruct (Validator.isAlphanumeric (Validator.trim (AirplaneBody.model req)))
      eqn:Hm;
    destruct (Z.leb_spec 1 (AirplaneBody.capacity req)) as [Hle | Hlt];
    simpl; intros Heq; inversion Heq; subst; simpl; auto.
Qed.

Lemma post_airplane_create_run now req body s :
  airplaneValidationConstraints req = ([], body) ->
  post_airplane_create now req s
  = match List.find (fun a => String.eqb (Airplane.Name a)
                                (AirplaneBody.name body)) (airplanes s) with
    | Some _ =>
        (s, Normal (mkResponse 409
                      (error_body "Airplane name already exists.")))
    | None =>
        let row := Airplane.mk (insert_id Airplane.ID (airplanes s))
                     (AirplaneBody.name body) (AirplaneBody.model body)
                     (AirplaneBody.capacity body) now now in
        (mkStore (airports s) (itineraries s) (airplanes s ++ [row])
           (flights s) (reservations s),
         Normal (mkResponse 200
                   (jobject
                      [ ("message", jstring "Airplane created successfully");
                        ("airplane", jobject
                          [ ("id", jnull);
                            ("name", jstring (Airplane.Name row));
                            ("model", jstring (Airplane.Model row));
                            ("capacity", jint (Airplane.Capacity row));
                            ("updatedAt", jdate (Airplane.updatedAt row));
                            ("createdAt", jdate (Airplane.createdAt row)) ])
                      ])))
    end.
Proof.
  intros Hv. unfold post_airplane_create. rewrite Hv. cbn [isEmpty negb].
  unfold bind, Orm.Airplane_findOne_name, attempt, try_catch, respond, ret,
    Orm.Airplane_create.
  destruct (List.find _ (airplanes s)); reflexivity.
Qed.



Lemma post_airplane_create_store now req s :
  fst (post_airplane_create now req s) = s \/
  exists body,
    airplaneValidationConstraints req = ([], body) /\
    List.find (fun a => String.eqb (Airplane.Name a) (AirplaneBody.name body))
      (airplanes s) = None /\
    fst (post_airplane_create now req s)
    = mkStore (airports s) (itineraries s)
        (airplanes s
         ++ [Airplane.mk (insert_id Airplane.ID (airplanes s))
               (AirplaneBody.name body) (AirplaneBody.model body)
               (AirplaneBody.capacity body) now now])
        (flights s) (reservations s).
Proof.
  destruct (airplaneValidationConstraints req) as [errors body] eqn:Hv.
  destruct errors as [| e errors].
  - rewrite (post_airplane_create_run now req body s Hv).
    destruct (List.find _ (airplanes s)) eqn:Hfind; [left; reflexivity |].
    right. exists body. auto.
  - left. unfold post_airplane_create. rewrite Hv. reflexivity.
Qed.

Lemma delete_airplane_delete_store req s :
  (fst (delete_airplane_delete req s) = s /\
   exists res, snd (delete_airplane_delete req s) = Normal res
               /\ status res <> 200) \/
  exists id a,
    assoc "id" req = Some id /\ 1 <= id /\
    Orm.find Airplane.ID id (airplanes s) = Some a /\
    Orm.airplane_in_use id s = false /\
    (exists res, snd (delete_airplane_delete req s) = Normal res
                 /\ status res = 200) /\
    fst (delete_airplane_delete req s)
    = mkStore (airports s) (itineraries s)
        (Orm.delete Airplane.ID id (airplanes s)) (flights s)
        (reservations s).
Proof.
  unfold delete_airplane_delete.
  destruct (assoc "id" req) as [id |].
  2:{ left. split; [reflexivity | eexists; split; [reflexivity | discriminate]]. }
  destruct (Z.eqb_spec id 0) as [| Hnz]; simpl.
  { left. split; [reflexivity | eexists; split; [reflexivity | discriminate]]. }
  destruct (Z.leb_spec id 0) as [| Hpos].
  { left. split; [reflexivity | eexists; split; [reflexivity | discriminate]]. }
  unfold attempt, try_catch, bind, Orm.Airplane_findOne, Orm.Airplane_destroy,
    respond, ret.
  destruct (Orm.find Airplane.ID id (airplanes s)) as [a |] eqn:Hfind.
  - destruct (find_stored _ _ _ _ Hfind) as [_ Hid]. rewrite Hid.
    destruct (Orm.airplane_in_use id s) eqn:Huse.
    + left.
      split; [reflexivity | eexists; split; [reflexivity | discriminate]].
    + right. exists id, a.
      split; [reflexivity |]. split; [lia |]. split; [exact Hfind |].
      split; [exact Huse |].
      split; [eexists; split; reflexivity | reflexivity].
  - left. split; [reflexivity | eexists; split; [reflexivity | discriminate]].
Qed.

(** X8. The airplane routes keep the Airplane table in order: names are
    unique, row ids are unique and positive, and every airplane has a
    capacity of at least 1 - after a create and after a delete, whatever
    the request. *)
Theorem airplane_routes_keep_table now create_req delete_req s :
  airplanes_wf s ->
  airplanes_wf (fst (post_airplane_create now create_req s)) /\
  airplanes_wf (fst (delete_airplane_delete delete_req s)).
Proof.
  unfold airplanes_wf, capacities_positive.
  intros (Hnames & Huniq & Hpos & Hcap). split.
  - destruct (post_airplane_create_store now create_req s)
      as [-> | (body & Hv & Hfree & ->)]; [auto |].
    cbn [airplanes]. destruct (airplane_validated _ _ Hv) as (_ & _ & _ & Hle).
    split; [| split; [| split]].
    + rewrite map_app. simpl.
      apply NoDup_app; [exact Hnames | repeat constructor; intros [] |].
      intros name Hin [<- | []].
      apply in_map_iff in Hin. destruct Hin as (a & Heq & Ha).
      apply (List.find_none _ _ Hfree) in Ha.
      apply String.eqb_neq in Ha. contradiction.
    + apply unique_ids_insert; [exact Huniq | reflexivity].
    + apply positive_ids_insert; [exact Hpos | reflexivity].
    + apply Forall_app. split; [exact Hcap |].
      constructor; [exact Hle | constructor].
  - destruct (delete_airplane_delete_store delete_req s)
      as [[-> _] | (id & a & _ & _ & _ & _ & _ & ->)]; [auto |].
    cbn [airplanes]. split; [| split; [| split]].
    + apply distinct_column_after_destroy. exact Hnames.
    + apply unique_ids_delete. exact Huniq.
    + apply positive_ids_delete. exact Hpos.
    + unfold Orm.delete. rewrite Forall_forall in *.
      intros x Hx. apply filter_In in Hx. apply Hcap. tauto.
Qed.

Lemma airplane_routes_keep_table_witness :
  airplanes_wf
    (fst (post_airplane_create 9 (AirplaneBody.mk "Trio" "PA28" 3) Demo.store))
  /\
  airplanes_wf (fst (delete_airplane_delete [("id", 1)] Demo.store)).
Proof.
  apply (airplane_routes_keep_table 9 (AirplaneBody.mk "Trio" "PA28" 3)
           [("id", 1)] Demo.store).
  unfold airplanes_wf, unique_ids, positive_ids, capacities_positive. simpl.
  repeat split; repeat constructor; simpl; try lia;
    intros H; repeat destruct H as [H | H]; try discriminate; auto.
Defined.

Lemma find_deleted {A : Type} (ID : A -> Z) (id : Z) (table : list A) :
  Orm.find ID id (Orm.delete ID id table) = None.
Proof. apply find_absent. intros row. apply delete_gone. Qed.

Lemma find_delete_other {A : Type} (ID : A -> Z) (id id' : Z)
  (table : list A) :
  id <> id' ->
  Orm.find ID id (Orm.delete ID id' table) = Orm.find ID id table.
Proof.
  intros Hne. unfold Orm.find, Orm.delete.
  induction table as [| row table IH]; [reflexivity |]. simpl.
  destruct (Z.eqb_spec (ID row) id') as [Hgone | Hstay]; simpl.
  - destruct (Z.eqb_spec (ID row) id) as [Heq | _]; [congruence | exact IH].
  - destruct (Z.eqb_spec (ID row) id); [reflexivity | exact IH].
Qed.

Lemma airplane_in_use_iff id s :
  Orm.airplane_in_use id s = true
  <-> exists f, In f (flights s) /\ Flights.AirplaneID f = id.
Proof.
  unfold Orm.airplane_in_use. rewrite existsb_exists.
  split; intros (f & Hin & Heq); exists f; split; auto;
    apply Z.eqb_eq; exact Heq.
Qed.

(** What DELETE /airplane/delete does with the id of a stored airplane. *)
Lemma delete_airplane_delete_run id a s :
  1 <= id ->
  Orm.find Airplane.ID id (airplanes s) = Some a ->
  delete_airplane_delete [("id", id)] s
  = if Orm.airplane_in_use id s then
      (s, Normal (mkResponse 500 (error_body "Server error")))
    else
      (mkStore (airports s) (itineraries s)
         (Orm.delete Airplane.ID id (airplanes s)) (flights s)
         (reservations s),
       Normal (mkResponse 200
                 (message_body
                    ("Airplane " ++ show id ++ " deleted successfully")))).
Proof.
  intros Hle Hfind. unfold delete_airplane_delete. cbn [assoc].
  rewrite String.eqb_refl.
  destruct (Z.eqb_spec id 0); [lia |].
  destruct (Z.leb_spec id 0); [lia |]. cbn [orb].
  unfold attempt, try_catch, bind, Orm.Airplane_findOne, Orm.Airplane_destroy,
    respond, ret.
  rewrite Hfind. destruct (find_stored _ _ _ _ Hfind) as [_ ->].
  destruct (Orm.airplane_in_use id s); reflexivity.
Qed.

(** X9. An airplane that a flight names is not deleted.  The database
    refuses the DELETE over the foreign key of the flight, the handler
    lands in its catch and answers 500 'Server error', and the database
    is as before.  An airplane that no flight names is deleted with 200
    and only the Airplane table changes.  Hence the route never takes
    the airplane of a stored flight away, whatever the request. *)
Theorem airplane_in_use_not_deleted s id a :
  1 <= id ->
  Orm.find Airplane.ID id (airplanes s) = Some a ->
  let out := delete_airplane_delete [("id", id)] s in
  ((exists f, In f (flights s) /\ Flights.AirplaneID f = id) ->
   out = (s, Normal (mkResponse 500 (error_body "Server error")))) /\
  ((forall f, In f (flights s) -> Flights.AirplaneID f <> id) ->
   out
   = (mkStore (airports s) (itineraries s)
        (Orm.delete Airplane.ID id (airplanes s)) (flights s)
        (reservations s),
      Normal (mkResponse 200
                (message_body
                   ("Airplane " ++ show id ++ " deleted successfully")))) /\
   Orm.find Airplane.ID id (airplanes (fst out)) = None) /\
  (forall req f plane,
     In f (flights s) ->
     Orm.find Airplane.ID (Flights.AirplaneID f) (airplanes s) = Some plane ->
     flights (fst (delete_airplane_delete req s)) = flights s /\
     Orm.find Airplane.ID (Flights.AirplaneID f)
       (airplanes (fst (delete_airplane_delete req s))) = Some plane).
Proof.
  intros Hle Hfind out. subst out.
  rewrite (delete_airplane_delete_run id a s Hle Hfind).
  split; [| split].
  - intros Hused. apply airplane_in_use_iff in Hused. rewrite Hused.
    reflexivity.
  - intros Hfree.
    destruct (Orm.airplane_in_use id s) eqn:Huse.
    { apply airplane_in_use_iff in Huse. destruct Huse as (f & Hin & Heq).
      elim (Hfree f Hin Heq). }
    split; [reflexivity |]. cbn [fst airplanes].
    apply find_absent. intros row. apply delete_gone.
  - intros req f plane Hin Hplane.
    destruct (delete_airplane_delete_store req s)
      as [[-> _] | (id' & a' & _ & _ & _ & Hfree & _ & ->)]; [auto |].
    cbn [flights airplanes]. split; [reflexivity |].
    rewrite find_delete_other; [exact Hplane |].
    intros Heq.
    assert (Hused : Orm.airplane_in_use id' s = true).
    { apply airplane_in_use_iff. exists f. auto. }
    congruence.
Qed.

Lemma airplane_in_use_not_deleted_witness :
  delete_airplane_delete [("id", 1)] Demo.store
  = (Demo.store, Normal (mkResponse 500 (error_body "Server error"))).
Proof.
  apply (airplane_in_use_not_deleted Demo.store 1 Demo.single);
    [lia | reflexivity |].
  exists Demo.f1. split; [simpl; auto | reflexivity].
Defined.

(* ===================================================================== *)
(** ** Flights *)
(* ===================================================================== *)

Section Flights.

Variable toDate : JsVal -> Z.

(** The string of a safe integer has no exponent. *)
Lemma safe_plain z :
  0 <= z <= Js.MAX_SAFE_INTEGER -> Js.plain z = true.
Proof.
  unfold Js.plain, Js.MAX_SAFE_INTEGER. intros Hz. apply Z.ltb_lt.
  assert (H53 : 2 ^ 53 = 9007199254740992) by reflexivity.
  assert (H21 : 10 ^ 21 = 1000000000000000000000) by reflexivity.
  lia.
Qed.

Lemma flight_numbers_validated i d a p :
  1 <= i -> 1 <= p ->
  0 <= d <= Js.MAX_SAFE_INTEGER -> 0 <= a <= Js.MAX_SAFE_INTEGER ->
  flightValidationConstraints (FlightBody.mk i (JNum d) (JNum a) p)
  = ([], FlightBody.mk i (JNum d) (JNum a) p).
Proof.
  intros Hi Hp Hd Ha. unfold flightValidationConstraints, check.
  cbn [run_chain FlightBody.ItineraryID FlightBody.DepartureTime
         FlightBody.ArrivalTime FlightBody.AirplaneID Js.notEmpty
         Js.isInt_min].
  rewrite (safe_plain d Hd), (safe_plain a Ha).
  destruct (Z.leb_spec 1 i); [| lia]. destruct (Z.leb_spec 1 p); [| lia].
  destruct (Z.leb_spec 0 d); [| lia]. destruct (Z.leb_spec 0 a); [| lia].
  reflexivity.
Qed.

(** A request the validators refuse is answered 422 and writes nothing. *)
Lemma post_flight_create_refused now req s :
  fst (flightValidationConstraints req) <> [] ->
  fst (post_flight_create toDate now req s) = s /\
  exists res, snd (post_flight_create toDate now req s) = Normal res /\
              status res = 422.
Proof.
  unfold post_flight_create.
  destruct (flightValidationConstraints req) as [errors body]. cbn [fst].
  destruct errors as [| e errors]; [congruence |]. intros _.
  split; [reflexivity | eexists; split; reflexivity].
Qed.

(** A number of [1e21] or more is no integer for the validators. *)
Lemma flight_number_refused z :
  10 ^ 21 <= z -> Js.isInt_min 0 (JNum z) = false.
Proof.
  intros Hz. unfold Js.isInt_min, Js.plain.
  assert (H21 : 10 ^ 21 = 1000000000000000000000) by reflexivity.
  destruct (Z.ltb_spec (Z.abs z) (10 ^ 21)); [lia | reflexivity].
Qed.

Lemma post_flight_create_big now s big other i' p' body :
  10 ^ 21 <= big ->
  body = FlightBody.mk i' (JNum big) other p' \/
  body = FlightBody.mk i' other (JNum big) p' ->
  fst (post_flight_create toDate now body s) = s /\
  exists res, snd (post_flight_create toDate now body s) = Normal res /\
              status res = 422.
Proof.
  intros Hbig Hbody. apply flight_number_refused in Hbig.
  apply post_flight_create_refused.
  assert (Hin : exists e, In e (fst (flightValidationConstraints body))).
  { unfold flightValidationConstraints, check.
    destruct Hbody as [-> | ->];
      cbn [run_chain FlightBody.ItineraryID FlightBody.DepartureTime
             FlightBody.ArrivalTime FlightBody.AirplaneID fst];
      rewrite Hbig; eexists; rewrite !in_app_iff; cbn [In].
    - right. left. right. left. left. reflexivity.
    - right. right. left. right. left. left. reflexivity. }
  destruct Hin as [e Hin]. intros Hnil. rewrite Hnil in Hin. elim Hin.
Qed.

(** X10. Creating a flight whose two times are JSON numbers, safe
    integers from 0 on, with ids of at least 1: the flight is written
    exactly when its itinerary and its airplane are stored and the
    arrival is after the departure; it is then appended with the next row
    id and found by that id; in every other case the answer is 409 or 422
    and nothing is written.  A time of [1e21] or more is refused by the
    validators with 422 whatever the rest, and nothing is written. *)
Theorem flight_created_iff now s i p d a :
  1 <= i -> 1 <= p ->
  0 <= d <= Js.MAX_SAFE_INTEGER -> 0 <= a <= Js.MAX_SAFE_INTEGER ->
  let req := FlightBody.mk i (JNum d) (JNum a) p in
  let out := post_flight_create toDate now req s in
  let row := Flights.mk (insert_id Flights.ID (flights s)) i
               (toDate (JNum d)) (toDate (JNum a)) p now now in
  let references_stored :=
    Orm.find Itinerary.ID i (itineraries s) <> None /\
    Orm.find Airplane.ID p (airplanes s) <> None in
  (references_stored /\ d < a ->
   flights (fst out) = flights s ++ [row] /\
   (exists res, snd out = Normal res /\ status res = 200) /\
   Orm.find Flights.ID (Flights.ID row) (flights (fst out)) = Some row) /\
  (~ (references_stored /\ d < a) ->
   fst out = s /\
   exists res, snd out = Normal res /\ (status res = 409 \/ status res = 422))
  /\
  (forall big other i' p',
     10 ^ 21 <= big ->
     forall body,
       body = FlightBody.mk i' (JNum big) other p' \/
       body = FlightBody.mk i' other (JNum big) p' ->
       fst (post_flight_create toDate now body s) = s /\
       exists res, snd (post_flight_create toDate now body s) = Normal res /\
                   status res = 422).
Proof.
  intros Hi Hp Hd Ha req out row references_stored.
  pose proof (flight_numbers_validated i d a p Hi Hp Hd Ha) as Hv.
  destruct (post_flight_create_cases toDate now req req s Hv)
    as (Hno_it & Hno_plane & Hle & Hcreated).
  fold out in Hno_it, Hno_plane, Hle, Hcreated.
  cbn [req FlightBody.ItineraryID FlightBody.AirplaneID FlightBody.ArrivalTime
         FlightBody.DepartureTime] in Hno_it, Hno_plane, Hle, Hcreated.
  rewrite le_numbers in Hle, Hcreated.
  split; [| split].
  - intros [[Hit Hplane] Hlt].
    destruct (Hcreated Hit Hplane) as [Hstore H200].
    { apply Z.leb_gt. exact Hlt. }
    rewrite Hstore. unfold with_flight. cbn [flights].
    split; [reflexivity |]. split; [exact H200 |].
    apply find_new_row. reflexivity.
  - intros Hnot.
    destruct (Orm.find Itinerary.ID i (itineraries s)) as [it |] eqn:Hit.
    2:{ rewrite (Hno_it eq_refl). split; [reflexivity |].
        eexists. split; [reflexivity | left; reflexivity]. }
    destruct (Orm.find Airplane.ID p (airplanes s)) as [plane |] eqn:Hplane.
    2:{ rewrite Hno_plane; [| discriminate | reflexivity].
        split; [reflexivity |].
        eexists. split; [reflexivity | left; reflexivity]. }
    destruct (Z.leb_spec a d) as [Hle' | Hlt].
    + rewrite Hle; [| discriminate | discriminate | reflexivity].
      split; [reflexivity |].
      eexists. split; [reflexivity | right; reflexivity].
    + exfalso. apply Hnot. subst references_stored.
      repeat split; try discriminate. exact Hlt.
  - intros big other i' p' Hbig body Hbody.
    apply (post_flight_create_big now s big other i' p' body Hbig Hbody).
Qed.


Lemma put_flight_update_cases now id req body s :
  flightValidationConstraints req = ([], body) ->
  let out := put_flight_update toDate now (FlightUpdate.mk id req) s in
  let rewrite :=
    Orm3.updated_flight now (FlightBody.ItineraryID body)
      (toDate (FlightBody.DepartureTime body))
      (toDate (FlightBody.ArrivalTime body)) (FlightBody.AirplaneID body) in
  (Orm.find Flights.ID id (flights s) = None ->
   out = (s, Normal (mkResponse 404
                       (error_body "Flight with this ID does not exist.")))) /\
  (forall f,
     Orm.find Flights.ID id (flights s) = Some f ->
     (Orm.find Itinerary.ID (FlightBody.ItineraryID body) (itineraries s) = None
      \/ Orm.find Airplane.ID (FlightBody.AirplaneID body) (airplanes s) = None
      \/ Js.le (FlightBody.ArrivalTime body) (FlightBody.DepartureTime body)
         = true ->
      fst out = s /\
      exists res, snd out = Normal res /\
                  (status res = 409 \/ status res = 422)) /\
     (Orm.find Itinerary.ID (FlightBody.ItineraryID body) (itineraries s)
      <> None ->
      Orm.find Airplane.ID (FlightBody.AirplaneID body) (airplanes s)
      <> None ->
      Js.le (FlightBody.ArrivalTime body) (FlightBody.DepartureTime body)
      = false ->
      fst out
      = (if Orm3.flight_changed toDate (FlightBody.ItineraryID body)
              (FlightBody.DepartureTime body) (FlightBody.ArrivalTime body)
              (FlightBody.AirplaneID body) f
         then mkStore (airports s) (itineraries s) (airplanes s)
                (map (fun x => if Flights.ID x =? id then rewrite x else x)
                   (flights s))
                (reservations s)
         else s) /\
      exists res, snd out = Normal res /\ status res = 200)).
Proof.
  intros Hv out rewrite. subst out.
  unfold put_flight_update. cbn [FlightUpdate.attributes FlightUpdate.id].
  rewrite Hv. cbn [isEmpty negb].
  unfold bind, Orm3.Flights_findOne, Orm.Itinerary_findOne,
    Orm.Airplane_findOne, attempt, try_catch, respond, ret,
    Orm3.Flights_update.
  destruct (Orm.find Flights.ID id (flights s)) as [f |] eqn:Hf.
  2:{ split; [reflexivity | discriminate]. }
  split; [discriminate |]. intros f' Hf'. inversion Hf'; subst f'.
  destruct (find_stored _ _ _ _ Hf) as [_ Hid].
  destruct (Orm.find Itinerary.ID _ (itineraries s)) as [it |].
  2:{ split; [| congruence]. intros _. split; [reflexivity |].
      eexists. split; [reflexivity | left; reflexivity]. }
  destruct (Orm.find Airplane.ID _ (airplanes s)) as [plane |].
  2:{ split; [| congruence]. intros _. split; [reflexivity |].
      eexists. split; [reflexivity | left; reflexivity]. }
  destruct (Js.le _ _).
  - split; [| congruence]. intros _. split; [reflexivity |].
    eexists. split; [reflexivity | right; reflexivity].
  - split.
    + intros [H | [H | H]]; discriminate.
    + intros _ _ _. cbn [fst snd]. rewrite Hid.
      split; [reflexivity | eexists; split; reflexivity].
Qed.

Lemma find_rewritten {A : Type} (ID : A -> Z) (id : Z) (g : A -> A)
  (table : list A) row :
  (forall x, ID (g x) = ID x) ->
  Orm.find ID id table = Some row ->
  Orm.find ID id (map (fun x => if ID x =? id then g x else x) table)
  = Some (g row).
Proof.
  intros Hg. unfold Orm.find.
  induction table as [| x table IH]; simpl; [discriminate |].
  destruct (Z.eqb_spec (ID x) id) as [Heq | Hne].
  - intros H. inversion H; subst. simpl. rewrite Hg, Z.eqb_refl. reflexivity.
  - intros H. simpl. destruct (Z.eqb_spec (ID x) id); [contradiction | auto].
Qed.

Lemma ids_rewritten {A : Type} (ID : A -> Z) (id : Z) (g : A -> A)
  (table : list A) :
  (forall x, ID (g x) = ID x) ->
  map ID (map (fun x => if ID x =? id then g x else x) table) = map ID table.
Proof.
  intros Hg. rewrite map_map. apply map_ext. intros x.
  destruct (ID x =? id); [apply Hg | reflexivity].
Qed.

Lemma flight_unchanged i d a p f :
  Orm3.flight_changed toDate i d a p f = false ->
  Flights.ItineraryID f = i /\ Flights.DepartureTime f = toDate d /\
  Flights.ArrivalTime f = toDate a /\ Flights.AirplaneID f = p.
Proof.
  unfold Orm3.flight_changed, Orm3.same_date. intros H.
  apply negb_false_iff in H.
  repeat match goal with
         | E : _ && _ = true |- _ => apply andb_true_iff in E; destruct E
         end.
  repeat match goal with
         | E : (_ =? _) = true |- _ => apply Z.eqb_eq in E
         end.
  auto.
Qed.


(** X12. An update does not count the reservations of the flight: moving
    a flight to an airplane with fewer seats than it has reservations
    (times as safe integers from 0 on) is answered 200 and leaves the
    flight over the capacity of its airplane. *)
Theorem flight_update_ignores_reservations now s id i p d a f plane :
  1 <= i -> 1 <= p ->
  0 <= d <= Js.MAX_SAFE_INTEGER -> 0 <= a <= Js.MAX_SAFE_INTEGER ->
  Orm.find Flights.ID id (flights s) = Some f ->
  Orm.find Itinerary.ID i (itineraries s) <> None ->
  Orm.find Airplane.ID p (airplanes s) = Some plane ->
  d < a ->
  Airplane.Capacity plane < reservationsCount id s ->
  let req := FlightUpdate.mk id (FlightBody.mk i (JNum d) (JNum a) p) in
  let out := put_flight_update toDate now req s in
  (exists res, snd out = Normal res /\ status res = 200) /\
  exists f',
    Orm.find Flights.ID id (flights (fst out)) = Some f' /\
    Orm.find Airplane.ID (Flights.AirplaneID f') (airplanes (fst out))
    = Some plane /\
    ~ within_capacity id (Airplane.Capacity plane) (fst out).
Proof.
  intros Hi Hp Hd Ha Hf Hit Hplane Hlt Hover req out.
  pose proof (flight_numbers_validated i d a p Hi Hp Hd Ha) as Hv.
  destruct (put_flight_update_cases now id _ _ s Hv) as (_ & Hfound).
  fold req in Hfound. fold out in Hfound.
  destruct (Hfound f Hf) as (_ & Hok).
  destruct (Hok Hit) as [Hstore H200].
  { simpl. congruence. }
  { simpl. apply Z.leb_gt. lia. }
  cbn [FlightBody.ItineraryID FlightBody.DepartureTime FlightBody.ArrivalTime
         FlightBody.AirplaneID] in Hstore.
  split; [exact H200 |]. rewrite Hstore.
  destruct (Orm3.flight_changed toDate i (JNum d) (JNum a) p f)
    eqn:Hchanged; cbn [flights airplanes].
  - eexists. split.
    + apply (find_rewritten Flights.ID id _ _ f); [reflexivity | exact Hf].
    + split; [exact Hplane |].
      unfold within_capacity, reservationsCount in *. cbn [reservations]. lia.
  - destruct (flight_unchanged _ _ _ _ _ Hchanged) as (_ & _ & _ & Hsame).
    exists f. split; [exact Hf |]. rewrite Hsame.
    split; [exact Hplane |]. unfold within_capacity. lia.
Qed.

(** The reservations that go with the stored flight [ID]. *)
Lemma mem_flight_ids ID table f x :
  Orm.find Flights.ID ID table = Some f ->
  Cascade.mem x (map Flights.ID (filter (fun f => Flights.ID f =? ID) table))
  = (x =? ID).
Proof.
  intros Hf. apply Bool.eq_iff_eq_true. unfold Cascade.mem.
  rewrite existsb_exists. split.
  - intros (y & Hin & Heq). apply in_map_iff in Hin.
    destruct Hin as (g & <- & Hg). apply filter_In in Hg.
    destruct Hg as [_ Hg]. apply Z.eqb_eq in Heq, Hg. apply Z.eqb_eq.
    congruence.
  - intros Heq. apply Z.eqb_eq in Heq. subst x.
    destruct (find_stored _ _ _ _ Hf) as [Hin Hid].
    exists (Flights.ID f). split; [| apply Z.eqb_eq; auto].
    apply in_map. apply filter_In. split; [exact Hin |].
    apply Z.eqb_eq. exact Hid.
Qed.

Lemma delete_flight_delete_run ID s :
  delete_flight_delete ID s
  = match Orm.find Flights.ID ID (flights s) with
    | None => (s, Normal (mkResponse 404 (error_body "Flight not found.")))
    | Some _ =>
        (mkStore (airports s) (itineraries s) (airplanes s)
           (Orm.delete Flights.ID ID (flights s))
           (filter (fun r => negb (Reservation.FlightID r =? ID))
              (reservations s)),
         Normal (mkResponse 200 (message_body "Flight deleted successfully.")))
    end.
Proof.
  unfold delete_flight_delete, attempt, try_catch, bind, Orm3.Flights_findOne,
    Orm3.Flights_destroy, respond, ret.
  destruct (Orm.find Flights.ID ID (flights s)) as [f |] eqn:Hf;
    [| reflexivity].
  unfold Cascade.delete_flights, Cascade.keep, Cascade.reservations_of.
  f_equal. f_equal. apply filter_ext. intros r.
  rewrite (mem_flight_ids ID (flights s) f _ Hf). reflexivity.
Qed.

Lemma for_flight_gone ID rows :
  Orm.for_flight ID
    (filter (fun r => negb (Reservation.FlightID r =? ID)) rows) = [].
Proof.
  unfold Orm.for_flight. induction rows as [| r rows IH]; [reflexivity |].
  simpl. destruct (Z.eqb_spec (Reservation.FlightID r) ID) as [Heq | Hne];
    simpl; [exact IH |].
  destruct (Z.eqb_spec (Reservation.FlightID r) ID); [contradiction | exact IH].
Qed.

Lemma for_flight_kept ID other rows :
  other <> ID ->
  Orm.for_flight other
    (filter (fun r => negb (Reservation.FlightID r =? ID)) rows)
  = Orm.for_flight other rows.
Proof.
  intros Hne. unfold Orm.for_flight.
  induction rows as [| r rows IH]; [reflexivity |]. simpl.
  destruct (Z.eqb_spec (Reservation.FlightID r) ID) as [Heq | Hstay]; simpl.
  - destruct (Z.eqb_spec (Reservation.FlightID r) other); [congruence | exact IH].
  - rewrite IH. reflexivity.
Qed.

End Flights.
Lemma flight_created_iff_witness :
  let out :=
    post_flight_create epoch 9 (FlightBody.mk 1 (JNum 10) (JNum 20) 2)
      Demo.store in
  flights (fst out) = flights Demo.store ++ [Flights.mk 4 1 10 20 2 9 9] /\
  (exists res, snd out = Normal res /\ status res = 200) /\
  Orm.find Flights.ID 4 (flights (fst out))
  = Some (Flights.mk 4 1 10 20 2 9 9).
Proof.
  destruct (flight_created_iff epoch 9 Demo.store 1 2 10 20)
    as (Hwritten & _);
    try (unfold Js.MAX_SAFE_INTEGER; simpl; lia).
  apply Hwritten. repeat split; discriminate.
Defined.


Lemma flight_update_ignores_reservations_witness :
  let req := FlightUpdate.mk 2 (FlightBody.mk 1 (JNum 10) (JNum 20) 1) in
  let out := put_flight_update epoch 9 req Busy.store in
  (exists res, snd out = Normal res /\ status res = 200) /\
  exists f',
    Orm.find Flights.ID 2 (flights (fst out)) = Some f' /\
    Orm.find Airplane.ID (Flights.AirplaneID f') (airplanes (fst out))
    = Some Demo.single /\
    ~ within_capacity 2 (Airplane.Capacity Demo.single) (fst out).
Proof.
  apply (flight_update_ignores_reservations epoch 9 Busy.store 2 1 1 10 20
           Demo.f2 Demo.single);
    try (unfold Js.MAX_SAFE_INTEGER; simpl; lia); try reflexivity.
  discriminate.
Defined.

(** X13. Deleting a flight deletes its reservations with it.  The
    answer is 200; the flight is gone; gone too are the rows of the
    Reservation table that name it, by the cascade of their foreign key,
    while the reservations of every other flight and the other three
    tables are as before; from then on a booking the validators let
    through for that flight id and the list of that flight are both
    answered 409 'No such flight exists.'. *)
Theorem flight_deleted_with_reservations s ID f :
  Orm.find Flights.ID ID (flights s) = Some f ->
  let deleted := delete_flight_delete ID s in
  snd deleted
  = Normal (mkResponse 200 (message_body "Flight deleted successfully.")) /\
  flights (fst deleted) = Orm.delete Flights.ID ID (flights s) /\
  reservations (fst deleted)
  = filter (fun r => negb (Reservation.FlightID r =? ID)) (reservations s) /\
  reservationsCount ID (fst deleted) = 0 /\
  (forall other, other <> ID ->
     Orm.for_flight other (reservations (fst deleted))
     = Orm.for_flight other (reservations s)) /\
  (airports (fst deleted) = airports s /\
   itineraries (fst deleted) = itineraries s /\
   airplanes (fst deleted) = airplanes s) /\
  (forall now req body,
     validated req body -> ReservationBody.FlightID body = ID ->
     post_reservation_create now req (fst deleted)
     = (fst deleted, NoSuchFlight)) /\
  (1 <= ID ->
   get_reservation_flight ID (fst deleted) = (fst deleted, NoSuchFlight)).
Proof.
  intros Hf deleted. subst deleted. rewrite delete_flight_delete_run, Hf.
  cbn [fst snd flights reservations airports itineraries airplanes].
  split; [reflexivity |]. split; [reflexivity |]. split; [reflexivity |].
  split.
  { unfold reservationsCount. cbn [reservations].
    rewrite for_flight_gone. reflexivity. }
  split; [intros other Hne; apply for_flight_kept; exact Hne |].
  split; [auto |]. split.
  - intros now req body Hv Hid.
    rewrite (post_reservation_create_validated now _ _ Hv).
    apply create_reservation_no_flight. cbn [flights]. rewrite Hid.
    apply find_deleted.
  - intros Hle. apply get_reservation_flight_no_flight; [exact Hle |].
    cbn [flights]. apply find_deleted.
Qed.

Lemma flight_deleted_with_reservations_witness :
  let deleted := delete_flight_delete 2 Demo.two_flights in
  snd deleted
  = Normal (mkResponse 200 (message_body "Flight deleted successfully.")) /\
  flights (fst deleted) = [Demo.f1] /\
  reservations (fst deleted) = [Reservation.mk 2 "Bob" 1 8 8] /\
  reservationsCount 2 (fst deleted) = 0.
Proof.
  destruct (flight_deleted_with_reservations Demo.two_flights 2 Demo.f2)
    as (H200 & Hflights & Hrows & Hcount & _);
    [reflexivity |].
  split; [exact H200 |]. split; [exact Hflights |].
  split; [exact Hrows | exact Hcount].
Defined.

(** X14. Row ids are given out again, reservations are not.  When the
    newest flight is deleted and a flight is created next (times as safe
    integers from 0 on, references stored), the new flight gets the id
    of the deleted one; the reservations of the deleted flight went with
    it, so the new flight starts without any, and the reservations of
    the other flights are as before. *)
Theorem deleted_flight_id_given_again toDate now s rest A i p d a :
  flights s = rest ++ [A] ->
  Flights.ID A = insert_id Flights.ID rest ->
  1 <= i -> 1 <= p ->
  0 <= d <= Js.MAX_SAFE_INTEGER -> 0 <= a <= Js.MAX_SAFE_INTEGER ->
  Orm.find Itinerary.ID i (itineraries s) <> None ->
  Orm.find Airplane.ID p (airplanes s) <> None ->
  d < a ->
  let s1 := fst (delete_flight_delete (Flights.ID A) s) in
  let s2 :=
    fst (post_flight_create toDate now (FlightBody.mk i (JNum d) (JNum a) p)
           s1) in
  let B := Flights.mk (Flights.ID A) i (toDate (JNum d)) (toDate (JNum a)) p
             now now in
  flights s1 = rest /\
  flights s2 = rest ++ [B] /\
  reservations s2
  = filter (fun r => negb (Reservation.FlightID r =? Flights.ID A))
      (reservations s) /\
  reservationsCount (Flights.ID B) s2 = 0 /\
  (forall other, other <> Flights.ID A ->
     reservationsCount other s2 = reservationsCount other s).
Proof.
  intros Hflights Hid Hi Hp Hd Ha Hit Hplane Hlt s1 s2 B.
  assert (Hs1 : s1 = mkStore (airports s) (itineraries s) (airplanes s) rest
                       (filter (fun r => negb (Reservation.FlightID r
                                               =? Flights.ID A))
                          (reservations s))).
  { subst s1. rewrite delete_flight_delete_run, Hflights.
    rewrite (find_new_row Flights.ID rest A Hid). cbn [fst]. f_equal.
    apply delete_last. intros r Hr.
    pose proof (insert_id_fresh Flights.ID rest r Hr). lia. }
  split; [rewrite Hs1; reflexivity |].
  pose proof (flight_numbers_validated i d a p Hi Hp Hd Ha) as Hv.
  destruct (post_flight_create_cases toDate now _ _ s1 Hv)
    as (_ & _ & _ & Hcreated).
  destruct Hcreated as [Hstore _].
  { rewrite Hs1. exact Hit. }
  { rewrite Hs1. exact Hplane. }
  { simpl. apply Z.leb_gt. lia. }
  fold s2 in Hstore. rewrite Hstore, Hs1. unfold with_flight.
  cbn [flights reservations FlightBody.ItineraryID FlightBody.DepartureTime
         FlightBody.ArrivalTime FlightBody.AirplaneID].
  rewrite <- Hid. fold B.
  split; [reflexivity |]. split; [reflexivity |].
  unfold reservationsCount. cbn [reservations Flights.ID B]. split.
  - rewrite for_flight_gone. reflexivity.
  - intros other Hne. rewrite (for_flight_kept _ _ _ Hne). reflexivity.
Qed.

Lemma deleted_flight_id_given_again_witness :
  let s1 := fst (delete_flight_delete 2 Demo.two_flights) in
  let s2 :=
    fst (post_flight_create epoch 9 (FlightBody.mk 1 (JNum 10) (JNum 20) 2)
           s1) in
  let B := Flights.mk 2 1 10 20 2 9 9 in
  flights s1 = [Demo.f1] /\
  flights s2 = [Demo.f1] ++ [B] /\
  reservations s2 = [Reservation.mk 2 "Bob" 1 8 8] /\
  reservationsCount 2 s2 = 0.
Proof.
  destruct (deleted_flight_id_given_again epoch 9 Demo.two_flights [Demo.f1]
              Demo.f2 1 2 10 20) as (H1 & H2 & H3 & H4 & _);
    try reflexivity; try discriminate;
    try (unfold Js.MAX_SAFE_INTEGER; simpl; lia).
  split; [exact H1 |]. split; [exact H2 |]. split; [exact H3 | exact H4].
Defined.

(* ===================================================================== *)
(** ** Airports *)
(* ===================================================================== *)

Lemma digit_plain c :
  Chars.is_digit c = true ->
  Chars.is_space c = false /\ Ascii.eqb c "-" = false /\
  Ascii.eqb c "+" = false /\ Ascii.eqb c "x" = false /\
  Ascii.eqb c "X" = false /\
  0 <= Chars.digit_value c <= 9.
Proof.
  destruct c as [[] [] [] [] [] [] [] []]; vm_compute;
    intros H; try discriminate H; repeat split; discriminate.
Qed.

(** One or two digits are read by [parseInt] as the number they write. *)
Lemma parseInt_digits ds :
  (exists d, ds = String d EmptyString /\ Chars.is_digit d = true) \/
  (exists d d', ds = String d (String d' EmptyString) /\
                Chars.is_digit d = true /\ Chars.is_digit d' = true) ->
  exists n, Number.parseInt ds = Some n /\ Validator.digits 0 ds = Some n /\
            0 <= n <= 99.
Proof.
  intros [(d & -> & Hd) | (d & d' & -> & Hd & Hd')].
  - destruct (digit_plain d Hd) as (Hs & Hm & Hp & _ & _ & Hv).
    exists (10 * 0 + Chars.digit_value d).
    unfold Number.parseInt, Number.magnitude, Number.starts_with.
    cbn -[Z.mul Z.add Chars.is_digit Chars.is_space Chars.digit_value Ascii.eqb].
    rewrite Hs, Hm, Hp, Hd.
    cbn -[Z.mul Z.add Chars.is_digit Chars.is_space Chars.digit_value Ascii.eqb].
    rewrite ?Hd.
    split; [destruct d as [[] [] [] [] [] [] [] []]; reflexivity |].
    split; [reflexivity | lia].
  - destruct (digit_plain d Hd) as (Hs & Hm & Hp & _ & _ & Hv).
    destruct (digit_plain d' Hd') as (_ & _ & _ & Hx & HX & Hv').
    exists (10 * (10 * 0 + Chars.digit_value d) + Chars.digit_value d').
    unfold Number.parseInt, Number.magnitude, Number.starts_with.
    cbn -[Z.mul Z.add Chars.is_digit Chars.is_space Chars.digit_value Ascii.eqb].
    rewrite Hs, Hm, Hp, Hd, Hd', Hx, HX.
    cbn -[Z.mul Z.add Chars.is_digit Chars.is_space Chars.digit_value Ascii.eqb].
    rewrite ?Hd, ?Hd'.
    split; [destruct d as [[] [] [] [] [] [] [] []]; reflexivity |].
    split; [reflexivity | lia].
Qed.

Lemma timezone_regex_shape value :
  timezone_regex value = true <->
  exists sign ds,
    value = ("GMT" ++ String sign ds)%string /\
    (sign = "+" \/ sign = "-")%char /\ one_or_two_digits ds.
Proof.
  unfold one_or_two_digits. split.
  - destruct value as [| g [| m [| t [| sign ds]]]]; simpl; try discriminate.
    intros H. repeat (apply andb_true_iff in H; destruct H as [H ?]).
    apply Ascii.eqb_eq in H. subst g.
    match goal with H : Ascii.eqb m _ = true |- _ =>
      apply Ascii.eqb_eq in H; subst m end.
    match goal with H : Ascii.eqb t _ = true |- _ =>
      apply Ascii.eqb_eq in H; subst t end.
    exists sign, ds. split; [reflexivity |]. split.
    + match goal with H : _ || _ = true |- _ =>
        apply orb_true_iff in H; destruct H as [H | H];
        apply Ascii.eqb_eq in H; auto end.
    + destruct ds as [| d [| d' [| ? ?]]]; try discriminate.
      * left. eauto.
      * right. match goal with H : _ && _ = true |- _ =>
          apply andb_true_iff in H; destruct H end. eauto 6.
  - intros (sign & ds & -> & Hsign & Hds). simpl.
    assert (Hs : Ascii.eqb sign "+" || Ascii.eqb sign "-" = true).
    { destruct Hsign as [-> | ->]; reflexivity. }
    rewrite Hs. simpl.
    destruct Hds as [(d & -> & Hd) | (d & d' & -> & Hd & Hd')].
    + exact Hd.
    + rewrite Hd, Hd'. reflexivity.
Qed.

Lemma digits_shape ds n :
  (String.length ds = 1 \/ String.length ds = 2)%nat ->
  Validator.digits 0 ds = Some n ->
  one_or_two_digits ds.
Proof.
  unfold one_or_two_digits.
  destruct ds as [| d [| d' [| ? ?]]]; simpl; intros [H | H] Hn;
    try discriminate H.
  - left. exists d. destruct (Chars.is_digit d); [auto | discriminate].
  - right. exists d, d'.
    destruct (Chars.is_digit d); [| discriminate].
    destruct (Chars.is_digit d'); [auto | discriminate].
Qed.

Lemma shape_length ds :
  one_or_two_digits ds ->
  (String.length ds = 1 \/ String.length ds = 2)%nat.
Proof.
  intros [(d & -> & _) | (d & d' & -> & _)]; simpl; auto.
Qed.

(** X15. The time zones the airport routes let through are exactly the
    strings GMT, a sign, and one or two digits that write a number up to
    12.  The sign is not part of the number that is compared, so the test
    for a negative offset never decides: a time zone is refused with
    'Invalid timezone offset.' only for a number above 12. *)
Theorem timezone_accepted value :
  (timezone_custom value = None <->
   exists sign ds n,
     value = ("GMT" ++ String sign ds)%string /\
     (sign = "+" \/ sign = "-")%char /\
     (String.length ds = 1 \/ String.length ds = 2)%nat /\
     Validator.digits 0 ds = Some n /\ n <= 12) /\
  (timezone_custom value = Some "Invalid timezone offset." ->
   exists sign ds n,
     value = ("GMT" ++ String sign ds)%string /\
     Validator.digits 0 ds = Some n /\ 12 < n).
Proof.
  assert (Hrun : forall sign ds, one_or_two_digits ds ->
            exists n, Validator.digits 0 ds = Some n /\ 0 <= n /\
              timezone_custom ("GMT" ++ String sign ds)%string
              = if timezone_regex ("GMT" ++ String sign ds)%string
                then (if n >? 12 then Some "Invalid timezone offset."
                      else None)
                else Some "Invalid timezone.").
  { intros sign ds Hds. destruct (parseInt_digits ds Hds) as (n & Hp & Hn & Hr).
    exists n. split; [exact Hn |]. split; [lia |].
    unfold timezone_custom.
    destruct (timezone_regex _); [| reflexivity].
    cbn [negb Number.substring_from append]. rewrite Hp.
    destruct (Z.ltb_spec n 0); [lia |]. reflexivity. }
  split; [split |].
  - intros Hnone.
    destruct (timezone_regex value) eqn:Hre.
    2:{ unfold timezone_custom in Hnone. rewrite Hre in Hnone. discriminate. }
    pose proof Hre as Hshape. apply timezone_regex_shape in Hshape.
    destruct Hshape as (sign & ds & -> & Hsign & Hds).
    destruct (Hrun sign ds Hds) as (n & Hn & _ & Heq).
    rewrite Hre in Heq. rewrite Heq in Hnone.
    exists sign, ds, n. split; [reflexivity |]. split; [exact Hsign |].
    split; [apply shape_length; exact Hds |]. split; [exact Hn |].
    destruct (Z.gtb_spec n 12); [discriminate | lia].
  - intros (sign & ds & n & -> & Hsign & Hlen & Hn & Hle).
    pose proof (digits_shape ds n Hlen Hn) as Hds.
    destruct (Hrun sign ds Hds) as (n' & Hn' & _ & Heq).
    assert (n' = n) by congruence. subst n'.
    rewrite Heq.
    rewrite (proj2 (timezone_regex_shape _)) by eauto.
    destruct (Z.gtb_spec n 12); [lia | reflexivity].
  - intros Hoff.
    destruct (timezone_regex value) eqn:Hre.
    2:{ unfold timezone_custom in Hoff. rewrite Hre in Hoff. discriminate. }
    pose proof Hre as Hshape. apply timezone_regex_shape in Hshape.
    destruct Hshape as (sign & ds & -> & Hsign & Hds).
    destruct (Hrun sign ds Hds) as (n & Hn & _ & Heq).
    rewrite Hre in Heq. rewrite Heq in Hoff.
    exists sign, ds, n. split; [reflexivity |]. split; [exact Hn |].
    destruct (Z.gtb_spec n 12); [lia | discriminate].
Qed.

Example timezones :
  map timezone_custom ["GMT+0"; "GMT-12"; "GMT+07"; "GMT+13"; "GMT5"; "gmt+5"]
  = [None; None; None; Some "Invalid timezone offset.";
     Some "Invalid timezone."; Some "Invalid timezone."].
Proof. reflexivity. Qed.

(** What the validators of an airport let through. *)
Lemma airport_validated s req body :
  airportValidationConstraints s req = ([], body) ->
  body = req /\
  name_taken s (AirportBody.Name req) = false /\
  Validator.isAlphanumeric (AirportBody.Name req) = true /\
  isFloat_in (-90) 90 (AirportBody.Latitude req) = true /\
  isFloat_in (-180) 180 (AirportBody.Longitude req) = true /\
  timezone_custom (AirportBody.Timezone req) = None.
Proof.
  unfold airportValidationConstraints, check. simpl.
  destruct (negb (Validator.isEmpty (AirportBody.Name req)));
    destruct (Validator.isAlphanumeric (AirportBody.Name req));
    destruct (name_taken s (AirportBody.Name req));
    destruct (isFloat_in (-90) 90 (AirportBody.Latitude req));
    destruct (isFloat_in (-180) 180 (AirportBody.Longitude req));
    destruct (negb (Validator.isEmpty (AirportBody.Timezone req)));
    destruct (timezone_custom (AirportBody.Timezone req));
    simpl; intros Heq; inversion Heq; subst.
  destruct req; auto 10.
Qed.

(** A name that is taken is among the errors of the validators. *)
Lemma airport_name_error s req :
  name_taken s (AirportBody.Name req) = true ->
  In (mkError "body" "Name" "Airport name already exists.")
     (fst (airportValidationConstraints s req)).
Proof.
  intros Htaken. unfold airportValidationConstraints, check. simpl.
  rewrite Htaken. simpl. apply in_or_app. left.
  apply in_or_app. right. apply in_or_app. right. left. reflexivity.
Qed.

Lemma post_airport_create_run now req s :
  post_airport_create now req s
  = match airportValidationConstraints s req with
    | ([], body) =>
        let row := Airport.mk (insert_id Airport.ID (airports s))
                     (AirportBody.Name req) (AirportBody.Latitude req)
                     (AirportBody.Longitude req) (AirportBody.Timezone req)
                     now now in
        (mkStore (airports s ++ [row]) (itineraries s) (airplanes s)
           (flights s) (reservations s),
         Normal (mkResponse 200
                   (jobject
                      [ ("message", jstring "Airport created successfully");
                        ("airport", airport_answer row) ])))
    | (errors, _) => (s, Normal (mkResponse 422 (errors_body errors)))
    end.
Proof.
  unfold post_airport_create, post_airport_create_after.
  destruct (airportValidationConstraints s req) as [errors body] eqn:Hv.
  destruct errors as [| e errors]; [| reflexivity].
  destruct (airport_validated s req body Hv) as (-> & Hfree & _).
  cbn [isEmpty negb].
  unfold airport_create_handler, bind, Orm2.Airport_findOne_Name.
  unfold name_taken in Hfree.
  destruct (List.find _ (airports s)); [discriminate | reflexivity].
Qed.

(** The handler of POST /airport/create on a database where the name is
    stored. *)
Lemma airport_create_handler_taken now body s :
  name_taken s (AirportBody.Name body) = true ->
  airport_create_handler now body s
  = (s, Normal (mkResponse 409 (error_body "Airport name already exists."))).
Proof.
  unfold name_taken, airport_create_handler, bind, Orm2.Airport_findOne_Name.
  destruct (List.find _ (airports s)); [reflexivity | discriminate].
Qed.

Lemma name_taken_last s a :
  name_taken
    (mkStore (airports s ++ [a]) (itineraries s) (airplanes s) (flights s)
       (reservations s))
    (Airport.Name a) = true.
Proof.
  unfold name_taken. cbn [airports].
  destruct (List.find _ (airports s ++ [a])) eqn:Hfind; [reflexivity |].
  apply List.find_none with (x := a) in Hfind;
    [| apply in_or_app; right; left; reflexivity].
  rewrite String.eqb_refl in Hfind. discriminate.
Qed.

(** X16. Creating an airport.  Served with no other request in between,
    the route answers 422 or 200 and nothing else: the validators already
    look the name up, so a name that is taken is refused by them with 422
    'Airport name already exists.' and the handler's own 409 for the same
    case is not reached; a 422 writes nothing; a 200 appends one row with
    the next row id and the four attributes of the body.  The 409 is
    reached when the name gets stored between the two lookups: if another
    create of the same name is served after the validators of this one
    and before its handler, this one is answered 409 'Airport name
    already exists.' and writes nothing of its own. *)
Theorem airport_create_answers now req s :
  let out := post_airport_create now req s in
  (exists res, snd out = Normal res /\ status res <> 409 /\
     ((status res = 422 /\ fst out = s) \/
      (status res = 200 /\
       airports (fst out)
       = airports s
         ++ [Airport.mk (insert_id Airport.ID (airports s))
               (AirportBody.Name req) (AirportBody.Latitude req)
               (AirportBody.Longitude req) (AirportBody.Timezone req)
               now now]))) /\
  (name_taken s (AirportBody.Name req) = true ->
   exists errors,
     out = (s, Normal (mkResponse 422 (errors_body errors))) /\
     In (mkError "body" "Name" "Airport name already exists.") errors) /\
  (forall now' other,
     fst (airportValidationConstraints s req) = [] ->
     fst (airportValidationConstraints s other) = [] ->
     AirportBody.Name other = AirportBody.Name req ->
     let between := fun s => fst (post_airport_create now' other s) in
     post_airport_create_after between now req s
     = (between s,
        Normal (mkResponse 409 (error_body "Airport name already exists.")))).
Proof.
  intros out. subst out. split; [| split].
  - rewrite post_airport_create_run.
    destruct (airportValidationConstraints s req) as [errors body] eqn:Hv.
    destruct errors as [| e errors]; eexists;
      (split; [reflexivity |]); (split; [discriminate |]).
    + right. split; reflexivity.
    + left. split; reflexivity.
  - rewrite post_airport_create_run.
    destruct (airportValidationConstraints s req) as [errors body] eqn:Hv.
    intros Htaken. pose proof (airport_name_error s req Htaken) as Hin.
    rewrite Hv in Hin. simpl in Hin.
    destruct errors as [| e errors]; [destruct Hin |].
    exists (e :: errors). split; [reflexivity | exact Hin].
  - intros now' other Hreq Hother Hname between. subst between.
    unfold post_airport_create_after at 1.
    destruct (airportValidationConstraints s req) as [errors body] eqn:Hv.
    cbn [fst] in Hreq. subst errors. cbn [isEmpty negb].
    destruct (airport_validated s req body Hv) as (-> & _).
    apply airport_create_handler_taken.
    rewrite post_airport_create_run.
    destruct (airportValidationConstraints s other) as [errors body'].
    cbn [fst] in Hother. subst errors. cbn [fst].
    rewrite <- Hname. apply (name_taken_last s).
Qed.

(** Two requests to create Gatwick, the second served between the
    validators and the handler of the first: the first is answered 409. *)
Example airport_create_race :
  let gatwick := AirportBody.mk "Gatwick" 51.125%float (-0.25)%float "GMT+0" in
  status
    (match post_airport_create_after
             (fun s => fst (post_airport_create 8 gatwick s)) 7 gatwick
             Demo.store
     with
     | (_, Normal res) => res
     | (_, Throw _) => mkResponse 0 jnull
     end) = 409 /\
  status
    (match post_airport_create 7 gatwick Demo.store with
     | (_, Normal res) => res
     | (_, Throw _) => mkResponse 0 jnull
     end) = 200.
Proof. split; reflexivity. Qed.

Lemma name_taken_stored s a : In a (airports s) -> name_taken s (Airport.Name a) = true.
Proof.
  intros Hin. unfold name_taken.
  destruct (List.find _ (airports s)) eqn:Hfind; [reflexivity |].
  apply (List.find_none _ _ Hfind) in Hin. rewrite String.eqb_refl in Hin.
  discriminate.
Qed.

Lemma name_free s name :
  name_taken s name = false -> ~ In name (map Airport.Name (airports s)).
Proof.
  unfold name_taken. intros Hfree Hin.
  destruct (List.find _ (airports s)) eqn:Hfind; [discriminate |].
  apply in_map_iff in Hin. destruct Hin as (a & <- & Ha).
  apply (List.find_none _ _ Hfind) in Ha. rewrite String.eqb_refl in Ha.
  discriminate.
Qed.

Lemma put_airport_update_run now id attributes s :
  1 <= id ->
  put_airport_update now (AirportUpdate.mk (Some id) attributes) s
  = match airportValidationConstraints s attributes with
    | ([], _) =>
        match Orm.find Airport.ID id (airports s) with
        | None => (s, Normal (mkResponse 404 (error_body "Airport not found")))
        | Some airport =>
            (mkStore
               (map (fun a => if Airport.ID a =? id
                              then Orm2.updated_airport now attributes a
                              else a) (airports s))
               (itineraries s) (airplanes s) (flights s) (reservations s),
             Normal (mkResponse 200
                       (jobject
                          [ ("message",
                              jstring ("Airport " ++ show id
                                       ++ " successfully updated")%string);
                            ("airport",
                              airport_answer
                                (Orm2.updated_airport now attributes airport))
                          ])))
        end
    | (errors, _) => (s, Normal (mkResponse 422 (errors_body errors)))
    end.
Proof.
  intros Hle. unfold put_airport_update. cbn [AirportUpdate.id AirportUpdate.attributes].
  destruct (Z.eqb_spec id 0); [lia |]. destruct (Z.leb_spec id 0); [lia |].
  cbn [orb].
  destruct (airportValidationConstraints s attributes) as [errors body] eqn:Hv.
  destruct errors as [| e errors]; [| reflexivity].
  destruct (airport_validated s _ _ Hv) as (-> & _).
  cbn [isEmpty negb].
  unfold bind, Orm2.Airport_findByPk, Orm2.Airport_update, respond, ret.
  destruct (Orm.find Airport.ID id (airports s)) as [a |] eqn:Hf;
    [| reflexivity].
  destruct (find_stored _ _ _ _ Hf) as [_ ->]. reflexivity.
Qed.

(** X17. An airport cannot be updated without being renamed: the update
    route runs the validators of the create route, so a body whose name
    is the name of a stored airport - the airport that is updated
    included - is answered 422 and nothing is written. *)
Theorem airport_update_needs_new_name now req s a :
  In a (airports s) ->
  AirportBody.Name (AirportUpdate.attributes req) = Airport.Name a ->
  fst (put_airport_update now req s) = s /\
  exists res, snd (put_airport_update now req s) = Normal res /\
              status res = 422.
Proof.
  intros Hin Hname. pose proof (name_taken_stored s a Hin) as Htaken.
  rewrite <- Hname in Htaken.
  pose proof (airport_name_error s _ Htaken) as Herr.
  destruct req as [[id |] attributes]; cbn [AirportUpdate.attributes] in *.
  2:{ split; [reflexivity | eexists; split; reflexivity]. }
  destruct (Z.lt_ge_cases id 1) as [Hlt | Hle].
  - unfold put_airport_update. cbn [AirportUpdate.id].
    assert (Hbad : (id =? 0) || (id <=? 0) = true).
    { destruct (Z.leb_spec id 0); [apply orb_true_r | lia]. }
    rewrite Hbad. split; [reflexivity | eexists; split; reflexivity].
  - rewrite (put_airport_update_run now id attributes s Hle).
    destruct (airportValidationConstraints s attributes) as [errors body].
    destruct errors as [| e errors]; [destruct Herr |].
    split; [reflexivity | eexists; split; reflexivity].
Qed.

Lemma airport_update_needs_new_name_witness :
  let req :=
    AirportUpdate.mk (Some 1)
      (AirportBody.mk "Heathrow" 51.5%float (-0.5)%float "GMT+1") in
  fst (put_airport_update 9 req Demo.store) = Demo.store /\
  exists res, snd (put_airport_update 9 req Demo.store) = Normal res /\
              status res = 422.
Proof.
  apply (airport_update_needs_new_name 9
           (AirportUpdate.mk (Some 1)
              (AirportBody.mk "Heathrow" 51.5%float (-0.5)%float "GMT+1"))
           Demo.store Demo.LHR); [simpl; auto | reflexivity].
Defined.

Lemma rewrite_absent {A : Type} (ID : A -> Z) (id : Z) (g : A -> A)
  (table : list A) :
  (forall x, In x table -> ID x <> id) ->
  map (fun x => if ID x =? id then g x else x) table = table.
Proof.
  induction table as [| x table IH]; simpl; intros H; [reflexivity |].
  destruct (Z.eqb_spec (ID x) id) as [Heq | _].
  - elim (H x (or_introl eq_refl) Heq).
  - f_equal. apply IH. intros y Hy. apply H. right. exact Hy.
Qed.

(** Renaming the row of one key to a name that is free keeps the names
    apart. *)
Lemma names_rewritten {A : Type} (ID : A -> Z) (Name : A -> string) (id : Z)
  (g : A -> A) (name : string) (table : list A) :
  (forall x, Name (g x) = name) ->
  NoDup (map ID table) ->
  NoDup (map Name table) ->
  ~ In name (map Name table) ->
  NoDup (map Name (map (fun x => if ID x =? id then g x else x) table)).
Proof.
  intros Hg. induction table as [| x table IH]; simpl; intros Hids Hnames Hfree;
    [constructor |].
  inversion Hids as [| ? ? Hid_notin Hids']; subst.
  inversion Hnames as [| ? ? Hname_notin Hnames']; subst.
  destruct (Z.eqb_spec (ID x) id) as [Heq | Hne].
  - rewrite rewrite_absent.
    + rewrite Hg. constructor; [tauto | exact Hnames'].
    + intros y Hy Hy'. apply Hid_notin. rewrite Heq, <- Hy'.
      apply in_map. exact Hy.
  - constructor; [| apply IH; tauto].
    intros Hin. apply in_map_iff in Hin. destruct Hin as (y & Hy & Hin).
    apply in_map_iff in Hin. destruct Hin as (z & <- & Hz).
    destruct (ID z =? id).
    + rewrite Hg in Hy. apply Hfree. left. congruence.
    + apply Hname_notin. rewrite <- Hy. apply in_map. exact Hz.
Qed.

Lemma delete_airport_delete_store req s :
  fst (delete_airport_delete req s) = s \/
  exists id,
    fst (delete_airport_delete req s) = Cascade.delete_airport id s.
Proof.
  unfold delete_airport_delete.
  destruct (assoc "id" req) as [id |]; [| left; reflexivity].
  destruct ((id =? 0) || (id <=? 0)); [left; reflexivity |].
  unfold bind, Orm2.Airport_findByPk, Orm2.Airport_destroy, respond, ret.
  destruct (Orm.find Airport.ID id (airports s)) as [a |] eqn:Hf;
    [| left; reflexivity].
  right. exists id. destruct (find_stored _ _ _ _ Hf) as [_ ->]. reflexivity.
Qed.

(** X18. The airport routes keep the Airport table in order: names are
    unique, row ids are unique and positive, and every airport has a name
    of letters and digits, a latitude within 90 degrees, a longitude
    within 180 degrees and a time zone the validators let through - after
    a create, an update and a delete, whatever the request. *)
Theorem airport_routes_keep_table now create_req update_req delete_req s :
  airports_wf s ->
  airports_wf (fst (post_airport_create now create_req s)) /\
  airports_wf (fst (put_airport_update now update_req s)) /\
  airports_wf (fst (delete_airport_delete delete_req s)).
Proof.
  unfold airports_wf. intros (Hnames & Huniq & Hpos & Hvalid).
  split; [| split].
  - rewrite post_airport_create_run.
    destruct (airportValidationConstraints s create_req) as [errors body]
      eqn:Hv.
    destruct errors as [| e errors]; [| cbn [fst]; auto].
    destruct (airport_validated s _ _ Hv) as (_ & Hfree & Hrest).
    cbn [fst airports]. split; [| split; [| split]].
    + rewrite map_app. simpl.
      apply NoDup_app; [exact Hnames | repeat constructor; intros [] |].
      intros name Hin [<- | []]. apply (name_free s _ Hfree Hin).
    + apply unique_ids_insert; [exact Huniq | reflexivity].
    + apply positive_ids_insert; [exact Hpos | reflexivity].
    + apply Forall_app. split; [exact Hvalid |].
      constructor; [exact Hrest | constructor].
  - destruct update_req as [[id |] attributes]; [| cbn [fst]; auto].
    destruct (Z.lt_ge_cases id 1) as [Hlt | Hle].
    { unfold put_airport_update. cbn [AirportUpdate.id].
      assert (Hbad : (id =? 0) || (id <=? 0) = true).
      { destruct (Z.leb_spec id 0); [apply orb_true_r | lia]. }
      rewrite Hbad. cbn [fst]. auto. }
    rewrite (put_airport_update_run now id attributes s Hle).
    destruct (airportValidationConstraints s attributes) as [errors body]
      eqn:Hv.
    destruct errors as [| e errors]; [| cbn [fst]; auto].
    destruct (airport_validated s _ _ Hv) as (_ & Hfree & Hrest).
    destruct (Orm.find Airport.ID id (airports s)); [| cbn [fst]; auto].
    cbn [fst airports]. split; [| split; [| split]].
    + apply (names_rewritten Airport.ID Airport.Name id _
               (AirportBody.Name attributes)); auto.
      apply name_free. exact Hfree.
    + unfold unique_ids. rewrite ids_rewritten; [exact Huniq | reflexivity].
    + unfold positive_ids in *. rewrite Forall_forall in *.
      intros x Hx. apply in_map_iff in Hx. destruct Hx as (y & <- & Hy).
      destruct (Airport.ID y =? id); [simpl |]; auto.
    + rewrite Forall_forall in *.
      intros x Hx. apply in_map_iff in Hx. destruct Hx as (y & <- & Hy).
      destruct (Airport.ID y =? id); [exact Hrest | auto].
  - destruct (delete_airport_delete_store delete_req s) as [-> | (id & ->)];
      [auto |].
    change (airports (Cascade.delete_airport id s))
      with (Orm.delete Airport.ID id (airports s)).
    split; [| split; [| split]].
    + apply distinct_column_after_destroy. exact Hnames.
    + apply unique_ids_delete. exact Huniq.
    + apply positive_ids_delete. exact Hpos.
    + unfold Orm.delete. rewrite Forall_forall in *.
      intros x Hx. apply filter_In in Hx. apply Hvalid. tauto.
Qed.

Lemma airport_routes_keep_table_witness :
  let body := AirportBody.mk "Orly" 48.75%float 2.375%float "GMT+1" in
  airports_wf (fst (post_airport_create 9 body Demo.store)) /\
  airports_wf
    (fst (put_airport_update 9 (AirportUpdate.mk (Some 2) body) Demo.store)) /\
  airports_wf (fst (delete_airport_delete [("id", 1)] Demo.store)).
Proof.
  apply (airport_routes_keep_table 9
           (AirportBody.mk "Orly" 48.75%float 2.375%float "GMT+1")
           (AirportUpdate.mk (Some 2)
              (AirportBody.mk "Orly" 48.75%float 2.375%float "GMT+1"))
           [("id", 1)] Demo.store).
  unfold airports_wf, unique_ids, positive_ids, valid_airport. simpl.
  repeat split; repeat constructor; simpl; try lia;
    intros H; repeat destruct H as [H | H]; try discriminate; auto.
Defined.

Lemma leading_digits ds : forall acc n c rest,
  Validator.digits acc ds = Some n ->
  Chars.is_digit c = false ->
  Number.leading Chars.is_digit Chars.digit_value 10 acc ds = n /\
  Number.leading Chars.is_digit Chars.digit_value 10 acc
    (ds ++ String c rest) = n.
Proof.
  induction ds as [| d ds IH]; intros acc n c rest Hn Hc.
  - simpl in *. rewrite Hc. inversion Hn. auto.
  - cbn [Validator.digits] in Hn. cbn [Number.leading append].
    destruct (Chars.is_digit d); [| discriminate].
    apply (IH _ _ _ _ Hn Hc).
Qed.

Lemma magnitude_decimal d t :
  Chars.is_digit d = true ->
  (forall x r, d = "0"%char -> t = String x r ->
               Ascii.eqb x "x" || Ascii.eqb x "X" = false) ->
  Number.magnitude (String d t)
  = Some (Number.leading Chars.is_digit Chars.digit_value 10 0 (String d t)).
Proof.
  intros Hd Hx. unfold Number.magnitude.
  destruct d as [[] [] [] [] [] [] [] []]; try discriminate Hd;
    try reflexivity.
  destruct t as [| x r]; [reflexivity |].
  rewrite (Hx x r eq_refl eq_refl). reflexivity.
Qed.

Lemma parseInt_decimal d t :
  Chars.is_digit d = true ->
  (forall x r, d = "0"%char -> t = String x r ->
               Ascii.eqb x "x" || Ascii.eqb x "X" = false) ->
  Number.parseInt (String d t)
  = Some (Number.leading Chars.is_digit Chars.digit_value 10 0 (String d t)).
Proof.
  intros Hd Hx. destruct (digit_plain d Hd) as (Hs & Hm & Hp & _).
  unfold Number.parseInt. cbn [Validator.ltrim]. rewrite Hs, Hm, Hp.
  apply magnitude_decimal; assumption.
Qed.

(** X19. GET /airport/:id reads the id with [parseInt]: a segment that
    starts with digits is taken for the number these digits write,
    whatever follows them (an x after a lone 0 apart, which announces
    hexadecimal digits). *)
Theorem airport_id_read_up_to_first_other_character ds n c rest s :
  ds <> EmptyString ->
  Validator.digits 0 ds = Some n ->
  Chars.is_digit c = false ->
  c <> "x"%char -> c <> "X"%char ->
  Number.parseInt (ds ++ String c rest) = Some n /\
  get_airport (ds ++ String c rest) s = get_airport ds s.
Proof.
  intros Hne Hn Hc Hx HX.
  destruct ds as [| d ds]; [congruence |].
  assert (Hd : Chars.is_digit d = true).
  { cbn [Validator.digits] in Hn.
    destruct (Chars.is_digit d); [reflexivity | discriminate]. }
  assert (Hnox : forall y, Chars.is_digit y = true \/ y = c ->
                           Ascii.eqb y "x" || Ascii.eqb y "X" = false).
  { intros y [Hy | ->].
    - destruct (digit_plain y Hy) as (_ & _ & _ & -> & -> & _). reflexivity.
    - apply Ascii.eqb_neq in Hx, HX. rewrite Hx, HX. reflexivity. }
  destruct (leading_digits (String d ds) 0 n c rest Hn Hc) as [Hshort Hlong].
  assert (Hp1 : Number.parseInt (String d ds) = Some n).
  { rewrite parseInt_decimal; [congruence | exact Hd |].
    intros x r _ ->. apply Hnox. left.
    cbn [Validator.digits] in Hn. rewrite Hd in Hn.
    cbn [Validator.digits] in Hn.
    destruct (Chars.is_digit x); [reflexivity | discriminate]. }
  assert (Hp2 : Number.parseInt (String d ds ++ String c rest) = Some n).
  { cbn [append]. rewrite parseInt_decimal; [| exact Hd |].
    - cbn [append] in Hlong. congruence.
    - intros x r _ Heq. apply Hnox. destruct ds as [| d' ds'].
      + right. cbn [append] in Heq. congruence.
      + left. cbn [append] in Heq. inversion Heq; subst.
        cbn [Validator.digits] in Hn. rewrite Hd in Hn.
        cbn [Validator.digits] in Hn.
        destruct (Chars.is_digit x); [reflexivity | discriminate]. }
  split; [exact Hp2 |]. unfold get_airport. rewrite Hp1, Hp2. reflexivity.
Qed.

Lemma airport_id_read_up_to_first_other_character_witness :
  Number.parseInt ("2" ++ String "a" "bc") = Some 2 /\
  get_airport ("2" ++ String "a" "bc") Demo.store = get_airport "2" Demo.store.
Proof.
  apply (airport_id_read_up_to_first_other_character "2" 2 "a" "bc"
           Demo.store); try reflexivity; discriminate.
Defined.

Example airport_segments :
  map (fun segment =>
         option_map status
           (match snd (get_airport segment Demo.store) with
            | Normal res => Some res
            | Throw _ => None
            end))
    ["1"; "2abc"; " 2"; "0x2"; "3"; "all"; "-1"; "0"]
  = [Some 200; Some 200; Some 200; Some 200; Some 404; Some 422; Some 422;
     Some 422].
Proof. reflexivity. Qed.

(** X20. A created airport is read back.  After a create the validators
    let through, in a table of positive row ids, the list route returns
    the rows it returned before followed by the new row, and the route by
    id returns the new row for every segment that [parseInt] reads as its
    id. *)
Theorem airport_created_then_read now req body s :
  airportValidationConstraints s req = ([], body) ->
  positive_ids Airport.ID (airports s) ->
  let created := post_airport_create now req s in
  let row := Airport.mk (insert_id Airport.ID (airports s))
               (AirportBody.Name req) (AirportBody.Latitude req)
               (AirportBody.Longitude req) (AirportBody.Timezone req)
               now now in
  snd created
  = Normal (mkResponse 200
              (jobject [ ("message", jstring "Airport created successfully");
                         ("airport", airport_answer row) ])) /\
  get_airport_list (fst created)
  = (fst created,
     Normal (mkResponse 200
               (jarray (map airport_json (airports s) ++ [airport_json row]))))
  /\
  forall segment,
    Number.parseInt segment = Some (Airport.ID row) ->
    get_airport segment (fst created)
    = (fst created, Normal (mkResponse 200 (airport_json row))).
Proof.
  intros Hv Hpos created row. subst created.
  rewrite post_airport_create_run, Hv. cbn [fst snd]. fold row.
  split; [reflexivity |]. split.
  - unfold get_airport_list, bind, Orm2.Airport_findAll, respond, ret.
    cbn [airports]. rewrite map_app. reflexivity.
  - intros segment Hparse. unfold get_airport. rewrite Hparse.
    pose proof (insert_id_positive Airport.ID _ Hpos) as Hid.
    cbn [row Airport.ID].
    destruct (Z.leb_spec (insert_id Airport.ID (airports s)) 0); [lia |].
    unfold bind, Orm2.Airport_findByPk, respond, ret. cbn [airports].
    pose proof (find_new_row Airport.ID (airports s) row eq_refl) as Hfound.
    cbn [row Airport.ID] in Hfound. rewrite Hfound. reflexivity.
Qed.

Lemma airport_created_then_read_witness :
  let req := AirportBody.mk "Orly" 48.75%float 2.375%float "GMT+1" in
  let created := post_airport_create 9 req Demo.store in
  let row := Airport.mk 3 "Orly" 48.75%float 2.375%float "GMT+1" 9 9 in
  snd created
  = Normal (mkResponse 200
              (jobject [ ("message", jstring "Airport created successfully");
                         ("airport", airport_answer row) ])) /\
  get_airport_list (fst created)
  = (fst created,
     Normal (mkResponse 200
               (jarray (map airport_json (airports Demo.store)
                        ++ [airport_json row]))))
  /\
  forall segment,
    Number.parseInt segment = Some (Airport.ID row) ->
    get_airport segment (fst created)
    = (fst created, Normal (mkResponse 200 (airport_json row))).
Proof.
  apply (airport_created_then_read 9
           (AirportBody.mk "Orly" 48.75%float 2.375%float "GMT+1")
           (AirportBody.mk "Orly" 48.75%float 2.375%float "GMT+1")
           Demo.store); [reflexivity |].
  repeat constructor; simpl; lia.
Defined.

(* ===================================================================== *)
(** ** Itineraries *)
(* ===================================================================== *)

(** What the validators of an itinerary let through. *)
Lemma itinerary_validated s req body :
  itineraryValidationConstraints s req = ([], body) ->
  body = ItineraryBody.mk (Validator.trim (ItineraryBody.code req))
           (ItineraryBody.originAirportId req)
           (ItineraryBody.destinationAirportId req)
           (ItineraryBody.duration req) /\
  Validator.isAlphanumeric (ItineraryBody.code body) = true /\
  airport_exists s (ItineraryBody.originAirportId body) = true /\
  airport_exists s (ItineraryBody.destinationAirportId body) = true /\
  1 <= ItineraryBody.duration body.
Proof.
  unfold itineraryValidationConstraints, check. simpl.
  destruct (negb (Validator.isEmpty (ItineraryBody.code req)));
    destruct (Validator.isAlphanumeric (Validator.trim (ItineraryBody.code req)))
      eqn:Hcode;
    destruct (Z.leb_spec 1 (ItineraryBody.originAirportId req)) as [Ho | Ho];
    destruct (airport_exists s (ItineraryBody.originAirportId req)) eqn:Hoe;
    destruct (Z.leb_spec 1 (ItineraryBody.destinationAirportId req))
      as [Hd | Hd];
    destruct (airport_exists s (ItineraryBody.destinationAirportId req))
      eqn:Hde;
    destruct (Z.leb_spec 1 (ItineraryBody.duration req)) as [Hm | Hm];
    simpl; intros Heq; inversion Heq; subst; simpl; auto 10.
Qed.

Lemma post_itinerary_create_store now req s :
  fst (post_itinerary_create now req s) = s \/
  exists body,
    itineraryValidationConstraints s req = ([], body) /\
    List.find (fun i => String.eqb (Itinerary.Code i) (ItineraryBody.code body))
      (itineraries s) = None /\
    (exists res, snd (post_itinerary_create now req s) = Normal res
                 /\ status res = 200) /\
    fst (post_itinerary_create now req s)
    = mkStore (airports s)
        (itineraries s
         ++ [Itinerary.mk (insert_id Itinerary.ID (itineraries s))
               (ItineraryBody.code body) (ItineraryBody.originAirportId body)
               (ItineraryBody.destinationAirportId body)
               (ItineraryBody.duration body) now now])
        (airplanes s) (flights s) (reservations s).
Proof.
  unfold post_itinerary_create.
  destruct (itineraryValidationConstraints s req) as [errors body] eqn:Hv.
  destruct errors as [| e errors]; [| left; reflexivity].
  cbn [isEmpty negb].
  unfold bind, Orm3.Itinerary_findOne_code, attempt, try_catch, respond, ret,
    Orm3.Itinerary_create.
  destruct (List.find _ (itineraries s)) eqn:Hfind; [left; reflexivity |].
  right. exists body. split; [reflexivity |]. split; [exact Hfind |].
  split; [eexists; split; reflexivity | reflexivity].
Qed.

Lemma delete_itinerary_delete_store req s :
  fst (delete_itinerary_delete req s) = s \/
  exists id,
    fst (delete_itinerary_delete req s)
    = Cascade.delete_itineraries (fun i => Itinerary.ID i =? id) s.
Proof.
  unfold delete_itinerary_delete.
  destruct (assoc "id" req) as [id |]; [| left; reflexivity].
  destruct ((id =? 0) || (id <=? 0)); [left; reflexivity |].
  unfold attempt, try_catch, bind, Orm3.Itinerary_findByPk,
    Orm3.Itinerary_destroy, respond, ret.
  destruct (Orm.find Itinerary.ID id (itineraries s)) as [i |] eqn:Hf;
    [| left; reflexivity].
  right. exists id. destruct (find_stored _ _ _ _ Hf) as [_ ->]. reflexivity.
Qed.

(** X21. The itinerary routes keep the Itinerary table in order: codes
    are unique, row ids are unique and positive, every itinerary lasts at
    least a minute and names an origin and a destination that are stored
    airports - after a create and after a delete, whatever the request. *)
Theorem itinerary_routes_keep_table now create_req delete_req s :
  itineraries_wf s ->
  itineraries_wf (fst (post_itinerary_create now create_req s)) /\
  itineraries_wf (fst (delete_itinerary_delete delete_req s)).
Proof.
  unfold itineraries_wf, itineraries_resolve.
  intros (Hcodes & Huniq & Hpos & Hres & Hdur). split.
  - destruct (post_itinerary_create_store now create_req s)
      as [-> | (body & Hv & Hfree & _ & ->)]; [auto 10 |].
    destruct (itinerary_validated s _ _ Hv) as (_ & _ & Ho & Hd & Hm).
    cbn [itineraries]. split; [| split; [| split; [| split]]].
    + rewrite map_app. simpl.
      apply NoDup_app; [exact Hcodes | repeat constructor; intros [] |].
      intros code Hin [<- | []].
      apply in_map_iff in Hin. destruct Hin as (i & Heq & Hi).
      apply (List.find_none _ _ Hfree) in Hi.
      apply String.eqb_neq in Hi. contradiction.
    + apply unique_ids_insert; [exact Huniq | reflexivity].
    + apply positive_ids_insert; [exact Hpos | reflexivity].
    + apply Forall_app. split; [exact Hres |].
      constructor; [split; [exact Ho | exact Hd] | constructor].
    + apply Forall_app. split; [exact Hdur |].
      constructor; [exact Hm | constructor].
  - destruct (delete_itinerary_delete_store delete_req s) as [-> | (id & ->)];
      [auto 10 |].
    change (itineraries
              (Cascade.delete_itineraries (fun i => Itinerary.ID i =? id) s))
      with (Orm.delete Itinerary.ID id (itineraries s)).
    split; [| split; [| split; [| split]]].
    + apply distinct_column_after_destroy. exact Hcodes.
    + apply unique_ids_delete. exact Huniq.
    + apply positive_ids_delete. exact Hpos.
    + unfold Orm.delete. rewrite Forall_forall in *.
      intros x Hx. apply filter_In in Hx. apply Hres. tauto.
    + unfold Orm.delete. rewrite Forall_forall in *.
      intros x Hx. apply filter_In in Hx. apply Hdur. tauto.
Qed.

Lemma itinerary_routes_keep_table_witness :
  itineraries_wf
    (fst (post_itinerary_create 9 (ItineraryBody.mk "BA118" 2 1 470)
            Demo.store)) /\
  itineraries_wf (fst (delete_itinerary_delete [("id", 1)] Demo.store)).
Proof.
  apply (itinerary_routes_keep_table 9 (ItineraryBody.mk "BA118" 2 1 470)
           [("id", 1)] Demo.store).
  unfold itineraries_wf, itineraries_resolve, unique_ids, positive_ids. simpl.
  repeat split; repeat constructor; simpl; try lia;
    intros H; repeat destruct H as [H | H]; try discriminate; auto.
Defined.

Lemma unique_ids_inj {A : Type} (ID : A -> Z) (table : list A) r r' :
  unique_ids ID table ->
  In r table -> In r' table -> ID r = ID r' -> r = r'.
Proof.
  unfold unique_ids. induction table as [| x table IH]; simpl; [tauto |].
  intros Hnd Hr Hr' Heq. inversion Hnd as [| ? ? Hnotin Hnd']; subst.
  destruct Hr as [<- | Hr], Hr' as [<- | Hr']; auto.
  - elim Hnotin. rewrite Heq. apply in_map. exact Hr'.
  - elim Hnotin. rewrite <- Heq. apply in_map. exact Hr.
Qed.

(** With unique keys, a row that a DELETE selects is not found again. *)
Lemma find_not_kept {A : Type} (ID : A -> Z) (gone : A -> bool)
  (table : list A) row :
  unique_ids ID table ->
  Orm.find ID (ID row) table = Some row ->
  gone row = true ->
  Orm.find ID (ID row) (Cascade.keep gone table) = None.
Proof.
  intros Huniq Hfind Hgone. apply find_absent. intros r Hr Heq.
  apply filter_In in Hr. destruct Hr as [Hin Hkept].
  destruct (find_stored _ _ _ _ Hfind) as [Hrow _].
  rewrite (unique_ids_inj ID table r row Huniq Hin Hrow Heq) in Hkept.
  rewrite Hgone in Hkept. discriminate.
Qed.

Lemma mem_ids {A : Type} (ID : A -> Z) (rows : list A) row :
  In row rows -> Cascade.mem (ID row) (map ID rows) = true.
Proof.
  intros Hin. unfold Cascade.mem. apply existsb_exists.
  exists (ID row). split; [apply in_map; exact Hin | apply Z.eqb_refl].
Qed.

Lemma for_flight_not_kept gone rows ID :
  Cascade.mem ID (map Flights.ID gone) = true ->
  Orm.for_flight ID (Cascade.keep (Cascade.reservations_of gone) rows) = [].
Proof.
  intros Hmem. unfold Orm.for_flight, Cascade.keep, Cascade.reservations_of.
  induction rows as [| r rows IH]; [reflexivity |]. simpl.
  destruct (Cascade.mem (Reservation.FlightID r) (map Flights.ID gone))
    eqn:Hr; simpl; [exact IH |].
  destruct (Z.eqb_spec (Reservation.FlightID r) ID) as [Heq | _];
    [congruence | exact IH].
Qed.

(** What DELETE /airport/delete does with the id of a stored airport. *)
Lemma delete_airport_delete_run id a s :
  1 <= id ->
  Orm.find Airport.ID id (airports s) = Some a ->
  delete_airport_delete [("id", id)] s
  = (Cascade.delete_airport id s,
     Normal (mkResponse 200 (message_body "Airport deleted"))).
Proof.
  intros Hle Hfind. unfold delete_airport_delete. cbn [assoc].
  rewrite String.eqb_refl.
  destruct (Z.eqb_spec id 0); [lia |].
  destruct (Z.leb_spec id 0); [lia |]. cbn [orb].
  unfold bind, Orm2.Airport_findByPk, Orm2.Airport_destroy, respond, ret.
  rewrite Hfind. destruct (find_stored _ _ _ _ Hfind) as [_ ->]. reflexivity.
Qed.

(** X22. Deleting an airport deletes what hangs on it.  For a stored
    airport at which the itinerary of a flight starts or ends, in tables
    with unique keys: the answer is 200; the airport is gone, and by the
    cascades of the foreign keys the itinerary, the flight and the
    reservations of the flight are gone too, while the Airplane table is
    as before; from then on a booking the validators let through for the
    flight is answered 409 'No such flight exists.' and writes nothing. *)
Theorem airport_deleted_with_dependents s now req body c id a :
  validated req body ->
  resolves s (ReservationBody.FlightID body) c ->
  unique_ids Itinerary.ID (itineraries s) ->
  unique_ids Flights.ID (flights s) ->
  1 <= id ->
  Orm.find Airport.ID id (airports s) = Some a ->
  Itinerary.OriginAirportID (ctx_itinerary c) = id \/
  Itinerary.DestinationAirportID (ctx_itinerary c) = id ->
  let deleted := delete_airport_delete [("id", id)] s in
  snd deleted = Normal (mkResponse 200 (message_body "Airport deleted")) /\
  Orm.find Airport.ID id (airports (fst deleted)) = None /\
  Orm.find Itinerary.ID (Flights.ItineraryID (ctx_flight c))
    (itineraries (fst deleted)) = None /\
  Orm.find Flights.ID (ReservationBody.FlightID body) (flights (fst deleted))
  = None /\
  reservationsCount (ReservationBody.FlightID body) (fst deleted) = 0 /\
  airplanes (fst deleted) = airplanes s /\
  post_reservation_create now req (fst deleted) = (fst deleted, NoSuchFlight).
Proof.
  intros Hv Hres Huniq_i Huniq_f Hle Ha Huses deleted. subst deleted.
  rewrite (delete_airport_delete_run id a s Hle Ha). cbn [fst snd].
  destruct Hres as (Hf & Hi & _).
  destruct (find_stored _ _ _ _ Hf) as [Hf_in Hf_id].
  destruct (find_stored _ _ _ _ Hi) as [Hi_in Hi_id].
  assert (Hgone_i : Cascade.uses_airport id (ctx_itinerary c) = true).
  { unfold Cascade.uses_airport. apply orb_true_iff.
    destruct Huses as [<- | <-]; [left | right]; apply Z.eqb_refl. }
  assert (Hgone_f : Cascade.flights_of
                      (filter (Cascade.uses_airport id) (itineraries s))
                      (ctx_flight c) = true).
  { unfold Cascade.flights_of. rewrite <- Hi_id. apply mem_ids.
    apply filter_In. auto. }
  assert (Hflight : Orm.find Flights.ID (ReservationBody.FlightID body)
                      (flights (Cascade.delete_airport id s)) = None).
  { rewrite <- Hf_id.
    apply (find_not_kept Flights.ID _ (flights s) (ctx_flight c) Huniq_f);
      [rewrite Hf_id; exact Hf | exact Hgone_f]. }
  split; [reflexivity |]. split.
  { apply find_absent. intros row. apply delete_gone. }
  split.
  { rewrite <- Hi_id.
    apply (find_not_kept Itinerary.ID _ (itineraries s) (ctx_itinerary c)
             Huniq_i); [rewrite Hi_id; exact Hi | exact Hgone_i]. }
  split; [exact Hflight |]. split.
  { unfold reservationsCount.
    change (reservations (Cascade.delete_airport id s))
      with (Cascade.keep
              (Cascade.reservations_of
                 (filter (Cascade.flights_of
                            (filter (Cascade.uses_airport id) (itineraries s)))
                    (flights s)))
              (reservations s)).
    rewrite for_flight_not_kept; [reflexivity |].
    rewrite <- Hf_id. apply mem_ids. apply filter_In. auto. }
  split; [reflexivity |].
  rewrite (post_reservation_create_validated now _ _ Hv).
  apply create_reservation_no_flight. exact Hflight.
Qed.

Lemma airport_deleted_with_dependents_witness :
  let deleted := delete_airport_delete [("id", 1)] Demo.half_full in
  snd deleted = Normal (mkResponse 200 (message_body "Airport deleted")) /\
  fst deleted = mkStore [Demo.JFK] [] [Demo.single; Demo.twin] [] [] /\
  post_reservation_create 9 Demo.Cy (fst deleted) = (fst deleted, NoSuchFlight).
Proof.
  destruct (airport_deleted_with_dependents Demo.half_full 9 Demo.Cy Demo.Cy
              Demo.ctx2 1 Demo.LHR) as (H200 & _ & _ & _ & _ & _ & Hbook);
    try reflexivity; try lia.
  - repeat split.
  - repeat constructor; simpl; intuition discriminate.
  - repeat constructor; simpl; intuition discriminate.
  - left. reflexivity.
  - split; [exact H200 |]. split; [reflexivity | exact Hbook].
Defined.

(* ===================================================================== *)
(** ** The GET routes *)
(* ===================================================================== *)

(** X23. GET /airport/all is registered after GET /airport/:id, which
    takes every second segment that is not "list": no path reaches the
    handler of /airport/all.  The path /airport/all itself goes to the
    route by id with the id "all" and is answered 422 'Invalid airport
    ID'. *)
Theorem airport_all_is_shadowed :
  (forall path params, dispatch_get path <> Some (airport_all, params)) /\
  dispatch_get ["airport"; "all"] = Some (airport_by_id, [("id", "all")]) /\
  (forall s,
     get_airport "all" s
     = (s, Normal (mkResponse 422 (error_body "Invalid airport ID")))).
Proof.
  split; [| split; reflexivity].
  intros path params. unfold dispatch_get, get_routes, first_match.
  destruct path as [| a [| b [| c rest]]]; cbn [matches];
    try (repeat match goal with
                | |- context [if ?x then _ else _] => destruct x
                end; discriminate).
  change (lowercase "airport") with "airport".
  change (lowercase "list") with "list".
  change (lowercase "all") with "all".
  destruct (String.eqb "airport" (lowercase a)); cbn [matches option_map].
  - destruct (String.eqb "list" (lowercase b)); [discriminate |].
    destruct b as [| b0 b']; cbn [option_map]; [| discriminate].
    cbn [lowercase]. cbn [String.eqb].
    repeat match goal with
           | |- context [if ?x then _ else _] => destruct x
           end; discriminate.
  - repeat match goal with
           | |- context [if ?x then _ else _] => destruct x
           | |- context [match ?x with EmptyString => _ | String _ _ => _ end] =>
               destruct x
           end; cbn [option_map]; discriminate.
Qed.

(* ===================================================================== *)
(** ** Answers other than 200 *)
(* ===================================================================== *)

Ltac leaves :=
  repeat match goal with
         | |- context [match ?x with _ => _ end] => destruct x
         end;
  cbn [fst snd status]; intros;
  try reflexivity;
  try match goal with
      | H : Normal _ = Normal _ |- _ => inversion H; subst; cbn [status] in *
      end;
  try congruence; try discriminate.

Lemma put_itinerary_update_store now req s :
  fst (put_itinerary_update now req s) = s \/
  exists res, snd (put_itinerary_update now req s) = Normal res /\
              status res = 200.
Proof.
  unfold put_itinerary_update.
  destruct (itineraryValidationConstraints s (ItineraryUpdate.attributes req))
    as [errors body].
  destruct errors as [| e errors]; [| left; reflexivity].
  cbn [isEmpty negb].
  unfold attempt, try_catch, bind, Itinerary_findByPk_opt,
    Orm3.Itinerary_findByPk, Orm3.Itinerary_save, respond, ret.
  destruct (ItineraryUpdate.id req) as [id |]; [| left; reflexivity].
  destruct (Orm.find Itinerary.ID id (itineraries s)) as [i |];
    [| left; reflexivity].
  destruct (negb (Orm3.itinerary_changed body i)); [left; reflexivity |].
  destruct (negb (String.eqb (ItineraryBody.code body) (Itinerary.Code i))
            && Orm3.code_stored (ItineraryBody.code body) s);
    [left; reflexivity |].
  right. eexists. split; reflexivity.
Qed.

(** X24. Every POST, PUT and DELETE route but the booking writes only
    when it answers 200: for the cancel of a reservation and for the
    create, update and delete routes of airplanes, flights, airports and
    itineraries (twelve routes), an answer with another status - a
    refusal of the validators, a 404, a 409, or the 500 of a DELETE or an
    UPDATE the database refused - leaves the database exactly as it was;
    and the list of the reservations of a flight writes nothing at
    all. *)
Theorem other_answers_write_nothing toDate now s :
  (forall req,
     status (snd (delete_reservation_delete req s)) <> 200 ->
     fst (delete_reservation_delete req s) = s) /\
  (forall ID, fst (get_reservation_flight ID s) = s) /\
  (forall req res,
     snd (post_airplane_create now req s) = Normal res -> status res <> 200 ->
     fst (post_airplane_create now req s) = s) /\
  (forall req res,
     snd (delete_airplane_delete req s) = Normal res -> status res <> 200 ->
     fst (delete_airplane_delete req s) = s) /\
  (forall req res,
     snd (post_flight_create toDate now req s) = Normal res ->
     status res <> 200 ->
     fst (post_flight_create toDate now req s) = s) /\
  (forall req res,
     snd (put_flight_update toDate now req s) = Normal res ->
     status res <> 200 ->
     fst (put_flight_update toDate now req s) = s) /\
  (forall ID res,
     snd (delete_flight_delete ID s) = Normal res -> status res <> 200 ->
     fst (delete_flight_delete ID s) = s) /\
  (forall req res,
     snd (post_airport_create now req s) = Normal res -> status res <> 200 ->
     fst (post_airport_create now req s) = s) /\
  (forall req res,
     snd (put_airport_update now req s) = Normal res -> status res <> 200 ->
     fst (put_airport_update now req s) = s) /\
  (forall req res,
     snd (delete_airport_delete req s) = Normal res -> status res <> 200 ->
     fst (delete_airport_delete req s) = s) /\
  (forall req res,
     snd (post_itinerary_create now req s) = Normal res ->
     status res <> 200 ->
     fst (post_itinerary_create now req s) = s) /\
  (forall req res,
     snd (put_itinerary_update now req s) = Normal res ->
     status res <> 200 ->
     fst (put_itinerary_update now req s) = s) /\
  (forall req res,
     snd (delete_itinerary_delete req s) = Normal res -> status res <> 200 ->
     fst (delete_itinerary_delete req s) = s).
Proof.
  repeat split.
  - intros req. destruct (cancel_store req s) as [-> | (ID & H200 & _)];
      [reflexivity | congruence].
  - intros ID. apply get_reservation_flight_reads.
  - intros req res.
    unfold post_airplane_create, bind, Orm.Airplane_findOne_name, attempt,
      try_catch, respond, ret, Orm.Airplane_create. leaves.
  - intros req res Hres Hne.
    destruct (delete_airplane_delete_store req s)
      as [[Hs _] | (id & a & _ & _ & _ & _ & (res' & Hres' & H200) & _)];
      [exact Hs | congruence].
  - intros req res.
    unfold post_flight_create, bind, Orm.Itinerary_findOne,
      Orm.Airplane_findOne, attempt, try_catch, respond, ret,
      Orm.Flights_create. leaves.
  - intros req res.
    unfold put_flight_update, bind, Orm3.Flights_findOne,
      Orm.Itinerary_findOne, Orm.Airplane_findOne, attempt, try_catch,
      respond, ret, Orm3.Flights_update. leaves.
  - intros ID res. rewrite delete_flight_delete_run. leaves.
  - intros req res. rewrite post_airport_create_run. leaves.
  - intros req res.
    unfold put_airport_update, bind, Orm2.Airport_findByPk, respond, ret,
      Orm2.Airport_update. leaves.
  - intros req res. unfold delete_airport_delete.
    destruct (assoc "id" req) as [id |]; [| reflexivity].
    destruct ((id =? 0) || (id <=? 0)); [reflexivity |].
    unfold bind, Orm2.Airport_findByPk, respond, ret, Orm2.Airport_destroy.
    destruct (Orm.find Airport.ID id (airports s)); [| reflexivity].
    cbn [fst snd]. intros Hres Hne. inversion Hres; subst.
    elim Hne. reflexivity.
  - intros req res.
    unfold post_itinerary_create, bind, Orm3.Itinerary_findOne_code, attempt,
      try_catch, respond, ret, Orm3.Itinerary_create. leaves.
  - intros req res Hres Hne.
    destruct (put_itinerary_update_store now req s)
      as [Hs | (res' & Hres' & H200)]; [exact Hs | congruence].
  - intros req res. unfold delete_itinerary_delete.
    destruct (assoc "id" req) as [id |]; [| reflexivity].
    destruct ((id =? 0) || (id <=? 0)); [reflexivity |].
    unfold attempt, try_catch, bind, Orm3.Itinerary_findByPk, respond, ret,
      Orm3.Itinerary_destroy.
    destruct (Orm.find Itinerary.ID id (itineraries s)); [| reflexivity].
    cbn [fst snd]. intros Hres Hne. inversion Hres; subst.
    elim Hne. reflexivity.
Qed.

(* ===================================================================== *)
(** ** The booking service over any sequence of requests *)
(* ===================================================================== *)

Lemma serve_cons r rs s :
  serve (r :: rs) s
  = (fst (serve rs (fst (handle r s))),
     snd (handle r s) :: snd (serve rs (fst (handle r s)))).
Proof.
  cbn [serve]. destruct (handle r s) as [s1 res]. cbn [fst snd].
  destruct (serve rs s1). reflexivity.
Qed.

(** X25. Whatever requests the booking service serves in turn - bookings,
    cancels and lists in any order, accepted or refused - the Reservation
    table keeps unique and positive row ids and passenger names made of
    letters and digits only, at least two of them. *)
Theorem serve_keeps_reservations rs : forall s,
  reservations_wf s -> reservations_wf (fst (serve rs s)).
Proof.
  unfold reservations_wf.
  induction rs as [| r rs IH]; intros s (Hu & Hp & Hn); [auto |].
  rewrite serve_cons. cbn [fst]. apply IH.
  destruct (handle_keys r s Hu Hp) as [Hu' Hp'].
  pose proof (handle_names r s Hn). auto.
Qed.

Lemma serve_keeps_reservations_witness :
  reservations_wf
    (fst (serve [ book 7 Demo.Ann; book 8 (ReservationBody.mk "B" 1);
                  cancel [("ID", 1)]; listReservationsForFlight 1 ]
            Demo.sold_out)).
Proof.
  apply (serve_keeps_reservations
           [ book 7 Demo.Ann; book 8 (ReservationBody.mk "B" 1);
             cancel [("ID", 1)]; listReservationsForFlight 1 ]
           Demo.sold_out).
  unfold reservations_wf, unique_ids, positive_ids, names_valid, valid_name.
  simpl. repeat split; repeat constructor; simpl; try lia.
Defined.

(** The routes of the booking service write to the Reservation table
    only. *)
Lemma handle_tables r s :
  airports (fst (handle r s)) = airports s /\
  itineraries (fst (handle r s)) = itineraries s /\
  airplanes (fst (handle r s)) = airplanes s /\
  flights (fst (handle r s)) = flights s.
Proof.
  destruct r as [now req | req | ID]; cbn [handle].
  - destruct (post_reservation_create_store now req s)
      as [-> | (body & _ & ->)]; auto.
  - destruct (cancel_store req s) as [-> | (ID & _ & ->)]; auto.
  - rewrite get_reservation_flight_reads. auto.
Qed.

Lemma count_after_delete FlightID ID s :
  reservationsCount FlightID
    (with_reservations (Orm.delete Reservation.ID ID (reservations s)) s)
  <= reservationsCount FlightID s.
Proof.
  unfold reservationsCount, with_reservations, Orm.for_flight, Orm.delete.
  cbn [reservations]. apply inj_le.
  induction (reservations s) as [| r rows IH]; simpl; [lia |].
  destruct (negb (Reservation.ID r =? ID)); simpl;
    destruct (Reservation.FlightID r =? FlightID); simpl; lia.
Qed.

(** X26. Served in turn, the booking service keeps every flight within the
    capacity of its airplane: whatever bookings, cancels and lists come,
    for this flight or for others, a flight that had no more reservations
    than its airplane has seats still has none too many - and the flight
    and airplane rows it is measured against are still the stored ones. *)
Theorem serve_keeps_capacity rs : forall s FlightID f a,
  Orm.find Flights.ID FlightID (flights s) = Some f ->
  Orm.find Airplane.ID (Flights.AirplaneID f) (airplanes s) = Some a ->
  within_capacity FlightID (Airplane.Capacity a) s ->
  let s' := fst (serve rs s) in
  Orm.find Flights.ID FlightID (flights s') = Some f /\
  Orm.find Airplane.ID (Flights.AirplaneID f) (airplanes s') = Some a /\
  within_capacity FlightID (Airplane.Capacity a) s'.
Proof.
  induction rs as [| r rs IH]; intros s FlightID f a Hf Ha Hcap; [auto |].
  cbn zeta. rewrite serve_cons. cbn [fst].
  destruct (handle_tables r s) as (_ & _ & Hplanes & Hflights).
  apply IH.
  - rewrite Hflights. exact Hf.
  - rewrite Hplanes. exact Ha.
  - destruct r as [now req | req | ID]; cbn [handle].
    + apply (booking_preserves_capacity s now req FlightID f a Hf Ha Hcap).
    + unfold within_capacity in *.
      destruct (cancel_store req s) as [-> | (ID & _ & ->)]; [exact Hcap |].
      pose proof (count_after_delete FlightID ID s). lia.
    + rewrite get_reservation_flight_reads. exact Hcap.
Qed.

Lemma serve_keeps_capacity_witness :
  let s' :=
    fst (serve [ book 7 Demo.Ann; book 8 Demo.Bob; cancel [("ID", 1)];
                 book 9 Demo.Bob ] Demo.store) in
  Orm.find Flights.ID 1 (flights s') = Some Demo.f1 /\
  Orm.find Airplane.ID (Flights.AirplaneID Demo.f1) (airplanes s')
  = Some Demo.single /\
  within_capacity 1 (Airplane.Capacity Demo.single) s'.
Proof.
  apply (serve_keeps_capacity
           [ book 7 Demo.Ann; book 8 Demo.Bob; cancel [("ID", 1)];
             book 9 Demo.Bob ] Demo.store 1 Demo.f1 Demo.single);
    [reflexivity | reflexivity |].
  unfold within_capacity. vm_compute. discriminate.
Defined.

Lemma booking_step_rows t s :
  (List.length (reservations (fst (booking_step t s)))
   + (if has_responded (snd (booking_step t s)) then 0 else 1)
   <= List.length (reservations s)
      + (if has_responded t then 0 else 1))%nat.
Proof.
  pose proof (booking_step_store t s) as Hstore.
  pose proof (booking_step_turns t s) as Hturns.
  destruct t as [now req | now body ef | now body ef | res].
  - destruct Hstore as [-> | (row & _ & Hs)].
    + simpl. destruct (has_responded _); lia.
    + exfalso. revert Hs. cbn [booking_step].
      destruct (reservationValidationConstraints req) as [errors b].
      destruct (negb (isEmpty errors));
        [| unfold Orm.Flights_findOne_include; destruct (option_map _ _)];
        cbn [fst]; intros Hs;
        apply (f_equal (fun x => List.length (reservations x))) in Hs;
        unfold with_reservations in Hs; cbn [reservations] in Hs;
        rewrite length_app in Hs; simpl in Hs; lia.
  - destruct Hstore as [-> | (row & _ & Hs)].
    + simpl. destruct (has_responded _); lia.
    + exfalso. revert Hs. cbn [booking_step].
      unfold bind, Orm.Reservation_count, deref, ret, throw.
      destruct (Eager.Airplane ef); [destruct (_ >=? _) |];
        cbn [fst]; intros Hs;
        apply (f_equal (fun x => List.length (reservations x))) in Hs;
        unfold with_reservations in Hs; cbn [reservations] in Hs;
        rewrite length_app in Hs; simpl in Hs; lia.
  - destruct (snd (booking_step (Granted now body ef) s)) eqn:Ht;
      simpl in Hturns; try lia.
    destruct Hstore as [-> | (row & _ & ->)]; simpl.
    + lia.
    + unfold with_reservations. cbn [reservations].
      rewrite length_app. simpl. lia.
  - simpl. lia.
Qed.

Lemma step_nth_rows i : forall ts s,
  (List.length (reservations (fst (step_nth i ts s)))
   + pending (snd (step_nth i ts s))
   <= List.length (reservations s) + pending ts)%nat.
Proof.
  unfold pending.
  induction i as [| i IH]; intros [| t ts] s; simpl; try lia.
  - pose proof (booking_step_rows t s) as H.
    destruct (booking_step t s) as [s' t']. simpl in *.
    destruct (has_responded t'), (has_responded t); simpl in *; lia.
  - specialize (IH ts s). destruct (step_nth i ts s) as [s' ts']. simpl in *.
    destruct (has_responded t); simpl; lia.
Qed.

(** X27. Whatever the schedule, a request writes at most one reservation:
    the rows written while the schedule runs are no more than the requests
    that had not been answered when it began. *)
Theorem one_row_per_request schedule : forall sys,
  (List.length (reservations (db (run_schedule schedule sys)))
   + pending (tasks (run_schedule schedule sys))
   <= List.length (reservations (db sys)) + pending (tasks sys))%nat.
Proof.
  unfold run_schedule.
  induction schedule as [| i schedule IH]; intros sys; cbn [fold_left];
    [lia |].
  specialize (IH (resume i sys)).
  pose proof (step_nth_rows i (tasks sys) (db sys)) as Hstep.
  unfold resume in *.
  destruct (step_nth i (tasks sys) (db sys)) as [s' ts']. simpl in *. lia.
Qed.
